(** * deepagent-scribe: the LaTeX generation client and the content loader

    A shallow embedding of [src/tools/llm_latex_generator.py] and of the
    loader of [src/agents/research_agent/llm_report_generator.py].

    Python [str] values are sequences of Unicode code points, Python [int]s
    are unbounded: a string is a [list N], an index or a length is a [Z].
    The text-generation service, [json.loads], [csv.reader] and the file
    system are collaborators of the program; they are the variables of the
    section [Program], so every theorem holds for each of their
    behaviours.  Console output is not modelled. *)

From Stdlib Require Import String Ascii DecimalString.
From Stdlib Require Import List ZArith NArith QArith Lia Bool.
Import ListNotations.

Set Warnings "-register-all".

Local Open Scope Q_scope.
Local Open Scope Z_scope.

(** ** Python strings *)

Module PyStr.

Definition pystr : Type := list N.

(** An ASCII literal of the source, as code points. *)
Definition lit (s : string) : pystr := map N_of_ascii (list_ascii_of_string s).

(** [len(s)] *)
Definition len (s : pystr) : Z := Z.of_nat (length s).

(** [str(n)] and [{n}] inside an f-string, for an [int]. *)
Definition str_of_int (z : Z) : pystr := lit (NilZero.string_of_int (Z.to_int z)).

(** [c.isspace()]: the code points CPython's [_PyUnicode_IsWhitespace]
    accepts, which are the ones [str.strip()] removes. *)
Definition isspace (c : N) : bool :=
  ((9 <=? c) && (c <=? 13) || (28 <=? c) && (c <=? 32)
   || (c =? 133) || (c =? 160) || (c =? 5760)
   || (8192 <=? c) && (c <=? 8202)
   || (c =? 8232) || (c =? 8233) || (c =? 8239) || (c =? 8287)
   || (c =? 12288))%N.

Fixpoint lstrip (s : pystr) : pystr :=
  match s with
  | c :: t => if isspace c then lstrip t else s
  | [] => []
  end.

Definition rstrip (s : pystr) : pystr := rev (lstrip (rev s)).

(** [s.strip()] *)
Definition strip (s : pystr) : pystr := rstrip (lstrip s).

(** [s.startswith(sub)] *)
Fixpoint startswith (sub s : pystr) : bool :=
  match sub, s with
  | [], _ => true
  | _ :: _, [] => false
  | a :: sub', b :: s' => (a =? b)%N && startswith sub' s'
  end.

(** [sub in s] *)
Fixpoint contains (sub s : pystr) : bool :=
  startswith sub s ||
  match s with
  | [] => false
  | _ :: t => contains sub t
  end.

(** The scan of [str.find]: the lowest position of [s] where [sub] starts,
    positions counted from [i]; [-1] when there is none. *)
Fixpoint find_from (sub s : pystr) (i : Z) : Z :=
  if startswith sub s then i
  else match s with
       | [] => -1
       | _ :: t => find_from sub t (i + 1)
       end.

(** How [find] and slicing read a start or stop index: a negative index
    counts from the end, and is clamped at 0. *)
Definition from_end (n i : Z) : Z := if i <? 0 then Z.max 0 (i + n) else i.

(** [s.find(sub, start)] *)
Definition find (s sub : pystr) (start : Z) : Z :=
  let st := from_end (len s) start in
  if len s <? st then -1
  else find_from sub (skipn (Z.to_nat st) s) st.

(** [s[start:stop]], for a string or a list *)
Definition slice {A} (s : list A) (start stop : Z) : list A :=
  let n := Z.of_nat (length s) in
  let a := Z.min (from_end n start) n in
  let b := Z.min (from_end n stop) n in
  firstn (Z.to_nat (b - a)) (skipn (Z.to_nat a) s).

(** [s[:stop]] *)
Definition take {A} (stop : Z) (s : list A) : list A := slice s 0 stop.

(** The scan of [str.count] for a non-empty [sub]: occurrences that do not
    overlap; [skip] is the number of characters still covered by the last
    occurrence counted. *)
Fixpoint count_scan (sub s : pystr) (skip : nat) : Z :=
  match s with
  | [] => 0
  | _ :: t =>
      match skip with
      | S k => count_scan sub t k
      | O => if startswith sub s
             then 1 + count_scan sub t (length sub - 1)
             else count_scan sub t 0
      end
  end.

(** [s.count(sub)] *)
Definition count (s sub : pystr) : Z :=
  match sub with
  | [] => len s + 1
  | _ :: _ => count_scan sub s 0
  end.

(** [sep.join(parts)] *)
Fixpoint join (sep : pystr) (parts : list pystr) : pystr :=
  match parts with
  | [] => []
  | [p] => p
  | p :: rest => p ++ sep ++ join sep rest
  end.

(** The newline, which a Python literal writes with an escape. *)
Definition nl : pystr := [10%N].

(** [not s], the truth value of a string negated *)
Definition is_empty (s : pystr) : bool :=
  match s with [] => true | _ :: _ => false end.

(** [a == b] *)
Definition eqb (a b : pystr) : bool :=
  (length a =? length b)%nat && startswith a b.

End PyStr.
Import PyStr.


(** ** Values, exceptions and the service *)

(** What [json.loads] can return, which is also what the variable
    [warnings] of [_validate_and_fix_latex] can hold.  A float is the
    dyadic number [m * 2 ^ e], or none of them. *)
Inductive pyfloat : Type :=
| FNan
| FInf (negative : bool)
| FFin (m e : Z).

Inductive pyval : Type :=
| VNone
| VBool (b : bool)
| VInt (z : Z)
| VFloat (f : pyfloat)
| VStr (s : pystr)
| VList (l : list pyval)
| VDict (d : list (pystr * pyval)).

(** An exception, with the text [str(e)] gives. *)
Inductive exc : Type := Exception (msg : pystr).

Definition str_of_exc (e : exc) : pystr := match e with Exception m => m end.

Inductive result (A : Type) : Type :=
| Ok (a : A)
| Raise (e : exc).
Arguments Ok {A} a.
Arguments Raise {A} e.

(** [type(v).__name__] *)
Definition type_name (v : pyval) : pystr :=
  match v with
  | VNone => lit "NoneType"
  | VBool _ => lit "bool"
  | VInt _ => lit "int"
  | VFloat _ => lit "float"
  | VStr _ => lit "str"
  | VList _ => lit "list"
  | VDict _ => lit "dict"
  end.

(** [bool(v)] *)
Definition truthy (v : pyval) : bool :=
  match v with
  | VNone => false
  | VBool b => b
  | VInt z => negb (z =? 0)
  | VFloat FNan => true
  | VFloat (FInf _) => true
  | VFloat (FFin m _) => negb (m =? 0)
  | VStr s => negb (is_empty s)
  | VList l => match l with [] => false | _ :: _ => true end
  | VDict d => match d with [] => false | _ :: _ => true end
  end.

(** [len(v)]: a [TypeError] for a value that has no length. *)
Definition py_len (v : pyval) : result Z :=
  match v with
  | VStr s => Ok (len s)
  | VList l => Ok (Z.of_nat (length l))
  | VDict d => Ok (Z.of_nat (length d))
  | _ => Raise (Exception (lit "object of type '" ++ type_name v ++ lit "' has no len()"))
  end.

(** The items [list.extend(v)] appends: the elements of a list, the
    characters of a string, the keys of a dict; a [TypeError] otherwise. *)
Definition py_iter (v : pyval) : result (list pyval) :=
  match v with
  | VStr s => Ok (map (fun c => VStr [c]) s)
  | VList l => Ok l
  | VDict d => Ok (map (fun kv => VStr (fst kv)) d)
  | _ => Raise (Exception (lit "'" ++ type_name v ++ lit "' object is not iterable"))
  end.

(** [d.get(key, default)], a dict being the list of its items; [None] is
    the [AttributeError] of a value that is no dict. *)
Fixpoint assoc_get (d : list (pystr * pyval)) (key : pystr) (default : pyval) : pyval :=
  match d with
  | [] => default
  | (k, v) :: rest => if PyStr.eqb k key then v else assoc_get rest key default
  end.

Definition dict_get (v : pyval) (key : pystr) (default : pyval) : option pyval :=
  match v with
  | VDict d => Some (assoc_get d key default)
  | _ => None
  end.

(** One call of [client.messages.create]. *)
Record api_request : Type := {
  model : pystr;
  max_tokens : Z;
  temperature : Q;
  prompt : pystr
}.

(** The calls sent to the service so far, the latest first. *)
Definition world : Type := list api_request.

(** A method of the generator: it may call the service, and it returns
    or raises. *)
Definition M (A : Type) : Type := world -> result A * world.

Definition ret {A} (a : A) : M A := fun w => (Ok a, w).

Definition bind {A B} (m : M A) (k : A -> M B) : M B :=
  fun w => match m w with
           | (Ok a, w') => k a w'
           | (Raise e, w') => (Raise e, w')
           end.

Definition lift {A} (r : result A) : M A := fun w => (r, w).

(** [try: body  except Exception as e: handler] *)
Definition try_except {A} (body : M A) (handler : exc -> M A) : M A :=
  fun w => match body w with
           | (Ok a, w') => (Ok a, w')
           | (Raise e, w') => handler e w'
           end.

Notation "x <- m ;; k" := (bind m (fun x => k))
  (at level 61, m at next level, right associativity).
Notation "' pat <- m ;; k" := (bind m (fun x => match x with pat => k end))
  (at level 61, pat pattern, m at next level, right associativity).

(** The number of service calls a run made. *)
Definition calls_made (before after : world) : Z :=
  Z.of_nat (length after) - Z.of_nat (length before).

(** ** The records of [llm_latex_generator.py] *)

(** A section dict [{title, content, type}]. *)
Record section_dict : Type := {
  sec_title : pystr;
  sec_content : pystr;
  sec_type : pystr
}.

(** A table dict [{caption, data, format}]. *)
Record table_dict : Type := {
  tbl_caption : pystr;
  tbl_data : list (list pystr);
  tbl_format : pystr
}.

(** A figure dict [{path, caption, width}]. *)
Record figure_dict : Type := {
  fig_path : pystr;
  fig_caption : pystr;
  fig_width : pystr
}.

Record LaTeXGenerationRequest : Type := {
  title : pystr;
  author : pystr;
  content_sections : list section_dict;
  tables : list table_dict;
  figures : list figure_dict;
  requirements : list pystr
}.

Record LaTeXGenerationResult : Type := {
  success : bool;
  latex_content : pystr;
  warnings : list pyval;
  improvements_made : list pystr;
  error_message : option pystr
}.

(** The fixed text blocks of the three correction prompts, around the
    values their f-strings insert. *)
Record prompt_texts : Type := {
  validation_head : pystr;
  validation_tail : pystr;
  fix_head : pystr;
  fix_mid : pystr;
  fix_tail : pystr;
  correction_head : pystr;
  correction_mid : pystr;
  correction_tail : pystr
}.

(** The double quote, and the literals of the source that hold one. *)
Definition dq : pystr := [34%N].
Definition ISSUES_MARKER : pystr := dq ++ lit "issues" ++ dq ++ lit ":".
Definition FENCE : pystr := lit "```".
Definition FENCE_LATEX : pystr := lit "```latex".
Definition BEGIN_ENV : pystr := lit "\begin{".
Definition END_ENV : pystr := lit "\end{".
Definition BEGIN_DOCUMENT : pystr := lit "\begin{document}".
Definition END_DOCUMENT : pystr := lit "\end{document}".
Definition MODEL_ID : pystr := lit "claude-sonnet-4-20250514".

(** [range(1, max_attempts + 1)] *)
Definition range_from_1 (max_attempts : Z) : list Z :=
  map Z.of_nat (seq 1 (Z.to_nat max_attempts)).

(** [len(candidate) < len(original) * 0.5]: the product is exact, and
    Python compares an [int] with a [float] exactly, so this is the
    comparison of the integers doubled. *)
Definition shorter_than_half (candidate original : pystr) : bool :=
  2 * len candidate <? len original.

(** ** Stand-ins for the collaborators

    Closed instances of the collaborators, on which the theorems below
    are run at concrete inputs. *)

Module Double.

(** A service that answers its [n]-th call with the [n]-th entry of a
    script, whatever the prompt. *)
Definition scripted (script : list (result pystr))
  : world -> api_request -> result pystr :=
  fun w _ => nth (length w) script (Raise (Exception (lit "connection error"))).

Fixpoint lookup {V} (table : list (pystr * V)) (key : pystr) : option V :=
  match table with
  | [] => None
  | (k, v) :: rest => if PyStr.eqb k key then Some v else lookup rest key
  end.

(** A [json.loads] that knows the texts of a table and rejects the rest. *)
Definition json_table (table : list (pystr * pyval)) : pystr -> option pyval :=
  lookup table.

(** A directory tree with the files of a table. *)
Definition files (table : list (pystr * pystr)) : pystr -> option pystr :=
  lookup table.

(** Cells split at [sep]. *)
Fixpoint split_at (sep : N) (s : pystr) (cell : pystr) : list pystr :=
  match s with
  | [] => [cell]
  | c :: t => if (c =? sep)%N then cell :: split_at sep t []
              else split_at sep t (cell ++ [c])
  end.

(** A [csv.reader] for files without quoting: one row per line, cells
    split at commas. *)
Definition csv_plain (text : pystr) : list (list pystr) :=
  match text with
  | [] => []
  | _ :: _ => map (fun line => split_at 44 line []) (split_at 10 text [])
  end.

Definition prompt_of_title (request : LaTeXGenerationRequest) : pystr :=
  lit "Generate: " ++ title request.

Definition texts : prompt_texts :=
  {| validation_head := lit "Validate: ";
     validation_tail := lit " (end)";
     fix_head := lit "Fix: ";
     fix_mid := lit " Issues: ";
     fix_tail := lit " (end)";
     correction_head := lit "Correct: ";
     correction_mid := lit " Error: ";
     correction_tail := lit " (end)" |}.

Definition empty_request : LaTeXGenerationRequest :=
  {| title := lit "Report"; author := lit "A. Author";
     content_sections := []; tables := []; figures := [];
     requirements := [] |}.

(** A listing of [images/]: the paths each pattern matches. *)
Definition glob_table (table : list (pystr * list pystr))
  : pystr -> pystr -> list pystr :=
  fun _ pattern =>
    match lookup table pattern with
    | Some paths => paths
    | None => []
    end.

(** A [relative_to] on paths as text: what follows [parent/], or the
    [ValueError] of a path that is not below [parent]. *)
Definition relative_under (p parent : pystr) : result pystr :=
  if startswith (parent ++ lit "/") p then Ok (skipn (length parent + 1) p)
  else Raise (Exception (lit "path is not in the subpath of the parent")).

(** The text after the last [sep] of [s]. *)
Fixpoint after_last (sep : N) (s : pystr) (tail : pystr) : pystr :=
  match s with
  | [] => tail
  | c :: t => if (c =? sep)%N then after_last sep t [] else after_last sep t (tail ++ [c])
  end.

(** The text before the first [sep] of [s]. *)
Fixpoint before_first (sep : N) (s : pystr) : pystr :=
  match s with
  | [] => []
  | c :: t => if (c =? sep)%N then [] else c :: before_first sep t
  end.

(** A stem for file names with one dot. *)
Definition stem_of (p : pystr) : pystr := before_first 46 (after_last 47 p []).

(** A compiler that succeeds on a file that has been written. *)
Definition compile_if_written (files : list (pystr * pystr)) (path : pystr)
  : bool * pystr :=
  match lookup files path with
  | Some _ => (true, lit "compiled")
  | None => (false, lit "no such file")
  end.

End Double.

(** ** The prompts

    The text of the prompts, as the source writes it.  The dicts of a
    request are the records above, which hold every key, so each
    [d.get(key, default)] of the builder is the field. *)

Module Prompt.

(** A text written line by line. *)
Definition text (lines : list pystr) : pystr := join nl lines.

(** A checksum of a text, to compare it with the string of the source. *)
Fixpoint weighted_sum (s : pystr) (i : N) : N :=
  match s with
  | [] => 0
  | c :: t => (i * c + weighted_sum t (i + 1))%N
  end.

Definition checksum (s : pystr) : Z * N :=
  (len s, (weighted_sum s 1 mod 1000003)%N).

(** The generation prompt up to the title (lines 150-162). *)
Definition GENERATION_HEAD : pystr :=
  text
    [ lit "You are a LaTeX document generation expert. Generate a complete, professional LaTeX document based on the following specifications.";
      [];
      lit "**CRITICAL REQUIREMENTS:**";
      lit "1. Generate COMPLETE, VALID LaTeX that compiles without errors";
      lit "2. Use ONLY packages that are commonly available in TeX Live";
      lit "3. Escape ALL special LaTeX characters properly (%, $, &, #, _, {, }, etc.)";
      lit "4. Include proper document structure: preamble, \begin{document}, content, \end{document}";
      lit "5. Use proper spacing and formatting for readability";
      lit "6. Include table of contents if document has multiple sections";
      lit "7. Add page numbers and basic header/footer";
      [];
      lit "**Document Specifications:**";
      lit "Title: " ].

(** The closing block of the generation prompt (lines 201-225). *)
Definition OUTPUT_INSTRUCTIONS : pystr :=
  text
    [ [];
      [];
      lit "**Output Instructions:**";
      lit "Generate a COMPLETE LaTeX document with the following structure:";
      [];
      lit "1. Preamble with necessary packages (use standard packages only)";
      lit "2. Document metadata (title, author, date)";
      lit "3. \begin{document}";
      lit "4. Title page with \maketitle";
      lit "5. Table of contents (if multiple sections)";
      lit "6. All content sections with proper formatting";
      lit "7. All tables with proper booktabs formatting";
      lit "8. All figures with proper placement";
      lit "9. \end{document}";
      [];
      lit "**IMPORTANT:**";
      lit "- Escape special characters: % " ++ [8594%N] ++ lit " \%, $ " ++ [8594%N] ++ lit " \$, & " ++ [8594%N] ++ lit " \&, # " ++ [8594%N] ++ lit " \#, _ " ++ [8594%N] ++ lit " \_, { " ++ [8594%N] ++ lit " \{, } " ++ [8594%N] ++ lit " \}";
      lit "- Use \section{}, \subsection{}, etc. for structure";
      lit "- Use [H] placement for tables/figures to avoid floating issues";
      lit "- Include \usepackage{hyperref} for clickable links";
      lit "- Use \usepackage{geometry} for proper margins";
      lit "- Use \usepackage{fancyhdr} for headers/footers";
      [];
      lit "Return ONLY the complete LaTeX code, no explanations or markdown code blocks.";
      [] ].

(** The validation prompt before the document (lines 251-254). *)
Definition VALIDATION_HEAD : pystr :=
  text
    [ lit "You are a LaTeX syntax validator and fixer. Analyze this LaTeX document and fix any issues.";
      [];
      lit "**LaTeX Document to Validate:**";
      lit "```latex";
      [] ].

(** The validation prompt after the document (lines 256-278). *)
Definition VALIDATION_TAIL : pystr :=
  text
    [ [];
      lit "```";
      [];
      lit "**Validation Checklist:**";
      lit "1. Proper document structure (\documentclass, \begin{document}, \end{document})";
      lit "2. All special characters properly escaped";
      lit "3. All environments properly closed";
      lit "4. Package usage is correct and packages exist";
      lit "5. No syntax errors";
      lit "6. Proper use of math mode";
      lit "7. Figure and table references are valid";
      lit "8. No orphaned braces or brackets";
      [];
      lit "**Your Task:**";
      lit "1. Identify any syntax errors or issues";
      lit "2. Fix all issues while preserving the document's intent";
      lit "3. List what improvements you made";
      [];
      lit "**Output Format:**";
      lit "First, list any issues you found as JSON:";
      lit "{" ++ dq ++ lit "issues" ++ dq ++ lit ": [" ++ dq ++ lit "issue1" ++ dq ++ lit ", " ++ dq ++ lit "issue2" ++ dq ++ lit "]}";
      [];
      lit "Then provide the CORRECTED LaTeX code (complete document).";
      [] ].

(** The fix prompt before the document (lines 340-343). *)
Definition FIX_HEAD : pystr :=
  text
    [ lit "You are a LaTeX document improvement specialist. You need to fix specific visual quality issues in a LaTeX document.";
      [];
      lit "**Current LaTeX Document:**";
      lit "```latex";
      [] ].

(** The fix prompt between the document and the issues (lines 345-347). *)
Definition FIX_MID : pystr :=
  text
    [ [];
      lit "```";
      [];
      lit "**Issues to Fix:**";
      [] ].

(** The fix prompt after the issues (lines 348-378). *)
Definition FIX_TAIL : pystr :=
  text
    [ [];
      [];
      lit "**Your Task:**";
      lit "1. Analyze each issue carefully";
      lit "2. Apply MINIMAL, SURGICAL fixes to address each issue";
      lit "3. Do NOT break existing LaTeX syntax";
      lit "4. Use ONLY standard LaTeX packages that compile reliably";
      lit "5. Test that all environments are properly opened and closed";
      lit "6. Ensure the document structure remains intact";
      [];
      lit "**Common Fixes:**";
      lit "- Missing page numbers: Ensure \fancyfoot[C]{\thepage} is set";
      lit "- Missing table of contents: Add \tableofcontents after \maketitle";
      lit "- Spacing issues: Use \setlength or \vspace commands (NOT microtype package)";
      lit "- Typography issues: Adjust font sizes with \large, \Large, etc.";
      lit "- Header/footer issues: Use fancyhdr package properly";
      lit "- Line spacing: Use \linespread{} or manual spacing commands";
      [];
      lit "**Critical Rules:**";
      lit "- Do NOT add \usepackage after \begin{document}";
      lit "- Do NOT use packages that don't exist (like longtabu)";
      lit "- Do NOT use microtype package (causes font expansion errors)";
      lit "- Do NOT use setspace package if it causes issues";
      lit "- Preserve ALL existing content";
      lit "- Only modify formatting/structure";
      lit "- Use simple, reliable LaTeX commands";
      [];
      lit "**IMPORTANT: This LaTeX will be compiled immediately. Ensure it compiles without errors.**";
      [];
      lit "Return the COMPLETE CORRECTED LaTeX document, no explanations.";
      [] ].

(** The correction prompt before the document (lines 444-447). *)
Definition CORRECTION_HEAD : pystr :=
  text
    [ lit "You are a LaTeX debugging expert. A LaTeX document failed to compile and you need to fix it.";
      [];
      lit "**LaTeX Document (FAILED TO COMPILE):**";
      lit "```latex";
      [] ].

(** The correction prompt between the document and the error text (lines 449-452). *)
Definition CORRECTION_MID : pystr :=
  text
    [ [];
      lit "```";
      [];
      lit "**Compilation Error:**";
      lit "```";
      [] ].

(** The correction prompt after the error text (lines 454-480). *)
Definition CORRECTION_TAIL : pystr :=
  text
    [ [];
      lit "```";
      [];
      lit "**Your Task:**";
      lit "1. **Analyze the error carefully** - understand what went wrong";
      lit "2. **Identify the root cause** - is it a package issue, syntax error, or incompatibility?";
      lit "3. **Generate a corrected version** that will compile successfully";
      lit "4. **Use ONLY reliable, standard LaTeX techniques**";
      [];
      lit "**Common Error Fixes:**";
      lit "- " ++ dq ++ lit "auto expansion is only possible with scalable fonts" ++ dq ++ lit " " ++ [8594%N] ++ lit " REMOVE microtype package or disable expansion";
      lit "- " ++ dq ++ lit "File X.sty not found" ++ dq ++ lit " " ++ [8594%N] ++ lit " REMOVE that package and use alternative approach";
      lit "- " ++ dq ++ lit "Missing \begin{document}" ++ dq ++ lit " " ++ [8594%N] ++ lit " Fix document structure";
      lit "- " ++ dq ++ lit "Too many }" ++ dq ++ lit " or " ++ dq ++ lit "Missing }" ++ dq ++ lit " " ++ [8594%N] ++ lit " Fix brace matching";
      lit "- Package conflicts " ++ [8594%N] ++ lit " Remove conflicting packages";
      [];
      lit "**Critical Rules:**";
      lit "- If a package causes errors, REMOVE it entirely and use manual commands instead";
      lit "- If microtype fails, remove it and use \linespread{} for spacing";
      lit "- If setspace fails, use \setlength{\baselineskip}{} instead";
      lit "- Preserve ALL document content";
      lit "- Focus on making it COMPILE, not perfection";
      lit "- Use simple, proven LaTeX commands";
      [];
      lit "**IMPORTANT: The corrected LaTeX MUST compile without errors.**";
      [];
      lit "Return ONLY the COMPLETE CORRECTED LaTeX document, no explanations.";
      [] ].

(** The fixed blocks of the three correction prompts. *)
Definition source_texts : prompt_texts :=
  {| validation_head := VALIDATION_HEAD;
     validation_tail := VALIDATION_TAIL;
     fix_head := FIX_HEAD;
     fix_mid := FIX_MID;
     fix_tail := FIX_TAIL;
     correction_head := CORRECTION_HEAD;
     correction_mid := CORRECTION_MID;
     correction_tail := CORRECTION_TAIL |}.

Section Builder.

(** [json.dumps] on the rows of a table. *)
Variable json_dumps : list (list pystr) -> pystr.

Definition sections_summary (request : LaTeXGenerationRequest) : pystr :=
  join nl
    (map (fun sec =>
            lit "- " ++ sec_title sec ++ lit ": "
            ++ str_of_int (len (sec_content sec)) ++ lit " characters")
         (content_sections request)).

Definition tables_summary (request : LaTeXGenerationRequest) : pystr :=
  match tables request with
  | [] => lit "No tables"
  | _ :: _ =>
      join nl (map (fun table => lit "- " ++ tbl_caption table) (tables request))
  end.

Definition figures_summary (request : LaTeXGenerationRequest) : pystr :=
  match figures request with
  | [] => lit "No figures"
  | _ :: _ =>
      join nl
        (map (fun fig => lit "- " ++ fig_caption fig ++ lit ": " ++ fig_path fig)
             (figures request))
  end.

Definition requirements_text (request : LaTeXGenerationRequest) : pystr :=
  match requirements request with
  | [] => lit "Standard research document formatting"
  | _ :: _ => join nl (map (fun req => lit "- " ++ req) (requirements request))
  end.

(** The header line of section [i] in the details. *)
Definition section_header (i : Z) (section : section_dict) : pystr :=
  nl ++ nl ++ lit "--- Section " ++ str_of_int i ++ lit ": "
  ++ sec_title section ++ lit " ---" ++ nl.

(** The loop over [enumerate(request.content_sections, 1)]. *)
Fixpoint add_section_details (prompt : pystr) (i : Z)
    (sections : list section_dict) : pystr :=
  match sections with
  | [] => prompt
  | section :: rest =>
      let prompt := prompt ++ section_header i section in
      let prompt := prompt ++ sec_content section in
      add_section_details prompt (i + 1) rest
  end.

(** The body of the loop over [request.tables]. *)
Definition add_table_data (prompt : pystr) (table : table_dict) : pystr :=
  let prompt := prompt ++ (nl ++ lit "Table: " ++ tbl_caption table ++ nl) in
  prompt ++ (lit "Data: " ++ json_dumps (tbl_data table) ++ nl).

(** The body of the loop over [request.figures]. *)
Definition add_figure_information (prompt : pystr) (fig : figure_dict) : pystr :=
  let prompt := prompt ++ (nl ++ lit "Figure: " ++ fig_caption fig ++ nl) in
  let prompt := prompt ++ (lit "Path: " ++ fig_path fig ++ nl) in
  prompt ++ (lit "Width: " ++ fig_width fig ++ nl).

(** The f-string the prompt starts from (lines 150-178), after the
    title. *)
Definition after_title (request : LaTeXGenerationRequest) : pystr :=
  nl ++ lit "Author: " ++ author request
  ++ nl ++ nl ++ lit "**Content Sections:**" ++ nl ++ sections_summary request
  ++ nl ++ nl ++ lit "**Tables:**" ++ nl ++ tables_summary request
  ++ nl ++ nl ++ lit "**Figures:**" ++ nl ++ figures_summary request
  ++ nl ++ nl ++ lit "**Special Requirements:**" ++ nl ++ requirements_text request
  ++ nl ++ nl ++ lit "**Content Details:**" ++ nl.

(** The f-string the prompt starts from (lines 150-178). *)
Definition opening (request : LaTeXGenerationRequest) : pystr :=
  GENERATION_HEAD ++ title request ++ after_title request.

Definition _build_generation_prompt (request : LaTeXGenerationRequest) : pystr :=
  let prompt := opening request in
  let prompt := add_section_details prompt 1 (content_sections request) in
  let prompt :=
    match tables request with
    | [] => prompt
    | _ :: _ =>
        fold_left add_table_data (tables request)
          (prompt ++ (nl ++ nl ++ lit "**Table Data:**" ++ nl))
    end in
  let prompt :=
    match figures request with
    | [] => prompt
    | _ :: _ =>
        fold_left add_figure_information (figures request)
          (prompt ++ (nl ++ nl ++ lit "**Figure Information:**" ++ nl))
    end in
  prompt ++ OUTPUT_INSTRUCTIONS.

End Builder.

End Prompt.

(** ** The generator: [LLMLaTeXGenerator] *)

Section Program.

Set Default Proof Using "Type".

(** The service behind [self.client]: from the calls already made and the
    call at hand, the text of the reply ([response.content[0].text]) or the
    exception raised on the way to it. *)
Variable service : world -> api_request -> result pystr.

(** [json.loads]; [None] when it raises. *)
Variable json_loads : pystr -> option pyval.

(** [_build_generation_prompt] (lines 125-227): an f-string and
    concatenations over the request, which raise nothing on a request whose
    fields are strings.  The text of a prompt plays no part in what the
    methods do with the reply. *)
Variable _build_generation_prompt : LaTeXGenerationRequest -> pystr.

Variable txt : prompt_texts.

(** The call [self.client.messages.create(model=..., max_tokens=...,
    temperature=..., messages=[user prompt])]. *)
Definition make_call (max_tok : Z) (temp : Q) (p : pystr) : api_request :=
  {| model := MODEL_ID; max_tokens := max_tok; temperature := temp; prompt := p |}.

(** [self.client.messages.create(...)] followed by [.content[0].text] *)
Definition messages_create (max_tok : Z) (temp : Q) (p : pystr) : M pystr :=
  fun w => (service w (make_call max_tok temp p), make_call max_tok temp p :: w).

Definition _extract_latex_from_response (response_text : pystr) : pystr :=
  if contains FENCE_LATEX response_text then
    let start := find response_text FENCE_LATEX 0 + 8 in
    let end_ := find response_text FENCE start in
    strip (slice response_text start end_)
  else if contains FENCE response_text then
    let start := find response_text FENCE 0 + 3 in
    let end_ := find response_text FENCE start in
    strip (slice response_text start end_)
  else
    strip response_text.

Definition _generate_initial_latex (request : LaTeXGenerationRequest) : M pystr :=
  let prompt := _build_generation_prompt request in
  try_except
    (response_text <- messages_create 8000 0.2 prompt ;;
     let latex_content := _extract_latex_from_response response_text in
     ret latex_content)
    (fun e => ret []).

(** The span [response_text[start:end]] handed to [json.loads]. *)
Definition issues_span (response_text : pystr) : pystr :=
  let start := find response_text (lit "{") 0 in
  let end_ := find response_text (lit "}") start + 1 in
  slice response_text start end_.

(** The inner [try] of [_validate_and_fix_latex], whose bare [except]
    replaces every failure by the generic warning. *)
Definition extract_issues (response_text : pystr) : pyval :=
  if contains ISSUES_MARKER response_text then
    match json_loads (issues_span response_text) with
    | Some issues_json =>
        match dict_get issues_json (lit "issues") (VList []) with
        | Some w => w
        | None => VList [VStr (lit "Unable to parse validation issues")]
        end
    | None => VList [VStr (lit "Unable to parse validation issues")]
    end
  else VList [].

(** The body of the outer [try] of [_validate_and_fix_latex].  The second
    [py_len] is the [len(warnings)] of the progress line printed before the
    return. *)
Definition validate_and_fix_body (latex_content : pystr)
  : M (pystr * pyval * list pystr) :=
  let validation_prompt :=
    validation_head txt ++ latex_content ++ validation_tail txt in
  response_text <- messages_create 8000 0.1 validation_prompt ;;
  let warnings := extract_issues response_text in
  let fixed_latex := _extract_latex_from_response response_text in
  if is_empty fixed_latex || shorter_than_half fixed_latex latex_content then
    ret (latex_content, warnings, [])
  else
    improvements <-
      (if truthy warnings then
         n <- lift (py_len warnings) ;;
         ret [lit "Fixed " ++ str_of_int n ++ lit " LaTeX issues"]
       else ret []) ;;
    _ <- lift (py_len warnings) ;;
    ret (fixed_latex, warnings, improvements).

Definition _validate_and_fix_latex (latex_content : pystr)
    (request : LaTeXGenerationRequest) : M (pystr * pyval * list pystr) :=
  try_except
    (validate_and_fix_body latex_content)
    (fun e =>
       ret (latex_content,
            VList [VStr (lit "Validation failed: " ++ str_of_exc e)],
            [])).

Definition generate_document (request : LaTeXGenerationRequest)
    (validate : bool) : M LaTeXGenerationResult :=
  latex_content <- _generate_initial_latex request ;;
  if is_empty latex_content then
    ret {| success := false;
           latex_content := [];
           warnings := [];
           improvements_made := [];
           error_message := Some (lit "Failed to generate initial LaTeX") |}
  else if validate then
    '(latex_content', validation_warnings, fixes) <-
      _validate_and_fix_latex latex_content request ;;
    extended <- lift (py_iter validation_warnings) ;;
    ret {| success := true;
           latex_content := latex_content';
           warnings := [] ++ extended;
           improvements_made := [] ++ fixes;
           error_message := None |}
  else
    ret {| success := true;
           latex_content := latex_content;
           warnings := [];
           improvements_made := [];
           error_message := None |}.

(** The three early returns of [apply_visual_qa_fixes] fail; what is left
    is the acceptance test of a candidate. *)
Definition visual_qa_accepts (fixed_latex latex_content : pystr) : bool :=
  negb (is_empty fixed_latex || shorter_than_half fixed_latex latex_content)
  && (count fixed_latex BEGIN_ENV =? count fixed_latex END_ENV)
  && (contains BEGIN_DOCUMENT fixed_latex && contains END_DOCUMENT fixed_latex).

Definition apply_visual_qa_fixes (latex_content : pystr) (issues : list pystr)
  : M (pystr * bool * list pystr) :=
  let issues_text := join nl (map (fun issue => lit "- " ++ issue) issues) in
  let fix_prompt :=
    fix_head txt ++ latex_content ++ fix_mid txt ++ issues_text ++ fix_tail txt in
  try_except
    (response_text <- messages_create 8000 0.1 fix_prompt ;;
     let fixed_latex := _extract_latex_from_response response_text in
     if is_empty fixed_latex || shorter_than_half fixed_latex latex_content then
       ret (latex_content, false, [])
     else if negb (count fixed_latex BEGIN_ENV =? count fixed_latex END_ENV) then
       ret (latex_content, false, [])
     else if negb (contains BEGIN_DOCUMENT fixed_latex)
             || negb (contains END_DOCUMENT fixed_latex) then
       ret (latex_content, false, [])
     else
       let fixes_applied :=
         [lit "Applied fixes for: " ++ join (lit ", ") (take 3 issues)] in
       ret (fixed_latex, true, fixes_applied))
    (fun e => ret (latex_content, false, [])).

(** The checks of one attempt of [self_correct_compilation_errors]. *)
Definition correction_accepts (corrected_latex latex_content : pystr) : bool :=
  negb (is_empty corrected_latex || shorter_than_half corrected_latex latex_content)
  && (contains BEGIN_DOCUMENT corrected_latex
      && contains END_DOCUMENT corrected_latex).

(** One turn of the loop of [self_correct_compilation_errors]: [Some] of
    what the method returns, or [None] for [continue]. *)
Definition correction_attempt (latex_content current_latex compilation_error : pystr)
    (corrections_made : list pystr) (attempt : Z)
  : M (option (pystr * bool * list pystr)) :=
  let correction_prompt :=
    correction_head txt ++ current_latex ++ correction_mid txt
    ++ compilation_error ++ correction_tail txt in
  try_except
    (response_text <- messages_create 8000 0.1 correction_prompt ;;
     let corrected_latex := _extract_latex_from_response response_text in
     if is_empty corrected_latex
        || shorter_than_half corrected_latex latex_content then
       ret None
     else if negb (contains BEGIN_DOCUMENT corrected_latex)
             || negb (contains END_DOCUMENT corrected_latex) then
       ret None
     else
       let corrections_made' :=
         corrections_made
         ++ [lit "Attempt " ++ str_of_int attempt ++ lit ": Fixed compilation error"] in
       ret (Some (corrected_latex, true, corrections_made')))
    (fun e => ret None).

Fixpoint correction_loop (latex_content current_latex compilation_error : pystr)
    (corrections_made : list pystr) (attempts : list Z)
  : M (pystr * bool * list pystr) :=
  match attempts with
  | [] => ret (latex_content, false, corrections_made)
  | attempt :: rest =>
      r <- correction_attempt latex_content current_latex compilation_error
             corrections_made attempt ;;
      match r with
      | Some returned => ret returned
      | None => correction_loop latex_content current_latex compilation_error
                  corrections_made rest
      end
  end.

Definition self_correct_compilation_errors (latex_content compilation_error : pystr)
    (max_attempts : Z) : M (pystr * bool * list pystr) :=
  let corrections_made := [] in
  let current_latex := latex_content in
  correction_loop latex_content current_latex compilation_error
    corrections_made (range_from_1 max_attempts).

(** ** The loader: [LLMResearchReportGenerator] *)

(** The files the loader reads: [None] for a path that does not exist,
    else the text [open(path).read()] returns. *)
Variable read_text : pystr -> option pystr.

(** [list(csv.reader(f))] on the text of a file. *)
Variable csv_reader : pystr -> list (list pystr).

(** [Path.exists], [Path.glob], [Path.stem], [Path.parent],
    [Path.relative_to] (which raises [ValueError]) and [str.title]. *)
Variable path_exists : pystr -> bool.
Variable path_glob : pystr -> pystr -> list pystr.
Variable path_stem : pystr -> pystr.
Variable path_parent : pystr -> pystr.
Variable path_relative_to : pystr -> pystr -> result pystr.
Variable str_title : pystr -> pystr.

(** [self.output_dir] *)
Variable output_dir : pystr.

(** [a / b] on paths *)
Definition path_join (a b : pystr) : pystr := a ++ lit "/" ++ b.

Definition artifacts_dir : pystr := lit "artifacts".
Definition content_dir : pystr := path_join artifacts_dir (lit "sample_content").
Definition data_dir : pystr := path_join content_dir (lit "data").
Definition images_dir : pystr := path_join content_dir (lit "images").

Definition load_markdown_content (filename : pystr) : pystr :=
  let file_path := path_join content_dir filename in
  match read_text file_path with
  | Some text => text
  | None => []
  end.

Definition markdown_files : list (pystr * pystr) :=
  [ (lit "introduction.md", lit "Introduction");
    (lit "methodology.md", lit "Methodology");
    (lit "research_areas.md", lit "Research Areas");
    (lit "detailed_results.md", lit "Detailed Results");
    (lit "results.md", lit "Results Discussion");
    (lit "conclusion.md", lit "Conclusion") ].

(** The body of the loop of [load_all_markdown_sections]. *)
Definition add_section (sections : list section_dict) (entry : pystr * pystr)
  : list section_dict :=
  let '(filename, title) := entry in
  let content := load_markdown_content filename in
  if negb (is_empty content) then
    sections ++ [{| sec_title := title;
                    sec_content := content;
                    sec_type := lit "markdown" |}]
  else sections.

Definition load_all_markdown_sections : list section_dict :=
  fold_left add_section markdown_files [].

Definition load_csv_tables : list table_dict :=
  let tables := [] in
  let csv_file := path_join data_dir (lit "model_performance.csv") in
  let tables :=
    match read_text csv_file with
    | Some text =>
        let rows := csv_reader text in
        match rows with
        | _ :: _ =>
            tables ++ [{| tbl_caption := lit "Model Performance Comparison";
                          tbl_data := rows;
                          tbl_format := lit "booktabs" |}]
        | [] => tables
        end
    | None => tables
    end in
  let csv_file2 := path_join data_dir (lit "training_metrics.csv") in
  match read_text csv_file2 with
  | Some text =>
      let rows := csv_reader text in
      match rows with
      | row0 :: _ =>
          if 1 <? Z.of_nat (length rows) then
            let limited_rows := [row0] ++ slice rows 1 6 in
            tables ++ [{| tbl_caption := lit "Training Progression (First 5 Epochs)";
                          tbl_data := limited_rows;
                          tbl_format := lit "booktabs" |}]
          else tables
      | [] => tables
      end
  | None => tables
  end.

(** [s.replace('_', ' ')] *)
Definition underscores_to_spaces (s : pystr) : pystr :=
  map (fun c => if (c =? 95)%N then 32%N else c) s.

(** The inner loop of [load_figures], over the paths one pattern matches. *)
Fixpoint add_figures (figures : list figure_dict) (paths : list pystr)
  : result (list figure_dict) :=
  match paths with
  | [] => Ok figures
  | img_path :: rest =>
      let caption := str_title (underscores_to_spaces (path_stem img_path)) in
      match path_relative_to img_path (path_parent output_dir) with
      | Ok rel =>
          add_figures
            (figures ++ [{| fig_path := rel;
                            fig_caption := caption;
                            fig_width := lit "0.8\textwidth" |}])
            rest
      | Raise e => Raise e
      end
  end.

(** The outer loop of [load_figures], over the patterns. *)
Fixpoint scan_patterns (figures : list figure_dict) (patterns : list pystr)
  : result (list figure_dict) :=
  match patterns with
  | [] => Ok figures
  | ext :: rest =>
      match add_figures figures (path_glob images_dir ext) with
      | Ok figures' => scan_patterns figures' rest
      | Raise e => Raise e
      end
  end.

Definition load_figures : result (list figure_dict) :=
  if path_exists images_dir then
    scan_patterns [] [lit "*.png"; lit "*.jpg"; lit "*.jpeg"; lit "*.pdf"]
  else Ok [].

(** The three loads of [generate_with_patterns]. *)
Definition load_components
  : result (list section_dict * list table_dict * list figure_dict) :=
  let sections := load_all_markdown_sections in
  let tables := load_csv_tables in
  match load_figures with
  | Ok figures => Ok (sections, tables, figures)
  | Raise e => Raise e
  end.

(** ** The vocabulary of the statements *)

(** The calls the four methods send. *)
Definition generation_call (request : LaTeXGenerationRequest) : api_request :=
  make_call 8000 0.2 (_build_generation_prompt request).

Definition validation_call (latex_content : pystr) : api_request :=
  make_call 8000 0.1 (validation_head txt ++ latex_content ++ validation_tail txt).

Definition fix_call (latex_content : pystr) (issues : list pystr) : api_request :=
  make_call 8000 0.1
    (fix_head txt ++ latex_content ++ fix_mid txt
     ++ join nl (map (fun issue => lit "- " ++ issue) issues) ++ fix_tail txt).

Definition correction_call (latex_content compilation_error : pystr) : api_request :=
  make_call 8000 0.1
    (correction_head txt ++ latex_content ++ correction_mid txt
     ++ compilation_error ++ correction_tail txt).

(** What the service answers to attempt [k + 1] of a self-correction
    started in the world [w]: the [k] attempts before it sent the same
    call. *)
Definition attempt_reply (w : world) (latex_content compilation_error : pystr)
    (k : nat) : result pystr :=
  service (repeat (correction_call latex_content compilation_error) k ++ w)
          (correction_call latex_content compilation_error).

(** The structural checks of a correction: non-empty, at least half the
    original length, both document markers. *)
Definition structurally_valid (candidate original : pystr) : Prop :=
  candidate <> []
  /\ len original <= 2 * len candidate
  /\ contains BEGIN_DOCUMENT candidate = true
  /\ contains END_DOCUMENT candidate = true.

(** Attempt [k + 1] gets a reply, and what is extracted from it passes the
    structural checks. *)
Definition attempt_valid (w : world) (latex_content compilation_error : pystr)
    (k : nat) : Prop :=
  exists response_text,
    attempt_reply w latex_content compilation_error k = Ok response_text
    /\ structurally_valid (_extract_latex_from_response response_text) latex_content.

Definition attempt_accepted (w : world) (latex_content compilation_error : pystr)
    (k : nat) : bool :=
  match attempt_reply w latex_content compilation_error k with
  | Ok response_text =>
      correction_accepts (_extract_latex_from_response response_text) latex_content
  | Raise _ => false
  end.

(** The log entry of an accepted attempt. *)
Definition attempt_entry (attempt : Z) : pystr :=
  lit "Attempt " ++ str_of_int attempt ++ lit ": Fixed compilation error".

(** The checks of [apply_visual_qa_fixes]: the structural checks and
    as many [\begin{] as [\end{]. *)
Definition balanced_and_valid (candidate original : pystr) : Prop :=
  candidate <> []
  /\ len original <= 2 * len candidate
  /\ count candidate BEGIN_ENV = count candidate END_ENV
  /\ contains BEGIN_DOCUMENT candidate = true
  /\ contains END_DOCUMENT candidate = true.

(** The warnings of a parse failure. *)
Definition UNABLE_TO_PARSE : pyval :=
  VList [VStr (lit "Unable to parse validation issues")].

(** Following the words of the specification: the position of the [}]
    that matches an opening brace, in the text [s] after that brace, which
    starts at position [i]; [-1] when there is none. *)
Fixpoint matching_close (s : pystr) (depth : nat) (i : Z) : Z :=
  match s with
  | [] => -1
  | c :: t =>
      if (c =? 125)%N then
        match depth with
        | O => i
        | S d => matching_close t d (i + 1)
        end
      else if (c =? 123)%N then matching_close t (S depth) (i + 1)
      else matching_close t depth (i + 1)
  end.

(** Following the words of the specification: the issue JSON as the first
    [{] after the marker text and its matching [}]. *)
Definition spec_issues_span (response_text : pystr) : pystr :=
  let marker := find response_text ISSUES_MARKER 0 in
  let start := find response_text (lit "{") (marker + len ISSUES_MARKER) in
  if start =? -1 then []
  else
    let close :=
      matching_close (skipn (Z.to_nat (start + 1)) response_text) 0 (start + 1) in
    if close =? -1 then [] else slice response_text start (close + 1).

(** Following the words of the specification: a section for each of the
    six files that exists, in the declared order. *)
Definition sections_of_existing_files : list section_dict :=
  flat_map
    (fun entry : pystr * pystr =>
       match read_text (path_join content_dir (fst entry)) with
       | Some content =>
           [{| sec_title := snd entry;
               sec_content := content;
               sec_type := lit "markdown" |}]
       | None => []
       end)
    markdown_files.

(** A section for each of the six files that exists and is not empty, in
    the declared order. *)
Definition sections_of_nonempty_files : list section_dict :=
  flat_map
    (fun entry : pystr * pystr =>
       match read_text (path_join content_dir (fst entry)) with
       | Some (c :: content) =>
           [{| sec_title := snd entry;
               sec_content := c :: content;
               sec_type := lit "markdown" |}]
       | _ => []
       end)
    markdown_files.

(** The figure [load_figures] records for one image path, or the
    [ValueError] of [relative_to]. *)
Definition figure_of (img_path : pystr) : result figure_dict :=
  match path_relative_to img_path (path_parent output_dir) with
  | Ok rel =>
      Ok {| fig_path := rel;
            fig_caption := str_title (underscores_to_spaces (path_stem img_path));
            fig_width := lit "0.8\textwidth" |}
  | Raise e => Raise e
  end.

(** One figure per path, in order; the first exception ends it. *)
Fixpoint figures_of (paths : list pystr) : result (list figure_dict) :=
  match paths with
  | [] => Ok []
  | img_path :: rest =>
      match figure_of img_path with
      | Ok figure =>
          match figures_of rest with
          | Ok figures => Ok (figure :: figures)
          | Raise e => Raise e
          end
      | Raise e => Raise e
      end
  end.

(** The image paths in the order [load_figures] meets them: pattern by
    pattern, and for each pattern in the order of its listing. *)
Definition image_matches : list pystr :=
  path_glob images_dir (lit "*.png") ++ path_glob images_dir (lit "*.jpg")
  ++ path_glob images_dir (lit "*.jpeg") ++ path_glob images_dir (lit "*.pdf").

(** The table of [model_performance.csv], when there is one: every row of
    the file. *)
Definition performance_table : list table_dict :=
  match read_text (path_join data_dir (lit "model_performance.csv")) with
  | Some text =>
      match csv_reader text with
      | [] => []
      | _ :: _ =>
          [{| tbl_caption := lit "Model Performance Comparison";
              tbl_data := csv_reader text;
              tbl_format := lit "booktabs" |}]
      end
  | None => []
  end.

(** The table of [training_metrics.csv], when there is one: the first six
    rows of a file of at least two. *)
Definition training_table : list table_dict :=
  match read_text (path_join data_dir (lit "training_metrics.csv")) with
  | Some text =>
      if (2 <=? length (csv_reader text))%nat then
        [{| tbl_caption := lit "Training Progression (First 5 Epochs)";
            tbl_data := firstn 6 (csv_reader text);
            tbl_format := lit "booktabs" |}]
      else []
  | None => []
  end.

(** ** The orchestrator: [generate_with_patterns], [generate_and_compile] *)

(** [self.pattern_injector.get_context_for_author()]: the text of the
    learned patterns, empty when there are none.  [PatternInjector] is not
    part of these sources. *)
Variable get_context_for_author : pystr.

(** [self.pdf_compiler.compile(path)]: from the files written so far and
    the path, the verdict and its message.  [PDFCompiler] is not part of
    these sources. *)
Variable pdf_compile : list (pystr * pystr) -> pystr -> bool * pystr.

(** What a run of the orchestrator acts on: the service calls sent, the
    files written (the latest first) and the paths handed to the compiler
    (the latest first). *)
Record host : Type := {
  host_calls : world;
  host_files : list (pystr * pystr);
  host_compiled : list pystr
}.

(** [pdf_result] *)
Record compilation_result : Type := {
  comp_success : bool;
  comp_message : pystr;
  comp_pdf_path : option pystr
}.

(** The two dicts [generate_and_compile] returns. *)
Inductive report : Type :=
| GenerationFailed (error : option pystr)
| Compiled (success : bool) (tex_path : pystr) (pdf_path : option pystr)
           (latex_result : LaTeXGenerationResult)
           (compilation : compilation_result).

Definition base_requirements : list pystr :=
  [ lit "Use professional typography packages (microtype, lmodern)";
    lit "Format tables with booktabs package";
    lit "Include proper hyperref setup for navigation";
    lit "Use appropriate section hierarchy";
    lit "Add proper spacing and layout" ].

(** The request [generate_with_patterns] builds from what it loaded. *)
Definition patterns_request (sections : list section_dict)
    (tables : list table_dict) (figures : list figure_dict)
  : LaTeXGenerationRequest :=
  let pattern_context := get_context_for_author in
  let requirements := base_requirements in
  let requirements :=
    if negb (is_empty pattern_context) then
      requirements
      ++ [lit "IMPORTANT: Apply the following learned patterns from historical documents:"
          ++ nl ++ pattern_context]
    else requirements in
  {| title := lit "Advanced AI Research: Transformers and Beyond";
     author := lit "Dr. Research Smith";
     content_sections := sections;
     tables := tables;
     figures := figures;
     requirements := requirements |}.

Definition generate_with_patterns : M LaTeXGenerationResult :=
  let sections := load_all_markdown_sections in
  let tables := load_csv_tables in
  figures <- lift load_figures ;;
  let request := patterns_request sections tables figures in
  result <- generate_document request true ;;
  ret result.

Definition tex_path_of_report : pystr :=
  path_join output_dir (lit "research_report.tex").

(** [tex_path.with_suffix('.pdf')] *)
Definition pdf_path_of_report : pystr :=
  path_join output_dir (lit "research_report.pdf").

Definition generate_and_compile (h : host) : result report * host :=
  match generate_with_patterns (host_calls h) with
  | (Raise e, w) =>
      (Raise e,
       {| host_calls := w;
          host_files := host_files h;
          host_compiled := host_compiled h |})
  | (Ok result, w) =>
      if negb (success result) then
        (Ok (GenerationFailed (error_message result)),
         {| host_calls := w;
            host_files := host_files h;
            host_compiled := host_compiled h |})
      else
        let tex_path := tex_path_of_report in
        let files := (tex_path, latex_content result) :: host_files h in
        let '(success, message) := pdf_compile files tex_path in
        let pdf_path := pdf_path_of_report in
        let pdf_result :=
          {| comp_success := success;
             comp_message := message;
             comp_pdf_path := if success then Some pdf_path else None |} in
        (Ok (Compiled (comp_success pdf_result) tex_path
                      (comp_pdf_path pdf_result) result pdf_result),
         {| host_calls := w;
            host_files := files;
            host_compiled := tex_path :: host_compiled h |})
  end.

(** ** Facts about the string operations *)

Lemma len_nonneg (s : pystr) : 0 <= len s.
Proof. unfold len. lia. Qed.

Lemma len_app (a b : pystr) : len (a ++ b) = len a + len b.
Proof. unfold len. rewrite length_app. lia. Qed.

Lemma is_empty_true (s : pystr) : is_empty s = true <-> s = [].
Proof. destruct s; simpl; split; congruence. Qed.

Lemma skipn_length_app {A} (a b : list A) : skipn (length a) (a ++ b) = b.
Proof. induction a; simpl; auto. Qed.

Lemma firstn_length_app {A} (a b : list A) : firstn (length a) (a ++ b) = a.
Proof. induction a; simpl; congruence. Qed.

Lemma startswith_app (sub t : pystr) : startswith sub (sub ++ t) = true.
Proof.
  induction sub as [|c sub IH]; simpl; [reflexivity|].
  now rewrite N.eqb_refl.
Qed.

Lemma startswith_inv (sub s : pystr) :
  startswith sub s = true -> exists t, s = sub ++ t.
Proof.
  revert s. induction sub as [|c sub IH]; intros s H.
  - now exists s.
  - destruct s as [|d s]; simpl in H; [discriminate|].
    apply andb_prop in H. destruct H as [Hc Hs].
    apply N.eqb_eq in Hc. subst d.
    destruct (IH _ Hs) as [t ->]. now exists t.
Qed.

Lemma startswith_shorter (a b s : pystr) :
  startswith (a ++ b) s = true -> startswith a s = true.
Proof.
  intros H. apply startswith_inv in H. destruct H as [t ->].
  rewrite <- app_assoc. apply startswith_app.
Qed.

Lemma startswith_window (sub u v : pystr) :
  (length sub <= length u)%nat -> startswith sub (u ++ v) = startswith sub u.
Proof.
  revert u. induction sub as [|c sub IH]; intros u Hlen; [reflexivity|].
  destruct u as [|d u]; simpl in *; [lia|].
  f_equal. apply IH. lia.
Qed.

Lemma contains_unfold (sub s : pystr) :
  contains sub s =
  startswith sub s || match s with [] => false | _ :: t => contains sub t end.
Proof. destruct s; reflexivity. Qed.

Lemma contains_intro (sub a b : pystr) : contains sub (a ++ sub ++ b) = true.
Proof.
  induction a as [|c a IH]; simpl app.
  - rewrite contains_unfold, startswith_app. reflexivity.
  - rewrite contains_unfold, IH. apply orb_true_r.
Qed.

Lemma contains_inv (sub s : pystr) :
  contains sub s = true -> exists a b, s = a ++ sub ++ b.
Proof.
  induction s as [|c s IH]; rewrite contains_unfold; intros H;
    apply orb_prop in H; destruct H as [H|H].
  - apply startswith_inv in H. destruct H as [t ->]. now exists [], t.
  - discriminate.
  - apply startswith_inv in H. destruct H as [t ->]. now exists [], t.
  - destruct (IH H) as (a & b & ->). now exists (c :: a), b.
Qed.

(** A substring of a substring: [sub in t] and [t] inside [s] give
    [sub in s]. *)
Lemma contains_inside (sub t a b : pystr) :
  contains sub t = true -> contains sub (a ++ t ++ b) = true.
Proof.
  intros H. apply contains_inv in H. destruct H as (x & y & ->).
  replace (a ++ (x ++ sub ++ y) ++ b) with ((a ++ x) ++ sub ++ (y ++ b))
    by (repeat rewrite <- app_assoc; reflexivity).
  apply contains_intro.
Qed.

Lemma contains_shorter (a b s : pystr) :
  contains (a ++ b) s = true -> contains a s = true.
Proof.
  intros H. apply contains_inv in H. destruct H as (x & y & ->).
  rewrite <- app_assoc. apply contains_intro.
Qed.

Lemma find_from_unfold (sub s : pystr) (i : Z) :
  find_from sub s i =
  if startswith sub s then i
  else match s with [] => -1 | _ :: t => find_from sub t (i + 1) end.
Proof. destruct s; reflexivity. Qed.

(** [find] stops at the first occurrence: when [sub] does not start
    anywhere inside [pre], the scan of [pre ++ sub ++ rest] ends right
    after [pre]. *)
Lemma find_from_first (sub pre rest : pystr) (i : Z) :
  sub <> [] ->
  contains sub (pre ++ removelast sub) = false ->
  find_from sub (pre ++ sub ++ rest) i = i + len pre.
Proof.
  intros Hsub. revert i.
  induction pre as [|c pre IH]; intros i H.
  - simpl app. rewrite find_from_unfold, startswith_app. unfold len. simpl. lia.
  - simpl app in *. rewrite contains_unfold in H.
    apply orb_false_elim in H. destruct H as [Hhere Hlater].
    rewrite find_from_unfold.
    assert (Hw : startswith sub (c :: pre ++ sub ++ rest) = false).
    { rewrite (app_removelast_last 0%N Hsub) at 2.
      replace (c :: pre ++ (removelast sub ++ [last sub 0%N]) ++ rest)
        with ((c :: pre ++ removelast sub) ++ [last sub 0%N] ++ rest)
        by (simpl; repeat rewrite <- app_assoc; reflexivity).
      rewrite startswith_window; [assumption|].
      simpl. rewrite length_app.
      assert (length sub = S (length (removelast sub))).
      { rewrite (app_removelast_last 0%N Hsub) at 1.
        rewrite length_app. simpl. lia. }
      lia. }
    rewrite Hw, (IH (i + 1) Hlater). unfold len. simpl length. lia.
Qed.

Lemma find_from_none (sub s : pystr) (i : Z) :
  contains sub s = false -> find_from sub s i = -1.
Proof.
  revert i. induction s as [|c s IH]; intros i H;
    rewrite contains_unfold in H; apply orb_false_elim in H;
    destruct H as [Hhere Hlater]; rewrite find_from_unfold, Hhere.
  - reflexivity.
  - now apply IH.
Qed.

Lemma find_from_some (sub s : pystr) (i : Z) :
  0 <= i -> contains sub s = true -> i <= find_from sub s i <= i + len s.
Proof.
  revert i. induction s as [|c s IH]; intros i Hi H;
    rewrite contains_unfold in H; rewrite find_from_unfold;
    destruct (startswith sub _) eqn:E; simpl in H;
    try discriminate; try (pose proof (len_nonneg (c :: s)); lia).
  - unfold len; simpl length; lia.
  - specialize (IH (i + 1) ltac:(lia) H). unfold len in *. simpl length. lia.
Qed.

(** [find] from a position inside the string scans the rest of it. *)
Lemma find_at (s sub : pystr) (k : nat) :
  (k <= length s)%nat ->
  find s sub (Z.of_nat k) = find_from sub (skipn k s) (Z.of_nat k).
Proof.
  intros Hk. unfold find, from_end, len.
  destruct (Z.ltb_spec (Z.of_nat k) 0); [lia|].
  destruct (Z.ltb_spec (Z.of_nat (length s)) (Z.of_nat k)); [lia|].
  now rewrite Nat2Z.id.
Qed.

Lemma find_0 (s sub : pystr) : find s sub 0 = find_from sub s 0.
Proof. apply (find_at s sub 0). lia. Qed.

(** [s[a:b]] picks the middle of [x ++ y ++ z]. *)
Lemma slice_middle {A} (x y z : list A) :
  slice (x ++ y ++ z) (Z.of_nat (length x)) (Z.of_nat (length x + length y)) = y.
Proof.
  unfold slice, from_end. repeat rewrite length_app.
  destruct (Z.ltb_spec (Z.of_nat (length x)) 0); [lia|].
  destruct (Z.ltb_spec (Z.of_nat (length x + length y)) 0); [lia|].
  rewrite !Z.min_l by lia.
  replace (Z.to_nat (Z.of_nat (length x + length y) - Z.of_nat (length x)))
    with (length y) by lia.
  rewrite Nat2Z.id, skipn_length_app. apply firstn_length_app.
Qed.

(** [s[a:-1]] on [x ++ y] with [a = len x]: [y] without its last
    character. *)
Lemma slice_to_minus_1 {A} (x y : list A) :
  slice (x ++ y) (Z.of_nat (length x)) (-1) = removelast y.
Proof.
  unfold slice, from_end. rewrite length_app.
  destruct (Z.ltb_spec (Z.of_nat (length x)) 0); [lia|].
  destruct (Z.ltb_spec (-1) 0); [|lia].
  set (n := Z.of_nat (length x + length y)).
  replace (Z.to_nat (Z.min (Z.of_nat (length x)) n)) with (length x) by lia.
  rewrite skipn_length_app, removelast_firstn_len.
  f_equal. lia.
Qed.

Lemma slice_inside {A} (s : list A) (a b : Z) :
  exists x y, s = x ++ slice s a b ++ y.
Proof.
  unfold slice.
  set (i := Z.to_nat _). set (j := Z.to_nat _).
  exists (firstn j s), (skipn i (skipn j s)).
  now rewrite !firstn_skipn.
Qed.

Lemma lstrip_inside (s : pystr) : exists x, s = x ++ lstrip s.
Proof.
  induction s as [|c s [x IH]]; simpl.
  - now exists [].
  - destruct (isspace c).
    + exists (c :: x). simpl. now f_equal.
    + now exists [].
Qed.

Lemma strip_inside (s : pystr) : exists x y, s = x ++ strip s ++ y.
Proof.
  unfold strip, rstrip.
  destruct (lstrip_inside s) as [x Hx].
  destruct (lstrip_inside (rev (lstrip s))) as [y Hy].
  exists x, (rev y).
  rewrite <- rev_app_distr, <- Hy, rev_involutive. exact Hx.
Qed.

(** ** Extraction: [_extract_latex_from_response] *)

(** The block between the first [opening] and the next [closing] after
    it: what the two [find]s and the slice of an extraction branch
    compute on a reply that has both. *)
Lemma fenced_block (opening closing pre body post : pystr) :
  opening <> [] -> closing <> [] ->
  contains opening (pre ++ removelast opening) = false ->
  contains closing (body ++ removelast closing) = false ->
  let reply := pre ++ opening ++ body ++ closing ++ post in
  let start := find reply opening 0 + len opening in
  slice reply start (find reply closing start) = body.
Proof.
  intros Ho Hc Hfirst Hnext reply start.
  assert (Hstart : start = Z.of_nat (length (pre ++ opening))).
  { unfold start, reply. rewrite find_0, find_from_first by assumption.
    unfold len. rewrite length_app. lia. }
  assert (Hreply : reply = (pre ++ opening) ++ body ++ closing ++ post).
  { unfold reply. now rewrite <- app_assoc. }
  rewrite Hstart, Hreply.
  rewrite find_at by (rewrite !length_app; lia).
  rewrite skipn_length_app, find_from_first by assumption.
  unfold len. rewrite <- Nat2Z.inj_add. apply slice_middle.
Qed.

(** The same with no [closing] after the opening: the failed [find] gives
    [-1], and the slice stops before the last character. *)
Lemma unclosed_block (opening closing pre rest : pystr) :
  opening <> [] ->
  contains opening (pre ++ removelast opening) = false ->
  contains closing rest = false ->
  let reply := pre ++ opening ++ rest in
  let start := find reply opening 0 + len opening in
  slice reply start (find reply closing start) = removelast rest.
Proof.
  intros Ho Hfirst Hnone reply start.
  assert (Hstart : start = Z.of_nat (length (pre ++ opening))).
  { unfold start, reply. rewrite find_0, find_from_first by assumption.
    unfold len. rewrite length_app. lia. }
  assert (Hreply : reply = (pre ++ opening) ++ rest).
  { unfold reply. now rewrite <- app_assoc. }
  rewrite Hstart, Hreply.
  rewrite find_at by (rewrite !length_app; lia).
  rewrite skipn_length_app, find_from_none by assumption.
  apply slice_to_minus_1.
Qed.

Lemma no_fence_no_latex_fence (reply : pystr) :
  contains FENCE reply = false -> contains FENCE_LATEX reply = false.
Proof.
  intros H. destruct (contains FENCE_LATEX reply) eqn:E; [|reflexivity].
  change FENCE_LATEX with (FENCE ++ lit "latex") in E.
  apply contains_shorter in E. congruence.
Qed.

(** What extraction returns is a piece of the reply. *)
Lemma extract_inside (reply : pystr) :
  exists x y, reply = x ++ _extract_latex_from_response reply ++ y.
Proof.
  assert (Hslice : forall a b,
    exists x y, reply = x ++ strip (slice reply a b) ++ y).
  { intros a b.
    destruct (slice_inside reply a b) as (x & y & Hs).
    destruct (strip_inside (slice reply a b)) as (x' & y' & Ht).
    exists (x ++ x'), (y' ++ y).
    rewrite Hs at 1. rewrite Ht at 1.
    repeat rewrite <- app_assoc. reflexivity. }
  unfold _extract_latex_from_response.
  destruct (contains FENCE_LATEX reply); [apply Hslice|].
  destruct (contains FENCE reply); [apply Hslice|].
  apply strip_inside.
Qed.

Lemma extract_keeps_absent (sub reply : pystr) :
  contains sub reply = false ->
  contains sub (_extract_latex_from_response reply) = false.
Proof.
  intros H.
  destruct (contains sub (_extract_latex_from_response reply)) eqn:E;
    [|reflexivity].
  destruct (extract_inside reply) as (x & y & Hr).
  rewrite Hr in H. rewrite contains_inside in H by exact E. discriminate.
Qed.

(** C1 (amended): on a reply [pre ```latex body ``` post] whose
    [```latex] is the first one of the reply and whose [```] is the next
    fence marker after it, extraction returns [body] trimmed of surrounding
    whitespace; on a reply with no fence marker at all it returns the whole
    reply trimmed. *)
Theorem extract_latex_fenced_or_plain :
  (forall pre body post : pystr,
     contains FENCE_LATEX (pre ++ removelast FENCE_LATEX) = false ->
     contains FENCE (body ++ removelast FENCE) = false ->
     _extract_latex_from_response (pre ++ FENCE_LATEX ++ body ++ FENCE ++ post)
     = strip body)
  /\
  (forall reply : pystr,
     contains FENCE reply = false ->
     _extract_latex_from_response reply = strip reply).
Proof.
  split.
  - intros pre body post Hfirst Hnext.
    unfold _extract_latex_from_response.
    rewrite contains_intro.
    change 8 with (len FENCE_LATEX).
    rewrite fenced_block; (reflexivity || assumption || discriminate).
  - intros reply Hnone.
    unfold _extract_latex_from_response.
    now rewrite (no_fence_no_latex_fence _ Hnone), Hnone.
Qed.

(** C10: on a reply [pre ```latex rest] whose [```latex] is the first one
    and whose [rest] holds no [```], extraction returns [rest] without its
    last character (the failed search gives the slice end [-1]), trimmed of
    surrounding whitespace. *)
Theorem extract_latex_unclosed_fence (pre rest : pystr) :
  contains FENCE_LATEX (pre ++ removelast FENCE_LATEX) = false ->
  contains FENCE rest = false ->
  find (pre ++ FENCE_LATEX ++ rest) FENCE
       (find (pre ++ FENCE_LATEX ++ rest) FENCE_LATEX 0 + 8) = -1
  /\ _extract_latex_from_response (pre ++ FENCE_LATEX ++ rest)
     = strip (removelast rest).
Proof.
  intros Hfirst Hnone. split.
  - rewrite find_0, find_from_first by (assumption || discriminate).
    replace (0 + len pre + 8) with (Z.of_nat (length (pre ++ FENCE_LATEX)))
      by (unfold len; rewrite length_app; simpl; lia).
    rewrite app_assoc, find_at by (rewrite !length_app; lia).
    rewrite skipn_length_app. now apply find_from_none.
  - unfold _extract_latex_from_response.
    rewrite contains_intro.
    change 8 with (len FENCE_LATEX).
    rewrite unclosed_block; (reflexivity || assumption || discriminate).
Qed.

(** ** Validation: [_validate_and_fix_latex] *)

Lemma shorter_than_half_true (candidate original : pystr) :
  shorter_than_half candidate original = true <-> 2 * len candidate < len original.
Proof. unfold shorter_than_half. apply Z.ltb_lt. Qed.

Lemma shorter_than_half_false (candidate original : pystr) :
  shorter_than_half candidate original = false <-> len original <= 2 * len candidate.
Proof. unfold shorter_than_half. rewrite Z.ltb_ge. reflexivity. Qed.

(** The guard of the three correcting methods. *)
Lemma guard_false (candidate original : pystr) :
  is_empty candidate || shorter_than_half candidate original = false <->
  candidate <> [] /\ len original <= 2 * len candidate.
Proof.
  rewrite orb_false_iff, shorter_than_half_false.
  destruct candidate as [|c s]; simpl; split.
  - intros [H _]. discriminate.
  - intros [H _]. now contradiction H.
  - intros [_ H]. split; [discriminate | exact H].
  - intros [_ H]. split; [reflexivity | exact H].
Qed.

Lemma guard_true (candidate original : pystr) :
  is_empty candidate || shorter_than_half candidate original = true <->
  candidate = [] \/ 2 * len candidate < len original.
Proof. now rewrite orb_true_iff, shorter_than_half_true, is_empty_true. Qed.

(** What [_validate_and_fix_latex] returns when the service replies. *)
Lemma validate_on_reply (latex_content : pystr) (request : LaTeXGenerationRequest)
    (w : world) (response_text : pystr) :
  service w (validation_call latex_content) = Ok response_text ->
  _validate_and_fix_latex latex_content request w =
  (Ok (let warnings := extract_issues response_text in
       let fixed_latex := _extract_latex_from_response response_text in
       if is_empty fixed_latex || shorter_than_half fixed_latex latex_content
       then (latex_content, warnings, [])
       else match py_len warnings with
            | Ok n =>
                (fixed_latex, warnings,
                 if truthy warnings
                 then [lit "Fixed " ++ str_of_int n ++ lit " LaTeX issues"]
                 else [])
            | Raise e =>
                (latex_content,
                 VList [VStr (lit "Validation failed: " ++ str_of_exc e)], [])
            end),
   validation_call latex_content :: w).
Proof.
  intros Hreply. unfold validation_call in *.
  unfold _validate_and_fix_latex, try_except, validate_and_fix_body,
    bind, messages_create.
  rewrite Hreply. cbv zeta.
  destruct (is_empty _ || shorter_than_half _ _); [reflexivity|].
  unfold lift, ret.
  destruct (truthy _); destruct (py_len _); reflexivity.
Qed.

(** What it returns when the service call raises. *)
Lemma validate_on_raise (latex_content : pystr) (request : LaTeXGenerationRequest)
    (w : world) (e : exc) :
  service w (validation_call latex_content) = Raise e ->
  validate_and_fix_body latex_content w = (Raise e, validation_call latex_content :: w)
  /\ _validate_and_fix_latex latex_content request w =
     (Ok (latex_content,
          VList [VStr (lit "Validation failed: " ++ str_of_exc e)], []),
      validation_call latex_content :: w).
Proof.
  intros Hraise. unfold validation_call in *.
  unfold _validate_and_fix_latex, try_except, validate_and_fix_body,
    bind, messages_create.
  now rewrite Hraise.
Qed.

(** C5: [_validate_and_fix_latex] always returns, and never a document
    shorter than half the document it was given; when the candidate
    extracted from the reply is empty or shorter than half of it, the
    document given is returned unchanged, with the warnings collected and
    no improvements. *)
Theorem validate_and_fix_never_below_half (latex_content : pystr)
    (request : LaTeXGenerationRequest) (w : world) :
  exists doc warns improvements,
    _validate_and_fix_latex latex_content request w
    = (Ok (doc, warns, improvements), validation_call latex_content :: w)
    /\ len latex_content <= 2 * len doc
    /\ (forall response_text,
          service w (validation_call latex_content) = Ok response_text ->
          _extract_latex_from_response response_text = []
          \/ 2 * len (_extract_latex_from_response response_text) < len latex_content ->
          doc = latex_content
          /\ warns = extract_issues response_text
          /\ improvements = []).
Proof.
  pose proof (len_nonneg latex_content) as Hlen.
  destruct (service w (validation_call latex_content)) as [t|e] eqn:Hs.
  - rewrite (validate_on_reply _ request _ _ Hs). cbv zeta.
    destruct (is_empty _ || shorter_than_half _ _) eqn:Hguard.
    + do 3 eexists. split; [reflexivity|]. split; [lia|].
      intros t' Ht' _. injection Ht' as <-. now repeat split.
    + apply guard_false in Hguard. destruct Hguard as [Hne Hhalf].
      destruct (py_len (extract_issues t)) as [n|e].
      * do 3 eexists. split; [reflexivity|]. split; [exact Hhalf|].
        intros t' Ht' Hshort. injection Ht' as <-.
        destruct Hshort; [contradiction | lia].
      * do 3 eexists. split; [reflexivity|]. split; [lia|].
        intros t' Ht' Hshort. injection Ht' as <-.
        destruct Hshort; [contradiction | lia].
  - destruct (validate_on_raise _ request _ _ Hs) as [_ ->].
    do 3 eexists. split; [reflexivity|]. split; [lia|].
    intros t' Ht'. discriminate.
Qed.

(** The span handed to [json.loads] runs from the first [{] of the reply
    to the first [}] at or after it. *)
Lemma issues_span_first_braces (pre mid post : pystr) :
  contains (lit "{") pre = false ->
  contains (lit "}") mid = false ->
  issues_span (pre ++ lit "{" ++ mid ++ lit "}" ++ post) = lit "{" ++ mid ++ lit "}".
Proof.
  intros Hopen Hclose. unfold issues_span.
  assert (Hstart : find (pre ++ lit "{" ++ mid ++ lit "}" ++ post) (lit "{") 0
                   = Z.of_nat (length pre)).
  { rewrite find_0, find_from_first; [reflexivity | discriminate |].
    change (removelast (lit "{")) with (@nil N). now rewrite app_nil_r. }
  rewrite Hstart.
  assert (Hend : find (pre ++ lit "{" ++ mid ++ lit "}" ++ post) (lit "}")
                   (Z.of_nat (length pre))
                 = Z.of_nat (length pre) + len (lit "{" ++ mid)).
  { rewrite find_at by (rewrite length_app; lia).
    rewrite skipn_length_app.
    replace (lit "{" ++ mid ++ lit "}" ++ post)
      with ((lit "{" ++ mid) ++ lit "}" ++ post)
      by (now rewrite <- app_assoc).
    apply find_from_first; [discriminate|].
    change (removelast (lit "}")) with (@nil N). rewrite app_nil_r.
    change (lit "{" ++ mid) with (123%N :: mid).
    rewrite contains_unfold, Hclose. reflexivity. }
  rewrite Hend.
  replace (pre ++ lit "{" ++ mid ++ lit "}" ++ post)
    with (pre ++ (lit "{" ++ mid ++ lit "}") ++ post)
    by (now repeat rewrite <- app_assoc).
  replace (Z.of_nat (length pre) + len (lit "{" ++ mid) + 1)
    with (Z.of_nat (length pre + length (lit "{" ++ mid ++ lit "}"))).
  - apply slice_middle.
  - unfold len. rewrite !length_app. simpl length. lia.
Qed.

(** C6 (amended): once the reply holds the marker text anywhere, the issue
    JSON is the span from the first [{] of the whole reply to the first [}]
    at or after it; when [json.loads] rejects that span the warnings are
    the single generic string, and the method still returns: the document
    extracted from the reply, or the original one when that candidate is
    empty or shorter than half of it. *)
Theorem issues_span_and_parse_failure :
  (forall pre mid post : pystr,
     contains (lit "{") pre = false ->
     contains (lit "}") mid = false ->
     issues_span (pre ++ lit "{" ++ mid ++ lit "}" ++ post)
     = lit "{" ++ mid ++ lit "}")
  /\
  (forall (latex_content : pystr) (request : LaTeXGenerationRequest)
          (w : world) (response_text : pystr),
     service w (validation_call latex_content) = Ok response_text ->
     contains ISSUES_MARKER response_text = true ->
     json_loads (issues_span response_text) = None ->
     extract_issues response_text = UNABLE_TO_PARSE
     /\ _validate_and_fix_latex latex_content request w
        = (Ok (let fixed_latex := _extract_latex_from_response response_text in
               if is_empty fixed_latex || shorter_than_half fixed_latex latex_content
               then (latex_content, UNABLE_TO_PARSE, [])
               else (fixed_latex, UNABLE_TO_PARSE, [lit "Fixed 1 LaTeX issues"])),
           validation_call latex_content :: w)).
Proof.
  split; [exact issues_span_first_braces|].
  intros latex_content request w t Hreply Hmarker Hparse.
  assert (Hw : extract_issues t = UNABLE_TO_PARSE).
  { unfold extract_issues. now rewrite Hmarker, Hparse. }
  split; [exact Hw|].
  rewrite (validate_on_reply _ request _ _ Hreply). cbv zeta.
  rewrite Hw. reflexivity.
Qed.

(** ** Generation: [generate_document] *)

Lemma initial_on_reply (request : LaTeXGenerationRequest) (w : world)
    (response_text : pystr) :
  service w (generation_call request) = Ok response_text ->
  _generate_initial_latex request w
  = (Ok (_extract_latex_from_response response_text), generation_call request :: w).
Proof.
  intros Hreply. unfold generation_call in *.
  unfold _generate_initial_latex, try_except, bind, messages_create.
  now rewrite Hreply.
Qed.

Lemma initial_on_raise (request : LaTeXGenerationRequest) (w : world) (e : exc) :
  service w (generation_call request) = Raise e ->
  _generate_initial_latex request w = (Ok [], generation_call request :: w).
Proof.
  intros Hraise. unfold generation_call in *.
  unfold _generate_initial_latex, try_except, bind, messages_create.
  now rewrite Hraise.
Qed.

(** The soft failure of [generate_document]: an exception of the first
    service call, or a reply from which nothing is extracted, gives a result
    with [success = false] and the error message. *)
Lemma generate_soft_failure (request : LaTeXGenerationRequest) (validate : bool)
    (w : world) :
  (exists e, service w (generation_call request) = Raise e)
  \/ (exists t, service w (generation_call request) = Ok t
                /\ _extract_latex_from_response t = []) ->
  generate_document request validate w
  = (Ok {| success := false;
           latex_content := [];
           warnings := [];
           improvements_made := [];
           error_message := Some (lit "Failed to generate initial LaTeX") |},
     generation_call request :: w).
Proof.
  intros [[e He] | (t & Ht & Hempty)]; unfold generate_document, bind.
  - now rewrite (initial_on_raise _ _ _ He).
  - now rewrite (initial_on_reply _ _ _ Ht), Hempty.
Qed.

(** Without validation [generate_document] always returns a result. *)
Lemma generate_without_validation_returns (request : LaTeXGenerationRequest)
    (w : world) :
  exists r, generate_document request false w = (Ok r, generation_call request :: w).
Proof.
  unfold generate_document, bind.
  destruct (service w (generation_call request)) as [t|e] eqn:Hs.
  - rewrite (initial_on_reply _ _ _ Hs).
    destruct (is_empty _); eexists; reflexivity.
  - rewrite (initial_on_raise _ _ _ Hs). eexists; reflexivity.
Qed.

Lemma validate_always_returns (latex_content : pystr)
    (request : LaTeXGenerationRequest) (w : world) :
  exists doc warns improvements,
    _validate_and_fix_latex latex_content request w
    = (Ok (doc, warns, improvements), validation_call latex_content :: w).
Proof.
  destruct (service w (validation_call latex_content)) as [t|e] eqn:Hs.
  - rewrite (validate_on_reply _ request _ _ Hs). cbv zeta.
    destruct (is_empty _ || shorter_than_half _ _);
      [|destruct (py_len _)]; do 3 eexists; reflexivity.
  - destruct (validate_on_raise _ request _ _ Hs) as [_ ->].
    do 3 eexists; reflexivity.
Qed.

(** The one way out of [generate_document] by an exception: validation
    was requested and returned, and the warnings it returned cannot be
    iterated by [warnings.extend]. *)
Lemma generate_raises_only_in_extend (request : LaTeXGenerationRequest)
    (validate : bool) (w : world) (e : exc) (w' : world) :
  generate_document request validate w = (Raise e, w') ->
  validate = true
  /\ exists response_text doc warns fixes,
       service w (generation_call request) = Ok response_text
       /\ _validate_and_fix_latex (_extract_latex_from_response response_text)
            request (generation_call request :: w)
          = (Ok (doc, warns, fixes), w')
       /\ py_iter warns = Raise e.
Proof.
  unfold generate_document, bind.
  destruct (service w (generation_call request)) as [t|e0] eqn:Hs.
  - rewrite (initial_on_reply _ _ _ Hs).
    destruct (is_empty _); [discriminate|].
    destruct validate; [|discriminate].
    destruct (validate_always_returns (_extract_latex_from_response t) request
                (generation_call request :: w)) as (doc & warns & fixes & Hrun).
    rewrite Hrun. unfold lift.
    destruct (py_iter warns) as [items|e1] eqn:Hiter; [discriminate|].
    intros Heq. injection Heq as <- <-.
    split; [reflexivity|]. exists t, doc, warns, fixes. now repeat split.
  - rewrite (initial_on_raise _ _ _ Hs). discriminate.
Qed.

(** C9: when the first reply yields a non-empty document, [success] is
    true in every result [generate_document] returns; and when the
    validation pass raises (its service call, or anything else inside its
    [try]), the result is returned all the same, with the document as it was
    before validation, the single warning [Validation failed: ...] and no
    improvements. *)
Theorem generate_success_reflects_initial_step
    (request : LaTeXGenerationRequest) (w : world) (response_text : pystr) :
  service w (generation_call request) = Ok response_text ->
  _extract_latex_from_response response_text <> [] ->
  let document := _extract_latex_from_response response_text in
  let w1 := generation_call request :: w in
  let failed e :=
    {| success := true;
       latex_content := document;
       warnings := [VStr (lit "Validation failed: " ++ str_of_exc e)];
       improvements_made := [];
       error_message := None |} in
  (forall validate r w', generate_document request validate w = (Ok r, w') ->
                         success r = true)
  /\ (forall e w', validate_and_fix_body document w1 = (Raise e, w') ->
                   generate_document request true w = (Ok (failed e), w'))
  /\ (forall e, service w1 (validation_call document) = Raise e ->
                generate_document request true w
                = (Ok (failed e), validation_call document :: w1)).
Proof.
  intros Hreply Hdoc document w1 failed.
  assert (Hne : is_empty document = false).
  { destruct document eqn:E; [contradiction | reflexivity]. }
  assert (Hbody : forall e w', validate_and_fix_body document w1 = (Raise e, w') ->
                  generate_document request true w = (Ok (failed e), w')).
  { intros e w' Hraise.
    unfold generate_document, bind.
    rewrite (initial_on_reply _ _ _ Hreply). fold document. rewrite Hne.
    unfold _validate_and_fix_latex, try_except. fold w1. rewrite Hraise.
    reflexivity. }
  split; [|split].
  - intros validate r w'. unfold generate_document, bind.
    rewrite (initial_on_reply _ _ _ Hreply). fold document. rewrite Hne.
    destruct validate.
    + destruct (_validate_and_fix_latex _ _ _) as [[[[doc warns] fixes]|e] w2].
      * unfold lift. destruct (py_iter warns); intros Heq;
          inversion Heq; reflexivity.
      * discriminate.
    + intros Heq. inversion Heq. reflexivity.
  - exact Hbody.
  - intros e Hraise. apply Hbody.
    now destruct (validate_on_raise _ request _ _ Hraise) as [-> _].
Qed.

(** ** Visual QA fixes: [apply_visual_qa_fixes] *)

Lemma visual_qa_accepts_iff (candidate original : pystr) :
  visual_qa_accepts candidate original = true <-> balanced_and_valid candidate original.
Proof.
  unfold visual_qa_accepts, balanced_and_valid.
  rewrite !andb_true_iff, negb_true_iff, guard_false, Z.eqb_eq.
  split.
  - intros [[[Hne Hhalf] Hcount] [Hbegin Hend]]. repeat split; assumption.
  - intros (Hne & Hhalf & Hcount & Hbegin & Hend). repeat split; assumption.
Qed.

(** The early returns of the method, read as one test. *)
Lemma visual_qa_on_reply (latex_content : pystr) (issues : list pystr) (w : world)
    (response_text : pystr) :
  service w (fix_call latex_content issues) = Ok response_text ->
  apply_visual_qa_fixes latex_content issues w =
  (Ok (let fixed_latex := _extract_latex_from_response response_text in
       if visual_qa_accepts fixed_latex latex_content
       then (fixed_latex, true,
             [lit "Applied fixes for: " ++ join (lit ", ") (take 3 issues)])
       else (latex_content, false, [])),
   fix_call latex_content issues :: w).
Proof.
  intros Hreply. unfold fix_call in *.
  unfold apply_visual_qa_fixes, try_except, bind, messages_create.
  rewrite Hreply. cbv zeta. unfold visual_qa_accepts.
  destruct (is_empty _ || shorter_than_half _ _); [reflexivity|].
  destruct (count _ BEGIN_ENV =? count _ END_ENV); [|reflexivity].
  destruct (contains BEGIN_DOCUMENT _); [|reflexivity].
  destruct (contains END_DOCUMENT _); reflexivity.
Qed.

Lemma visual_qa_on_raise (latex_content : pystr) (issues : list pystr) (w : world)
    (e : exc) :
  service w (fix_call latex_content issues) = Raise e ->
  apply_visual_qa_fixes latex_content issues w =
  (Ok (latex_content, false, []), fix_call latex_content issues :: w).
Proof.
  intros Hraise. unfold fix_call in *.
  unfold apply_visual_qa_fixes, try_except, bind, messages_create.
  now rewrite Hraise.
Qed.

(** C4: [apply_visual_qa_fixes] calls the service once and always
    returns.  It succeeds only on a reply whose extracted document is
    non-empty, at least half the original length, with as many [\begin{] as
    [\end{] and both document markers, and then returns that document;
    otherwise it returns the original document, [false] and no fixes, in
    particular when the reply has no [\end{document}], whatever the
    issues. *)
Theorem visual_qa_fixes_checked (latex_content : pystr) (issues : list pystr)
    (w : world) :
  exists doc ok fixes,
    apply_visual_qa_fixes latex_content issues w
    = (Ok (doc, ok, fixes), fix_call latex_content issues :: w)
    /\ (ok = true <->
        exists response_text,
          service w (fix_call latex_content issues) = Ok response_text
          /\ balanced_and_valid (_extract_latex_from_response response_text)
                                latex_content)
    /\ (ok = true ->
        exists response_text,
          service w (fix_call latex_content issues) = Ok response_text
          /\ doc = _extract_latex_from_response response_text)
    /\ (ok = false -> doc = latex_content /\ fixes = [])
    /\ (forall response_text,
          service w (fix_call latex_content issues) = Ok response_text ->
          contains END_DOCUMENT response_text = false ->
          doc = latex_content /\ ok = false /\ fixes = []).
Proof.
  destruct (service w (fix_call latex_content issues)) as [t|e] eqn:Hs.
  - rewrite (visual_qa_on_reply _ _ _ _ Hs). cbv zeta.
    destruct (visual_qa_accepts _ _) eqn:Hacc.
    + do 3 eexists. split; [reflexivity|].
      pose proof (proj1 (visual_qa_accepts_iff _ _) Hacc) as Hvalid.
      split; [split; [intros _; now exists t | reflexivity]|].
      split; [intros _; exists t; now split|].
      split; [discriminate|].
      intros t' Ht' Habsent. injection Ht' as <-.
      destruct Hvalid as (_ & _ & _ & _ & Hend).
      rewrite (extract_keeps_absent _ _ Habsent) in Hend. discriminate.
    + do 3 eexists. split; [reflexivity|].
      repeat split; try discriminate.
      intros (t' & Ht' & Hvalid). injection Ht' as <-.
      apply visual_qa_accepts_iff in Hvalid. rewrite Hvalid in Hacc. discriminate.
  - rewrite (visual_qa_on_raise _ _ _ _ Hs).
    do 3 eexists. split; [reflexivity|].
    repeat split; try discriminate.
    intros (t' & Ht' & _). discriminate.
Qed.

(** ** Self-correction: [self_correct_compilation_errors] *)

Lemma correction_accepts_iff (candidate original : pystr) :
  correction_accepts candidate original = true <-> structurally_valid candidate original.
Proof.
  unfold correction_accepts, structurally_valid.
  rewrite !andb_true_iff, negb_true_iff, guard_false.
  split.
  - intros [[Hne Hhalf] [Hbegin Hend]]. repeat split; assumption.
  - intros (Hne & Hhalf & Hbegin & Hend). repeat split; assumption.
Qed.

Lemma attempt_accepted_iff (w : world) (latex_content compilation_error : pystr)
    (k : nat) :
  attempt_accepted w latex_content compilation_error k = true
  <-> attempt_valid w latex_content compilation_error k.
Proof.
  unfold attempt_accepted, attempt_valid.
  destruct (attempt_reply _ _ _ _) as [t|e]; split.
  - intros H. exists t. split; [reflexivity|]. now apply correction_accepts_iff.
  - intros (t' & Ht' & Hvalid). injection Ht' as <-.
    now apply correction_accepts_iff.
  - discriminate.
  - intros (t' & Ht' & _). discriminate.
Qed.

(** Below any bound, a test holds first somewhere or holds nowhere. *)
Lemma first_or_none (accepted : nat -> bool) (n : nat) :
  (exists k, (k < n)%nat /\ accepted k = true
             /\ forall j, (j < k)%nat -> accepted j = false)
  \/ (forall k, (k < n)%nat -> accepted k = false).
Proof.
  induction n as [|n [(k & Hk & Hacc & Hbefore) | Hnone]].
  - right. intros k Hk. lia.
  - left. exists k. repeat split; auto.
  - destruct (accepted n) eqn:Hn.
    + left. exists n. repeat split; auto.
    + right. intros k Hk.
      destruct (Nat.eq_dec k n) as [->|Hne]; [assumption | apply Hnone; lia].
Qed.

Lemma world_shift (call : api_request) (k : nat) (w : world) :
  repeat call k ++ call :: w = repeat call (S k) ++ w.
Proof.
  change (call :: w) with ([call] ++ w).
  now rewrite app_assoc, <- repeat_cons.
Qed.

Lemma calls_made_repeat (call : api_request) (k : nat) (w : world) :
  calls_made w (repeat call k ++ w) = Z.of_nat k.
Proof. unfold calls_made. rewrite length_app, repeat_length. lia. Qed.

Lemma attempt_accepted_shift (w : world) (latex_content compilation_error : pystr)
    (k : nat) :
  attempt_accepted (correction_call latex_content compilation_error :: w)
                   latex_content compilation_error k
  = attempt_accepted w latex_content compilation_error (S k).
Proof. unfold attempt_accepted, attempt_reply. now rewrite world_shift. Qed.

(** One turn of the loop: one call, and a return exactly when the reply
    is accepted. *)
Lemma attempt_step (latex_content compilation_error : pystr) (log : list pystr)
    (attempt : Z) (w : world) :
  correction_attempt latex_content latex_content compilation_error log attempt w =
  (Ok (match service w (correction_call latex_content compilation_error) with
       | Ok response_text =>
           let corrected_latex := _extract_latex_from_response response_text in
           if correction_accepts corrected_latex latex_content
           then Some (corrected_latex, true, log ++ [attempt_entry attempt])
           else None
       | Raise _ => None
       end),
   correction_call latex_content compilation_error :: w).
Proof.
  unfold correction_call.
  unfold correction_attempt, try_except, bind, messages_create.
  destruct (service w _) as [t|e]; [|reflexivity].
  cbv zeta. unfold correction_accepts.
  destruct (is_empty _ || shorter_than_half _ _); [reflexivity|].
  destruct (contains BEGIN_DOCUMENT _); [|reflexivity].
  destruct (contains END_DOCUMENT _); reflexivity.
Qed.

(** When no attempt is accepted the loop spends them all and gives the
    original document back. *)
Lemma loop_exhausted (latex_content compilation_error : pystr) (log : list pystr)
    (attempts : list Z) :
  forall w,
    (forall k, (k < length attempts)%nat ->
               attempt_accepted w latex_content compilation_error k = false) ->
    correction_loop latex_content latex_content compilation_error log attempts w
    = (Ok (latex_content, false, log),
       repeat (correction_call latex_content compilation_error) (length attempts) ++ w).
Proof.
  induction attempts as [|attempt rest IH]; intros w Hnone; [reflexivity|].
  simpl correction_loop. unfold bind at 1. rewrite attempt_step.
  pose proof (Hnone 0%nat ltac:(simpl; lia)) as H0.
  unfold attempt_accepted, attempt_reply in H0. simpl in H0.
  destruct (service w _) as [t|e].
  - cbv zeta. rewrite H0.
    rewrite IH; [now rewrite world_shift|].
    intros k Hk. rewrite attempt_accepted_shift. apply Hnone. simpl. lia.
  - rewrite IH; [now rewrite world_shift|].
    intros k Hk. rewrite attempt_accepted_shift. apply Hnone. simpl. lia.
Qed.

(** The first accepted attempt ends the loop: no call after it. *)
Lemma loop_first_accepted (latex_content compilation_error : pystr)
    (log : list pystr) (attempts : list Z) :
  forall w k,
    (k < length attempts)%nat ->
    attempt_accepted w latex_content compilation_error k = true ->
    (forall j, (j < k)%nat ->
               attempt_accepted w latex_content compilation_error j = false) ->
    exists response_text,
      attempt_reply w latex_content compilation_error k = Ok response_text
      /\ correction_loop latex_content latex_content compilation_error log attempts w
         = (Ok (_extract_latex_from_response response_text, true,
                log ++ [attempt_entry (nth k attempts 0)]),
            repeat (correction_call latex_content compilation_error) (S k) ++ w).
Proof.
  induction attempts as [|attempt rest IH]; intros w k Hk Hacc Hbefore;
    [simpl in Hk; lia|].
  simpl correction_loop. unfold bind at 1. rewrite attempt_step.
  destruct k as [|k].
  - unfold attempt_accepted, attempt_reply in *. simpl in *.
    destruct (service w _) as [t|e]; [|discriminate].
    exists t. split; [reflexivity|]. cbv zeta. now rewrite Hacc.
  - pose proof (Hbefore 0%nat ltac:(lia)) as H0.
    unfold attempt_accepted, attempt_reply in H0. simpl in H0.
    destruct (IH (correction_call latex_content compilation_error :: w) k)
      as (t & Ht & Hrun).
    + simpl in Hk. lia.
    + now rewrite attempt_accepted_shift.
    + intros j Hj. rewrite attempt_accepted_shift. apply Hbefore. lia.
    + exists t. split.
      * unfold attempt_reply in *. now rewrite <- world_shift.
      * rewrite <- world_shift. simpl nth.
        destruct (service w _) as [t0|e]; [cbv zeta; rewrite H0|]; exact Hrun.
Qed.

Lemma range_from_1_length (n : nat) : length (range_from_1 (Z.of_nat n)) = n.
Proof. unfold range_from_1. now rewrite length_map, length_seq, Nat2Z.id. Qed.

Lemma range_from_1_nth (n k : nat) :
  (k < n)%nat -> nth k (range_from_1 (Z.of_nat n)) 0 = Z.of_nat k + 1.
Proof.
  intros Hk. unfold range_from_1. rewrite Nat2Z.id.
  change 0 with (Z.of_nat 0). rewrite map_nth, seq_nth by assumption. lia.
Qed.

(** The run of [self_correct_compilation_errors] for any bound: it
    returns at the first accepted attempt, or after the last one. *)
Lemma self_correct_run (latex_content compilation_error : pystr) (n : nat)
    (w : world) :
  (exists k response_text,
     (k < n)%nat
     /\ (forall j, (j < k)%nat -> ~ attempt_valid w latex_content compilation_error j)
     /\ attempt_reply w latex_content compilation_error k = Ok response_text
     /\ structurally_valid (_extract_latex_from_response response_text) latex_content
     /\ self_correct_compilation_errors latex_content compilation_error (Z.of_nat n) w
        = (Ok (_extract_latex_from_response response_text, true,
               [attempt_entry (Z.of_nat k + 1)]),
           repeat (correction_call latex_content compilation_error) (S k) ++ w))
  \/ ((forall k, (k < n)%nat -> ~ attempt_valid w latex_content compilation_error k)
      /\ self_correct_compilation_errors latex_content compilation_error (Z.of_nat n) w
         = (Ok (latex_content, false, []),
            repeat (correction_call latex_content compilation_error) n ++ w)).
Proof.
  unfold self_correct_compilation_errors. cbv zeta.
  destruct (first_or_none (attempt_accepted w latex_content compilation_error) n)
    as [(k & Hk & Hacc & Hbefore) | Hnone].
  - left.
    destruct (loop_first_accepted latex_content compilation_error []
                (range_from_1 (Z.of_nat n)) w k) as (t & Ht & Hrun);
      try assumption; [now rewrite range_from_1_length|].
    assert (Hvalid : structurally_valid (_extract_latex_from_response t)
                                        latex_content).
    { apply attempt_accepted_iff in Hacc. destruct Hacc as (t' & Ht' & Hv).
      rewrite Ht in Ht'. injection Ht' as <-. exact Hv. }
    exists k, t.
    split; [assumption|]. split; [|split; [assumption|split; [assumption|]]].
    + intros j Hj Hj_valid. apply attempt_accepted_iff in Hj_valid.
      rewrite (Hbefore j Hj) in Hj_valid. discriminate.
    + rewrite Hrun, range_from_1_nth by assumption. reflexivity.
  - right. split.
    + intros k Hk Hvalid. apply attempt_accepted_iff in Hvalid.
      rewrite (Hnone k Hk) in Hvalid. discriminate.
    + rewrite loop_exhausted; [now rewrite range_from_1_length|].
      intros k Hk. apply Hnone. now rewrite range_from_1_length in Hk.
Qed.

(** C3: [self_correct_compilation_errors] with [max_attempts = 3] always
    returns and makes at most 3 service calls.  At the first attempt whose
    reply passes the structural checks it returns the extracted document
    with [success = true], having made no call after that one; when none of
    the three attempts passes (rejected reply or exception) it returns the
    original document with [success = false] and the correction log, which
    is then empty. *)
Theorem self_correct_three_attempts (latex_content compilation_error : pystr)
    (w : world) :
  exists doc ok log w',
    self_correct_compilation_errors latex_content compilation_error 3 w
    = (Ok (doc, ok, log), w')
    /\ 0 <= calls_made w w' <= 3
    /\ (forall k,
          (k < 3)%nat ->
          attempt_valid w latex_content compilation_error k ->
          (forall j, (j < k)%nat ->
                     ~ attempt_valid w latex_content compilation_error j) ->
          ok = true
          /\ log = [attempt_entry (Z.of_nat k + 1)]
          /\ calls_made w w' = Z.of_nat k + 1
          /\ exists response_text,
               attempt_reply w latex_content compilation_error k = Ok response_text
               /\ doc = _extract_latex_from_response response_text)
    /\ ((forall k, (k < 3)%nat ->
                   ~ attempt_valid w latex_content compilation_error k) ->
        doc = latex_content /\ ok = false /\ log = [] /\ calls_made w w' = 3)
    /\ (ok = false -> doc = latex_content /\ log = []).
Proof.
  change 3 with (Z.of_nat 3).
  destruct (self_correct_run latex_content compilation_error 3 w)
    as [(k0 & t0 & Hk0 & Hbefore0 & Hreply0 & Hvalid0 & Hrun) | (Hnone & Hrun)];
    rewrite Hrun; do 4 eexists; (split; [reflexivity|]);
    rewrite calls_made_repeat.
  - split; [lia|].
    assert (Hk0_valid : attempt_valid w latex_content compilation_error k0)
      by (exists t0; now split).
    split; [|split; [|discriminate]].
    + intros k Hk Hk_valid Hbefore.
      assert (k = k0) as ->.
      { destruct (Nat.lt_trichotomy k k0) as [Hlt | [Heq | Hgt]].
        - exfalso. exact (Hbefore0 k Hlt Hk_valid).
        - exact Heq.
        - exfalso. exact (Hbefore k0 Hgt Hk0_valid). }
      repeat split; try lia. now exists t0.
    + intros Hnone. exfalso. exact (Hnone k0 Hk0 Hk0_valid).
  - split; [lia|].
    split; [|split; [now intros _ | now intros _]].
    intros k Hk Hk_valid _. exfalso. exact (Hnone k Hk Hk_valid).
Qed.

(** ** The loader *)

Lemma add_section_appends (sections : list section_dict) (entry : pystr * pystr) :
  add_section sections entry =
  sections ++
  match read_text (path_join content_dir (fst entry)) with
  | Some (c :: content) =>
      [{| sec_title := snd entry;
          sec_content := c :: content;
          sec_type := lit "markdown" |}]
  | _ => []
  end.
Proof.
  destruct entry as [filename title].
  unfold add_section, load_markdown_content. cbn [fst snd].
  destruct (read_text _) as [[|c content]|]; cbn [is_empty negb];
    now rewrite ?app_nil_r.
Qed.

Lemma fold_add_section (files : list (pystr * pystr)) :
  forall sections,
    fold_left add_section files sections =
    sections ++
    flat_map
      (fun entry : pystr * pystr =>
         match read_text (path_join content_dir (fst entry)) with
         | Some (c :: content) =>
             [{| sec_title := snd entry;
                 sec_content := c :: content;
                 sec_type := lit "markdown" |}]
         | _ => []
         end)
      files.
Proof.
  induction files as [|entry files IH]; intros sections.
  - cbn [fold_left flat_map]. now rewrite app_nil_r.
  - cbn [fold_left flat_map]. rewrite IH, add_section_appends.
    now rewrite <- app_assoc.
Qed.

Lemma no_figures_without_images :
  (forall ext, path_glob images_dir ext = []) -> load_figures = Ok [].
Proof.
  intros Hglob. unfold load_figures.
  destruct (path_exists images_dir); [|reflexivity].
  cbn [scan_patterns]. rewrite !Hglob. reflexivity.
Qed.

(** C8 (amended): the loader returns the sections of the files that exist
    and are not empty, in the declared order; with only [introduction.md],
    holding [Hello], and no CSV file and no image, it returns that one
    section, no table and no figure. *)
Theorem loader_sections_in_declared_order :
  load_all_markdown_sections = sections_of_nonempty_files
  /\ (read_text (path_join content_dir (lit "introduction.md")) = Some (lit "Hello") ->
      (forall filename,
         In filename [lit "methodology.md"; lit "research_areas.md";
                      lit "detailed_results.md"; lit "results.md";
                      lit "conclusion.md"] ->
         read_text (path_join content_dir filename) = None) ->
      read_text (path_join data_dir (lit "model_performance.csv")) = None ->
      read_text (path_join data_dir (lit "training_metrics.csv")) = None ->
      (forall ext, path_glob images_dir ext = []) ->
      load_components
      = Ok ([{| sec_title := lit "Introduction";
                sec_content := lit "Hello";
                sec_type := lit "markdown" |}],
            [], [])).
Proof.
  assert (Hsections : load_all_markdown_sections = sections_of_nonempty_files).
  { unfold load_all_markdown_sections. now rewrite fold_add_section. }
  split; [exact Hsections|].
  intros Hintro Hothers Hcsv1 Hcsv2 Hglob.
  unfold load_components.
  rewrite (no_figures_without_images Hglob), Hsections.
  unfold load_csv_tables. rewrite Hcsv1, Hcsv2.
  unfold sections_of_nonempty_files, markdown_files.
  cbn [flat_map fst snd].
  rewrite Hintro.
  rewrite !Hothers by (cbn [In]; auto 10).
  reflexivity.
Qed.

(** C7: when [training_metrics.csv] holds more than 6 rows, the table
    loaded from it is the last of the list and its data are the header
    row and the first 5 data rows, 6 rows in all. *)
Theorem training_metrics_table_limited (text : pystr) :
  read_text (path_join data_dir (lit "training_metrics.csv")) = Some text ->
  6 < Z.of_nat (length (csv_reader text)) ->
  exists header r1 r2 r3 r4 r5 more first_table,
    csv_reader text = header :: r1 :: r2 :: r3 :: r4 :: r5 :: more
    /\ (length first_table <= 1)%nat
    /\ load_csv_tables
       = first_table
         ++ [{| tbl_caption := lit "Training Progression (First 5 Epochs)";
                tbl_data := [header; r1; r2; r3; r4; r5];
                tbl_format := lit "booktabs" |}].
Proof.
  intros Hfile Hrows.
  destruct (csv_reader text) as [|header [|r1 [|r2 [|r3 [|r4 [|r5 more]]]]]] eqn:E;
    try (simpl in Hrows; lia).
  exists header, r1, r2, r3, r4, r5, more.
  assert (Hslice : slice (header :: r1 :: r2 :: r3 :: r4 :: r5 :: more) 1 6
                   = [r1; r2; r3; r4; r5]).
  { exact (slice_middle [header] [r1; r2; r3; r4; r5] more). }
  assert (Hmany : (1 <? Z.of_nat (length (header :: r1 :: r2 :: r3 :: r4 :: r5 :: more)))
                  = true).
  { apply Z.ltb_lt. simpl length. lia. }
  unfold load_csv_tables. cbv zeta. rewrite Hfile, E, Hmany, Hslice.
  eexists. split; [reflexivity|]. split; [|reflexivity].
  destruct (read_text (path_join data_dir (lit "model_performance.csv"))) as [t|];
    [destruct (csv_reader t)|]; cbn [length app]; lia.
Qed.

(** ** More on extraction *)

Lemma lstrip_head (s : pystr) (c : N) (t : pystr) :
  lstrip s = c :: t -> isspace c = false.
Proof.
  induction s as [|d s IH]; simpl; [discriminate|].
  destruct (isspace d) eqn:Hd; [exact IH|].
  intros Heq. injection Heq as <- _. exact Hd.
Qed.

Lemma lstrip_fixed (s : pystr) :
  (forall c t, s = c :: t -> isspace c = false) -> lstrip s = s.
Proof.
  destruct s as [|c t]; intros H; [reflexivity|].
  simpl. now rewrite (H c t eq_refl).
Qed.

Lemma lstrip_idempotent (s : pystr) : lstrip (lstrip s) = lstrip s.
Proof. apply lstrip_fixed. intros c t. apply lstrip_head. Qed.

Lemma lstrip_snoc (u : pystr) (c : N) :
  lstrip (u ++ [c]) =
  match lstrip u with
  | [] => lstrip [c]
  | _ :: _ => lstrip u ++ [c]
  end.
Proof.
  induction u as [|d u IH]; [reflexivity|].
  simpl. destruct (isspace d); [exact IH | reflexivity].
Qed.

(** [rstrip] keeps a first character that is no whitespace. *)
Lemma rstrip_keeps_head (c : N) (t : pystr) :
  isspace c = false -> exists t', rstrip (c :: t) = c :: t'.
Proof.
  intros Hc. unfold rstrip. simpl rev. rewrite lstrip_snoc.
  destruct (lstrip (rev t)) as [|d l].
  - simpl. rewrite Hc. now exists [].
  - rewrite rev_app_distr. simpl. now eexists.
Qed.

Lemma strip_head (s : pystr) (c : N) (t : pystr) :
  strip s = c :: t -> isspace c = false.
Proof.
  unfold strip. destruct (lstrip s) as [|d l] eqn:Hl.
  - discriminate.
  - pose proof (lstrip_head _ _ _ Hl) as Hd.
    destruct (rstrip_keeps_head d l Hd) as [t' ->].
    intros Heq. injection Heq as <- _. exact Hd.
Qed.

Lemma strip_last (s : pystr) (t : pystr) (c : N) :
  strip s = t ++ [c] -> isspace c = false.
Proof.
  unfold strip, rstrip. intros Heq.
  apply (f_equal (@rev N)) in Heq.
  rewrite rev_involutive, rev_app_distr in Heq. simpl in Heq.
  exact (lstrip_head _ _ _ Heq).
Qed.

Lemma strip_idempotent (s : pystr) : strip (strip s) = strip s.
Proof.
  assert (Hl : lstrip (strip s) = strip s).
  { apply lstrip_fixed. intros c t. apply strip_head. }
  unfold strip at 1. rewrite Hl.
  unfold strip, rstrip. now rewrite rev_involutive, lstrip_idempotent.
Qed.

Lemma strip_keeps_absent (sub s : pystr) :
  contains sub s = false -> contains sub (strip s) = false.
Proof.
  intros H. destruct (contains sub (strip s)) eqn:E; [|reflexivity].
  destruct (strip_inside s) as (x & y & Hs).
  rewrite Hs in H. rewrite contains_inside in H by exact E. discriminate.
Qed.

Lemma startswith_firstn (sub t : pystr) (n : nat) :
  startswith sub (firstn n t) = true -> startswith sub t = true.
Proof.
  intros H. apply startswith_inv in H. destruct H as [x Hx].
  rewrite <- (firstn_skipn n t), Hx, <- app_assoc. apply startswith_app.
Qed.

Lemma contains_firstn (sub t : pystr) (n : nat) :
  contains sub t = false -> contains sub (firstn n t) = false.
Proof.
  intros H. destruct (contains sub (firstn n t)) eqn:E; [|reflexivity].
  pose proof (contains_inside sub (firstn n t) [] (skipn n t) E) as H'.
  cbn [app] in H'. rewrite firstn_skipn, H in H'. discriminate.
Qed.

Lemma contains_nil_false (sub : pystr) : sub <> [] -> contains sub [] = false.
Proof. destruct sub; [contradiction | reflexivity]. Qed.

(** An occurrence found by the scan lies inside the text. *)
Lemma find_from_fits (sub s : pystr) (i : Z) :
  contains sub s = true ->
  i <= find_from sub s i /\ find_from sub s i + len sub <= i + len s.
Proof.
  revert i. induction s as [|c s IH]; intros i H;
    rewrite contains_unfold in H; rewrite find_from_unfold;
    destruct (startswith sub _) eqn:E; simpl in H; try discriminate.
  - apply startswith_inv in E. destruct E as [t Ht].
    rewrite Ht, len_app. pose proof (len_nonneg t). lia.
  - apply startswith_inv in E. destruct E as [t Ht].
    rewrite Ht, len_app. pose proof (len_nonneg t). lia.
  - specialize (IH (i + 1) H). unfold len in *. simpl length. lia.
Qed.

(** Nothing before the position the scan returns holds an occurrence. *)
Lemma find_from_prefix_clean (sub : pystr) :
  sub <> [] ->
  forall (t : pystr) (i : Z) (k : nat),
    contains sub t = true ->
    find_from sub t i = i + Z.of_nat k ->
    contains sub (firstn k t) = false.
Proof.
  intros Hsub. induction t as [|c t IH]; intros i k Hin Hfind.
  - rewrite firstn_nil. now apply contains_nil_false.
  - rewrite contains_unfold in Hin. rewrite find_from_unfold in Hfind.
    destruct (startswith sub (c :: t)) eqn:E.
    + replace k with 0%nat by lia. now apply contains_nil_false.
    + simpl in Hin.
      destruct (find_from_fits sub t (i + 1) Hin) as [Hlow _].
      destruct k as [|k]; [lia|].
      simpl firstn. rewrite contains_unfold.
      rewrite (IH (i + 1) k Hin) by lia.
      destruct (startswith sub (c :: firstn k t)) eqn:E'; [|reflexivity].
      apply (startswith_firstn sub (c :: t) (S k)) in E'. congruence.
Qed.

Lemma contains_find_from (sub s : pystr) (i : Z) :
  0 <= i -> find_from sub s i <> -1 -> contains sub s = true.
Proof.
  intros Hi H. destruct (contains sub s) eqn:E; [reflexivity|].
  now rewrite find_from_none in H.
Qed.

(** The slice from a position to the next occurrence of [sub] after it,
    or to [-1] when there is none, holds no occurrence of [sub]. *)
Lemma slice_to_find_clean (s sub : pystr) (start : Z) :
  sub <> [] -> 0 <= start <= len s ->
  contains sub (slice s start (find s sub start)) = false.
Proof.
  intros Hsub Hstart.
  assert (Hnat : start = Z.of_nat (Z.to_nat start)) by lia.
  assert (Hk : (Z.to_nat start <= length s)%nat) by (unfold len in Hstart; lia).
  rewrite Hnat at 2. rewrite (find_at s sub _ Hk), <- Hnat.
  set (t := skipn (Z.to_nat start) s).
  assert (Hlen : len t = len s - start).
  { unfold t, len. rewrite length_skipn. unfold len in Hstart. lia. }
  destruct (contains sub t) eqn:Hin.
  - destruct (find_from_fits sub t start Hin) as [Hlow Hhigh].
    pose proof (len_nonneg sub) as Hsub_len.
    unfold slice, from_end. fold (len s).
    destruct (Z.ltb_spec start 0); [lia|].
    destruct (Z.ltb_spec (find_from sub t start) 0); [lia|].
    rewrite !Z.min_l by lia. fold t.
    apply (find_from_prefix_clean sub Hsub t start); [exact Hin | lia].
  - rewrite (find_from_none _ _ _ Hin).
    unfold slice. fold (len s).
    replace (Z.to_nat (Z.min (from_end (len s) start) (len s)))
      with (Z.to_nat start)
      by (unfold from_end; destruct (Z.ltb_spec start 0); lia).
    fold t. now apply contains_firstn.
Qed.

Lemma extract_is_strip (reply : pystr) :
  exists x, _extract_latex_from_response reply = strip x.
Proof.
  unfold _extract_latex_from_response.
  destruct (contains FENCE_LATEX reply); [eexists; reflexivity|].
  destruct (contains FENCE reply); eexists; reflexivity.
Qed.

Lemma extract_has_no_fence (reply : pystr) :
  contains FENCE (_extract_latex_from_response reply) = false.
Proof.
  unfold _extract_latex_from_response.
  destruct (contains FENCE_LATEX reply) eqn:Hlatex.
  - apply strip_keeps_absent, slice_to_find_clean; [discriminate|].
    rewrite find_0.
    destruct (find_from_fits FENCE_LATEX reply 0 Hlatex) as [Hlow Hhigh].
    change (len FENCE_LATEX) with 8 in Hhigh. lia.
  - destruct (contains FENCE reply) eqn:Hfence.
    + apply strip_keeps_absent, slice_to_find_clean; [discriminate|].
      rewrite find_0.
      destruct (find_from_fits FENCE reply 0 Hfence) as [Hlow Hhigh].
      change (len FENCE) with 3 in Hhigh. lia.
    + now apply strip_keeps_absent.
Qed.

(** X1: on a reply without [```latex], [pre ``` body ``` post] whose first
    [```] is the one after [pre] and whose next [```] is the one after
    [body], extraction returns [body] trimmed of surrounding whitespace; a
    language tag other than [latex] after the opening fence is part of
    [body] and is returned with it. *)
Theorem extract_plain_fence (pre body post : pystr) :
  contains FENCE_LATEX (pre ++ FENCE ++ body ++ FENCE ++ post) = false ->
  contains FENCE (pre ++ removelast FENCE) = false ->
  contains FENCE (body ++ removelast FENCE) = false ->
  _extract_latex_from_response (pre ++ FENCE ++ body ++ FENCE ++ post)
  = strip body.
Proof.
  intros Hlatex Hfirst Hnext.
  unfold _extract_latex_from_response.
  rewrite Hlatex, contains_intro.
  change 3 with (len FENCE).
  rewrite fenced_block; (reflexivity || assumption || discriminate).
Qed.

(** X2: the text extraction returns never holds a fence marker [```],
    and extracting from it again returns it unchanged. *)
Theorem extract_clean_and_idempotent (reply : pystr) :
  contains FENCE (_extract_latex_from_response reply) = false
  /\ contains FENCE_LATEX (_extract_latex_from_response reply) = false
  /\ _extract_latex_from_response (_extract_latex_from_response reply)
     = _extract_latex_from_response reply.
Proof.
  pose proof (extract_has_no_fence reply) as Hclean.
  pose proof (no_fence_no_latex_fence _ Hclean) as Hclean'.
  split; [exact Hclean|]. split; [exact Hclean'|].
  unfold _extract_latex_from_response at 1. rewrite Hclean', Hclean.
  destruct (extract_is_strip reply) as [x ->]. apply strip_idempotent.
Qed.

(** X3: the text extraction returns is a contiguous piece of the reply,
    so never longer than the reply, and it neither starts nor ends with a
    whitespace character. *)
Theorem extract_is_trimmed_piece (reply : pystr) :
  (exists before after,
     reply = before ++ _extract_latex_from_response reply ++ after)
  /\ len (_extract_latex_from_response reply) <= len reply
  /\ (forall c rest,
        _extract_latex_from_response reply = c :: rest -> isspace c = false)
  /\ (forall rest c,
        _extract_latex_from_response reply = rest ++ [c] -> isspace c = false).
Proof.
  destruct (extract_inside reply) as (x & y & Hpiece).
  split; [now exists x, y|]. split.
  - rewrite Hpiece at 2. rewrite !len_app.
    pose proof (len_nonneg x). pose proof (len_nonneg y). lia.
  - destruct (extract_is_strip reply) as [z ->]. split.
    + intros c rest. apply strip_head.
    + intros rest c. apply strip_last.
Qed.

(** ** More on validation and generation *)

(** X4: when the reply does not hold the marker text, [json.loads] is
    never consulted: the warnings and the improvements are empty, and the
    document returned is the extracted candidate, or the original when the
    candidate is empty or shorter than half of it. *)
Theorem validate_without_marker (latex_content : pystr)
    (request : LaTeXGenerationRequest) (w : world) (response_text : pystr) :
  service w (validation_call latex_content) = Ok response_text ->
  contains ISSUES_MARKER response_text = false ->
  _validate_and_fix_latex latex_content request w
  = (Ok (let fixed_latex := _extract_latex_from_response response_text in
         if is_empty fixed_latex || shorter_than_half fixed_latex latex_content
         then (latex_content, VList [], [])
         else (fixed_latex, VList [], [])),
     validation_call latex_content :: w).
Proof.
  intros Hreply Hmarker.
  rewrite (validate_on_reply _ request _ _ Hreply). cbv zeta.
  unfold extract_issues. rewrite Hmarker.
  destruct (is_empty _ || shorter_than_half _ _); reflexivity.
Qed.


(** X6: when the value under [issues] has no length ([null], a number, a
    boolean) and the candidate passes the length guard, the [TypeError] of
    [len(warnings)] is caught: the candidate is dropped, and the original
    document comes back with the single warning [Validation failed: object
    of type '...' has no len()]. *)
Theorem validate_drops_candidate_on_unsized_issues (latex_content : pystr)
    (request : LaTeXGenerationRequest) (w : world) (response_text : pystr)
    (d : list (pystr * pyval)) (v : pyval) :
  service w (validation_call latex_content) = Ok response_text ->
  contains ISSUES_MARKER response_text = true ->
  json_loads (issues_span response_text) = Some (VDict d) ->
  assoc_get d (lit "issues") (VList []) = v ->
  (forall s, v <> VStr s) -> (forall l, v <> VList l) -> (forall d', v <> VDict d') ->
  _extract_latex_from_response response_text <> [] ->
  len latex_content <= 2 * len (_extract_latex_from_response response_text) ->
  _validate_and_fix_latex latex_content request w
  = (Ok (latex_content,
         VList [VStr (lit "Validation failed: object of type '"
                      ++ type_name v ++ lit "' has no len()")],
         []),
     validation_call latex_content :: w).
Proof.
  intros Hreply Hmarker Hparse Hget Hstr Hlist Hdict Hne Hhalf.
  rewrite (validate_on_reply _ request _ _ Hreply). cbv zeta.
  assert (Hw : extract_issues response_text = v).
  { unfold extract_issues. rewrite Hmarker, Hparse. simpl. now rewrite Hget. }
  rewrite Hw, (proj2 (guard_false _ _) (conj Hne Hhalf)).
  destruct v as [| b | z | f | s | l | d'];
    try reflexivity.
  - now contradiction (Hstr s).
  - now contradiction (Hlist l).
  - now contradiction (Hdict d').
Qed.

(** X7: when the first service call raises, or nothing is extracted from
    its reply, [generate_document] returns the failure result (no document,
    no warnings, the fixed error message) after that one call: validation is
    not attempted even when it was requested. *)
Theorem generate_initial_failure_skips_validation
    (request : LaTeXGenerationRequest) (validate : bool) (w : world) :
  (exists e, service w (generation_call request) = Raise e)
  \/ (exists t, service w (generation_call request) = Ok t
                /\ _extract_latex_from_response t = []) ->
  generate_document request validate w
  = (Ok {| success := false;
           latex_content := [];
           warnings := [];
           improvements_made := [];
           error_message := Some (lit "Failed to generate initial LaTeX") |},
     generation_call request :: w)
  /\ calls_made w (snd (generate_document request validate w)) = 1.
Proof.
  intros Hfail. rewrite (generate_soft_failure request validate w Hfail).
  split; [reflexivity|].
  unfold calls_made. cbn [snd length]. lia.
Qed.

(** Every result [generate_document] returns is a success with a
    non-empty document and no error message, or the failure result. *)
Lemma generate_result_cases (request : LaTeXGenerationRequest)
    (validate : bool) (w : world) (r : LaTeXGenerationResult) (w' : world) :
  generate_document request validate w = (Ok r, w') ->
  (success r = true /\ latex_content r <> [] /\ error_message r = None)
  \/ (success r = false
      /\ latex_content r = []
      /\ warnings r = []
      /\ improvements_made r = []
      /\ error_message r = Some (lit "Failed to generate initial LaTeX")).
Proof.
  unfold generate_document, bind.
  destruct (service w (generation_call request)) as [t|e] eqn:Hs.
  - rewrite (initial_on_reply _ _ _ Hs).
    destruct (is_empty (_extract_latex_from_response t)) eqn:Hempty.
    + intros Heq. injection Heq as <- _. right. now repeat split.
    + assert (Hne : _extract_latex_from_response t <> []).
      { intros Habs. rewrite Habs in Hempty. discriminate. }
      destruct validate.
      * destruct (service (generation_call request :: w)
                    (validation_call (_extract_latex_from_response t)))
          as [t2|e2] eqn:Hs2.
        -- rewrite (validate_on_reply _ request _ _ Hs2). cbv zeta.
           destruct (is_empty (_extract_latex_from_response t2)
                     || shorter_than_half _ _) eqn:Hguard.
           ++ unfold lift. destruct (py_iter _); [|discriminate].
              intros Heq. injection Heq as <- _. left. now repeat split.
           ++ apply guard_false in Hguard. destruct Hguard as [Hne2 _].
              destruct (py_len _); unfold lift; (destruct (py_iter _);
                [|discriminate]); intros Heq; injection Heq as <- _;
                left; now repeat split.
        -- destruct (validate_on_raise _ request _ _ Hs2) as [_ ->].
           unfold lift. simpl.
           intros Heq. injection Heq as <- _. left. now repeat split.
      * intros Heq. injection Heq as <- _. left. now repeat split.
  - rewrite (initial_on_raise _ _ _ Hs). simpl.
    intros Heq. injection Heq as <- _. right. now repeat split.
Qed.

(** The calls [generate_document] sends, on the path that raises too. *)
Lemma generate_world (request : LaTeXGenerationRequest) (validate : bool)
    (w : world) :
  snd (generate_document request validate w)
  = match service w (generation_call request) with
    | Ok t =>
        if validate && negb (is_empty (_extract_latex_from_response t))
        then [validation_call (_extract_latex_from_response t);
              generation_call request] ++ w
        else [generation_call request] ++ w
    | Raise _ => [generation_call request] ++ w
    end.
Proof.
  unfold generate_document, bind.
  destruct (service w (generation_call request)) as [t|e] eqn:Hs.
  - rewrite (initial_on_reply _ _ _ Hs).
    destruct (is_empty (_extract_latex_from_response t)) eqn:Hempty;
      [now rewrite andb_false_r|].
    destruct validate; [|reflexivity].
    destruct (validate_always_returns (_extract_latex_from_response t) request
                (generation_call request :: w)) as (doc & warns & fixes & ->).
    unfold lift. destruct (py_iter warns); reflexivity.
  - now rewrite (initial_on_raise _ _ _ Hs).
Qed.

(** X8: in every result [generate_document] returns, [success] says
    exactly that the document is not empty, and exactly that there is no
    error message; a failure carries the fixed message and neither warnings
    nor improvements. *)
Theorem generate_result_shapes (request : LaTeXGenerationRequest)
    (validate : bool) (w : world) (r : LaTeXGenerationResult) (w' : world) :
  generate_document request validate w = (Ok r, w') ->
  (success r = true <-> latex_content r <> [])
  /\ (success r = true <-> error_message r = None)
  /\ (success r = false ->
      warnings r = [] /\ improvements_made r = []
      /\ error_message r = Some (lit "Failed to generate initial LaTeX")).
Proof.
  intros Hrun.
  destruct (generate_result_cases request validate w r w' Hrun)
    as [(Hs & Hdoc & Herr) | (Hs & Hdoc & Hw & Hi & Herr)];
    rewrite Hs, Herr.
  - split; [split; [intros _; exact Hdoc | reflexivity]|].
    split; [split; reflexivity | discriminate].
  - split; [split; [discriminate | intros Hne; now contradiction Hne]|].
    split; [split; discriminate |]. intros _. now repeat split.
Qed.

(** X9: [generate_document] sends one call or two, also on the path that
    raises: two exactly when validation is requested and the first reply
    yields a document, and the second is then the validation call for that
    document. *)
Theorem generate_calls (request : LaTeXGenerationRequest) (validate : bool)
    (w : world) :
  let w' := snd (generate_document request validate w) in
  1 <= calls_made w w' <= 2
  /\ (calls_made w w' = 2 <->
      validate = true
      /\ exists t, service w (generation_call request) = Ok t
                   /\ _extract_latex_from_response t <> [])
  /\ (forall t, service w (generation_call request) = Ok t ->
                calls_made w w' = 2 ->
                w' = [validation_call (_extract_latex_from_response t);
                      generation_call request] ++ w).
Proof.
  cbv zeta. rewrite generate_world. unfold calls_made.
  destruct (service w (generation_call request)) as [t|e].
  - destruct validate; cbn [andb].
    + destruct (_extract_latex_from_response t) as [|c doc] eqn:Hdoc;
        cbn [is_empty negb]; rewrite length_app; cbn [length].
      * split; [lia|]. split; [|intros t' _; lia].
        split; [lia|]. intros (_ & t' & Ht' & Hne). injection Ht' as <-.
        now contradiction Hne.
      * split; [lia|]. split.
        -- split; [|lia]. intros _. split; [reflexivity|].
           exists t. split; [reflexivity | now rewrite Hdoc].
        -- intros t' Ht' _. injection Ht' as <-. now rewrite Hdoc.
    + rewrite length_app; cbn [length].
      split; [lia|]. split; [|intros t' _; lia].
      split; [lia|]. intros (Hv & _). discriminate.
  - rewrite length_app; cbn [length].
    split; [lia|]. split; [|intros t' Ht'; discriminate].
    split; [lia|]. intros (_ & t' & Ht' & _). discriminate.
Qed.

(** ** More on self-correction and on the visual QA fixes *)

(** X10: for every [max_attempts], [self_correct_compilation_errors]
    returns after at most [max(0, max_attempts)] service calls, and every
    call it sends is the same one: a rejected reply never enters a later
    prompt.  A success comes with a document that passes the structural
    checks and a one-entry log naming the attempt, which is the number of
    calls made; a failure comes after all the calls allowed, in particular
    after none when [max_attempts <= 0], with the original document and an
    empty log. *)
Theorem self_correct_any_bound (latex_content compilation_error : pystr)
    (max_attempts : Z) (w : world) :
  exists doc ok log (k : nat),
    self_correct_compilation_errors latex_content compilation_error max_attempts w
    = (Ok (doc, ok, log),
       repeat (correction_call latex_content compilation_error) k ++ w)
    /\ Z.of_nat k <= Z.max 0 max_attempts
    /\ (ok = true ->
        (1 <= k)%nat
        /\ structurally_valid doc latex_content
        /\ log = [attempt_entry (Z.of_nat k)])
    /\ (ok = false ->
        Z.of_nat k = Z.max 0 max_attempts /\ doc = latex_content /\ log = []).
Proof.
  assert (Hnat : self_correct_compilation_errors latex_content compilation_error
                   max_attempts w
                 = self_correct_compilation_errors latex_content compilation_error
                     (Z.of_nat (Z.to_nat max_attempts)) w).
  { unfold self_correct_compilation_errors, range_from_1.
    now rewrite Nat2Z.id. }
  rewrite Hnat.
  destruct (self_correct_run latex_content compilation_error
              (Z.to_nat max_attempts) w)
    as [(k0 & t0 & Hk0 & _ & _ & Hvalid0 & Hrun) | (_ & Hrun)];
    rewrite Hrun.
  - exists (_extract_latex_from_response t0), true,
      [attempt_entry (Z.of_nat k0 + 1)], (S k0).
    split; [reflexivity|]. split; [lia|]. split; [|discriminate].
    intros _. split; [lia|]. split; [exact Hvalid0|].
    now replace (Z.of_nat (S k0)) with (Z.of_nat k0 + 1) by lia.
  - exists latex_content, false, [], (Z.to_nat max_attempts).
    split; [reflexivity|]. split; [lia|]. split; [discriminate|].
    intros _. split; [lia|]. now split.
Qed.

Lemma take_firstn {A} (n : nat) (l : list A) : take (Z.of_nat n) l = firstn n l.
Proof.
  unfold take, slice, from_end.
  destruct (Z.ltb_spec 0 0); [lia|].
  destruct (Z.ltb_spec (Z.of_nat n) 0); [lia|].
  rewrite (Z.min_l 0) by lia. rewrite Z.sub_0_r. cbn [Z.to_nat skipn].
  destruct (Nat.le_gt_cases n (length l)) as [Hle|Hgt].
  - rewrite Z.min_l by lia. now rewrite Nat2Z.id.
  - rewrite Z.min_r by lia. rewrite Nat2Z.id.
    rewrite !firstn_all2 by lia. reflexivity.
Qed.

(** X11: when [apply_visual_qa_fixes] accepts a reply, the fixes it
    reports are one entry that names the first three issues at most, joined
    by commas; further issues are not named. *)
Theorem visual_qa_fixes_name_three_issues (latex_content : pystr)
    (issues : list pystr) (w : world) (response_text : pystr) :
  service w (fix_call latex_content issues) = Ok response_text ->
  balanced_and_valid (_extract_latex_from_response response_text) latex_content ->
  apply_visual_qa_fixes latex_content issues w
  = (Ok (_extract_latex_from_response response_text, true,
         [lit "Applied fixes for: " ++ join (lit ", ") (firstn 3 issues)]),
     fix_call latex_content issues :: w).
Proof.
  intros Hreply Hvalid.
  rewrite (visual_qa_on_reply _ _ _ _ Hreply). cbv zeta.
  rewrite (proj2 (visual_qa_accepts_iff _ _) Hvalid).
  change 3 with (Z.of_nat 3). now rewrite take_firstn.
Qed.

(** ** More on the loader *)

Lemma header_and_five {A} (row0 : A) (rest : list A) :
  [row0] ++ slice (row0 :: rest) 1 6 = firstn 6 (row0 :: rest).
Proof.
  change (firstn 6 (row0 :: rest)) with (row0 :: firstn 5 rest).
  cbn [app]. f_equal.
  unfold slice, from_end.
  destruct (Z.ltb_spec 1 0); [lia|]. destruct (Z.ltb_spec 6 0); [lia|].
  cbn [length]. rewrite (Z.min_l 1) by lia.
  change (Z.to_nat 1) with 1%nat. cbn [skipn].
  destruct (Nat.le_gt_cases 5 (length rest)) as [Hle|Hgt].
  - rewrite Z.min_l by lia. reflexivity.
  - rewrite Z.min_r by lia.
    replace (Z.to_nat (Z.of_nat (S (length rest)) - 1)) with (length rest) by lia.
    rewrite !firstn_all2 by lia. reflexivity.
Qed.

(** X12: [load_csv_tables] returns the table of [model_performance.csv]
    and then the table of [training_metrics.csv], each when its file exists
    and holds enough rows: at least one for the first, which is never
    truncated, and at least two for the second, which keeps the first six
    rows of the file whatever their number; so at most two tables, and in
    the second between two and six rows. *)
Theorem csv_tables_shape :
  load_csv_tables = performance_table ++ training_table
  /\ (length load_csv_tables <= 2)%nat
  /\ (forall t, In t training_table ->
        (2 <= length (tbl_data t) <= 6)%nat).
Proof.
  assert (Heq : load_csv_tables = performance_table ++ training_table).
  { assert (Hsecond : forall tables : list table_dict,
      match read_text (path_join data_dir (lit "training_metrics.csv")) with
      | Some text =>
          match csv_reader text with
          | row0 :: _ =>
              if 1 <? Z.of_nat (length (csv_reader text)) then
                tables
                ++ [{| tbl_caption := lit "Training Progression (First 5 Epochs)";
                       tbl_data := [row0] ++ slice (csv_reader text) 1 6;
                       tbl_format := lit "booktabs" |}]
              else tables
          | [] => tables
          end
      | None => tables
      end = tables ++ training_table).
    { intros tables. unfold training_table.
      destruct (read_text (path_join data_dir (lit "training_metrics.csv")))
        as [text|]; [|now rewrite app_nil_r].
      destruct (csv_reader text) as [|row0 [|row1 rest]].
      - now rewrite app_nil_r.
      - cbn. now rewrite app_nil_r.
      - rewrite header_and_five.
        replace (1 <? Z.of_nat (length (row0 :: row1 :: rest))) with true
          by (symmetry; apply Z.ltb_lt; cbn [length]; lia).
        reflexivity. }
    unfold load_csv_tables. cbv zeta. rewrite Hsecond. reflexivity. }
  split; [exact Heq|]. split.
  - rewrite Heq, length_app. unfold performance_table, training_table.
    destruct (read_text (path_join data_dir (lit "model_performance.csv")))
      as [text1|]; [destruct (csv_reader text1)|];
      (destruct (read_text (path_join data_dir (lit "training_metrics.csv")))
         as [text2|]; [destruct (2 <=? length (csv_reader text2))%nat|]);
      cbn [length]; lia.
  - intros t. unfold training_table.
    destruct (read_text (path_join data_dir (lit "training_metrics.csv")))
      as [text|]; [|intros []].
    destruct (Nat.leb_spec 2 (length (csv_reader text))) as [Hle|Hgt];
      [|intros []].
    intros [<- | []]. cbn [tbl_data]. rewrite length_firstn. lia.
Qed.

Lemma flat_map_short {A B} (f : A -> list B) (l : list A) :
  (forall x, (length (f x) <= 1)%nat) -> (length (flat_map f l) <= length l)%nat.
Proof.
  intros Hf. induction l as [|x l IH]; [reflexivity|].
  cbn [flat_map length]. rewrite length_app. specialize (Hf x). lia.
Qed.

(** X13: [load_all_markdown_sections] returns at most six sections; each
    is of type [markdown], has a non-empty content, and carries the title
    declared for a file whose text is that content. *)
Theorem sections_invariants :
  (length load_all_markdown_sections <= 6)%nat
  /\ forall s, In s load_all_markdown_sections ->
       sec_type s = lit "markdown"
       /\ sec_content s <> []
       /\ exists filename,
            In (filename, sec_title s) markdown_files
            /\ read_text (path_join content_dir filename) = Some (sec_content s).
Proof.
  unfold load_all_markdown_sections. rewrite fold_add_section. cbn [app].
  split.
  - change 6%nat with (length markdown_files). apply flat_map_short.
    intros entry.
    destruct (read_text _) as [[|c content]|]; cbn [length]; lia.
  - intros s Hin. apply in_flat_map in Hin.
    destruct Hin as ([filename title] & Hentry & Hs). cbn [fst snd] in Hs.
    destruct (read_text (path_join content_dir filename))
      as [[|c content]|] eqn:Hread; [destruct Hs | | destruct Hs].
    destruct Hs as [<- | []]. cbn [sec_type sec_content sec_title].
    split; [reflexivity|]. split; [discriminate|].
    exists filename. now split.
Qed.

Lemma add_figures_spec (paths : list pystr) :
  forall figures,
    add_figures figures paths =
    match figures_of paths with
    | Ok more => Ok (figures ++ more)
    | Raise e => Raise e
    end.
Proof.
  induction paths as [|img_path rest IH]; intros figures;
    cbn [add_figures figures_of].
  - now rewrite app_nil_r.
  - unfold figure_of.
    destruct (path_relative_to img_path (path_parent output_dir)) as [rel|e];
      [|reflexivity].
    rewrite IH. destruct (figures_of rest); [|reflexivity].
    now rewrite <- app_assoc.
Qed.

Lemma figures_of_app (a b : list pystr) :
  figures_of (a ++ b) =
  match figures_of a with
  | Ok fa =>
      match figures_of b with
      | Ok fb => Ok (fa ++ fb)
      | Raise e => Raise e
      end
  | Raise e => Raise e
  end.
Proof.
  induction a as [|p a IH]; cbn [app figures_of].
  - destruct (figures_of b); reflexivity.
  - destruct (figure_of p); [|reflexivity].
    rewrite IH. destruct (figures_of a); [|reflexivity].
    destruct (figures_of b); reflexivity.
Qed.

Lemma load_figures_spec :
  load_figures = if path_exists images_dir then figures_of image_matches else Ok [].
Proof.
  unfold load_figures, image_matches.
  destruct (path_exists images_dir); [|reflexivity].
  cbn [scan_patterns]. rewrite !figures_of_app, !add_figures_spec.
  destruct (figures_of (path_glob images_dir (lit "*.png"))) as [f1|];
    [|reflexivity].
  rewrite add_figures_spec.
  destruct (figures_of (path_glob images_dir (lit "*.jpg"))) as [f2|];
    [|reflexivity].
  rewrite add_figures_spec.
  destruct (figures_of (path_glob images_dir (lit "*.jpeg"))) as [f3|];
    [|reflexivity].
  rewrite add_figures_spec.
  destruct (figures_of (path_glob images_dir (lit "*.pdf"))) as [f4|];
    [|reflexivity].
  cbn [app]. now rewrite <- !app_assoc.
Qed.

Lemma figures_of_all (paths : list pystr) :
  (forall p, In p paths ->
             exists rel, path_relative_to p (path_parent output_dir) = Ok rel) ->
  exists figures,
    figures_of paths = Ok figures
    /\ map fig_caption figures
       = map (fun p => str_title (underscores_to_spaces (path_stem p))) paths
    /\ map (fun f => Ok (A := pystr) (fig_path f)) figures
       = map (fun p => path_relative_to p (path_parent output_dir)) paths
    /\ forall f, In f figures -> fig_width f = lit "0.8\textwidth".
Proof.
  induction paths as [|p rest IH]; intros Hall.
  - exists []. repeat split. intros f [].
  - destruct (Hall p (or_introl eq_refl)) as [rel Hrel].
    destruct IH as (figures & Hrest & Hcaptions & Hpaths & Hwidth).
    { intros q Hq. apply Hall. now right. }
    cbn [figures_of]. unfold figure_of. rewrite Hrel, Hrest.
    eexists. split; [reflexivity|]. cbn [map fig_caption fig_path].
    rewrite Hcaptions, Hpaths, Hrel.
    repeat split. intros f [<- | Hf]; [reflexivity | now apply Hwidth].
Qed.

Lemma figures_of_first_failure (before after : list pystr) (p : pystr) (e : exc) :
  (forall q, In q before ->
             exists rel, path_relative_to q (path_parent output_dir) = Ok rel) ->
  path_relative_to p (path_parent output_dir) = Raise e ->
  figures_of (before ++ p :: after) = Raise e.
Proof.
  intros Hbefore Hp. rewrite figures_of_app.
  destruct (figures_of_all before Hbefore) as (figures & -> & _).
  cbn [figures_of]. unfold figure_of. now rewrite Hp.
Qed.

(** X14: when [images/] exists and [relative_to] succeeds on every image
    path matched, [load_figures] returns one figure per path, in the order
    of the patterns ([*.png], [*.jpg], [*.jpeg], [*.pdf]) and, for each
    pattern, of its listing; a figure holds the relative path, the caption
    made from the file stem with underscores turned into spaces, and the
    width [0.8\textwidth]. *)
Theorem load_figures_one_per_match :
  path_exists images_dir = true ->
  (forall p, In p image_matches ->
             exists rel, path_relative_to p (path_parent output_dir) = Ok rel) ->
  exists figures,
    load_figures = Ok figures
    /\ length figures = length image_matches
    /\ map fig_caption figures
       = map (fun p => str_title (underscores_to_spaces (path_stem p)))
             image_matches
    /\ map (fun f => Ok (A := pystr) (fig_path f)) figures
       = map (fun p => path_relative_to p (path_parent output_dir)) image_matches
    /\ forall f, In f figures -> fig_width f = lit "0.8\textwidth".
Proof.
  intros Hexists Hall. rewrite load_figures_spec, Hexists.
  destruct (figures_of_all image_matches Hall)
    as (figures & Hrun & Hcaptions & Hpaths & Hwidth).
  exists figures. split; [exact Hrun|]. split.
  - rewrite <- (length_map fig_caption), Hcaptions. apply length_map.
  - now repeat split.
Qed.

(** X15: when [relative_to] raises on one of the image paths matched,
    [load_figures] raises that exception (the one of the first such path)
    and returns no figure at all, also not those collected before. *)
Theorem load_figures_fails_as_a_whole (before after : list pystr) (p : pystr)
    (e : exc) :
  path_exists images_dir = true ->
  image_matches = before ++ p :: after ->
  (forall q, In q before ->
             exists rel, path_relative_to q (path_parent output_dir) = Ok rel) ->
  path_relative_to p (path_parent output_dir) = Raise e ->
  load_figures = Raise e /\ load_components = Raise e.
Proof.
  intros Hexists Hmatches Hbefore Hp.
  assert (Hfail : load_figures = Raise e).
  { rewrite load_figures_spec, Hexists, Hmatches.
    now apply figures_of_first_failure. }
  split; [exact Hfail|].
  unfold load_components. now rewrite Hfail.
Qed.

(** ** The orchestrator *)

Lemma patterns_run (w : world) :
  generate_with_patterns w =
  match load_figures with
  | Ok figures =>
      generate_document
        (patterns_request load_all_markdown_sections load_csv_tables figures)
        true w
  | Raise e => (Raise e, w)
  end.
Proof.
  unfold generate_with_patterns. cbv zeta. unfold bind at 1, lift.
  destruct load_figures as [figures|e]; [|reflexivity].
  unfold bind at 1, ret.
  destruct (generate_document _ _ _) as [[r|e] w']; reflexivity.
Qed.

Lemma successful_run_has_document (w : world) (r : LaTeXGenerationResult)
    (w' : world) :
  generate_with_patterns w = (Ok r, w') ->
  success r = true ->
  latex_content r <> [].
Proof.
  intros Hrun Hsuccess. rewrite patterns_run in Hrun.
  destruct load_figures as [figures|e]; [|discriminate].
  destruct (generate_result_cases _ _ _ _ _ Hrun)
    as [(_ & Hdoc & _) | (Hfalse & _)]; [exact Hdoc|].
  rewrite Hsuccess in Hfalse. discriminate.
Qed.

(** X16: when the figures load and the generation step fails (the first
    service call raises, or nothing is extracted from its reply),
    [generate_and_compile] reports the failure with the fixed message after
    that one call: no file is written and the compiler is not invoked. *)
Theorem compile_skipped_on_generation_failure (h : host)
    (figures : list figure_dict) :
  load_figures = Ok figures ->
  let request :=
    patterns_request load_all_markdown_sections load_csv_tables figures in
  (exists e, service (host_calls h) (generation_call request) = Raise e)
  \/ (exists t, service (host_calls h) (generation_call request) = Ok t
                /\ _extract_latex_from_response t = []) ->
  generate_and_compile h
  = (Ok (GenerationFailed (Some (lit "Failed to generate initial LaTeX"))),
     {| host_calls := generation_call request :: host_calls h;
        host_files := host_files h;
        host_compiled := host_compiled h |}).
Proof.
  intros Hfigures request Hfail.
  unfold generate_and_compile. rewrite patterns_run, Hfigures.
  fold request. now rewrite (generate_soft_failure request true _ Hfail).
Qed.

(** X17: when generation succeeds, [generate_and_compile] writes the
    generated document, which is not empty, to [research_report.tex] in the
    output directory, then hands that path to the compiler once, with the
    file in place; the report carries the compiler's verdict and message,
    and the PDF path exactly when the verdict is success. *)
Theorem compile_follows_write (h : host) (r : LaTeXGenerationResult) (w' : world) :
  generate_with_patterns (host_calls h) = (Ok r, w') ->
  success r = true ->
  let files := (tex_path_of_report, latex_content r) :: host_files h in
  latex_content r <> []
  /\ exists ok message,
       pdf_compile files tex_path_of_report = (ok, message)
       /\ generate_and_compile h
          = (Ok (Compiled ok tex_path_of_report
                   (if ok then Some pdf_path_of_report else None) r
                   {| comp_success := ok;
                      comp_message := message;
                      comp_pdf_path :=
                        if ok then Some pdf_path_of_report else None |}),
             {| host_calls := w';
                host_files := files;
                host_compiled := tex_path_of_report :: host_compiled h |}).
Proof.
  intros Hrun Hsuccess files. split.
  - exact (successful_run_has_document _ _ _ Hrun Hsuccess).
  - unfold generate_and_compile. rewrite Hrun, Hsuccess. cbn [negb]. cbv zeta.
    fold files. destruct (pdf_compile files tex_path_of_report) as [ok message].
    exists ok, message. now split.
Qed.

(** X18: whatever happens, a run of [generate_and_compile] sends at most
    two service calls, and either leaves the files and the compiler alone or
    writes one non-empty [research_report.tex] and compiles it once: no
    compilation is retried, and none happens without the write. *)
Theorem orchestrator_effects_bounded (h : host) :
  let h' := snd (generate_and_compile h) in
  0 <= calls_made (host_calls h) (host_calls h') <= 2
  /\ ((host_files h' = host_files h /\ host_compiled h' = host_compiled h)
      \/ (exists document,
            document <> []
            /\ host_files h' = (tex_path_of_report, document) :: host_files h
            /\ host_compiled h' = tex_path_of_report :: host_compiled h)).
Proof.
  cbv zeta. unfold generate_and_compile.
  destruct (generate_with_patterns (host_calls h)) as [[r|e] w'] eqn:Hrun.
  - assert (Hcalls : 0 <= calls_made (host_calls h) w' <= 2).
    { rewrite patterns_run in Hrun.
      destruct load_figures as [figures|e]; [|discriminate].
      pose proof (generate_world
                    (patterns_request load_all_markdown_sections
                       load_csv_tables figures) true (host_calls h)) as Hw.
      rewrite Hrun in Hw. cbn [snd] in Hw. rewrite Hw. unfold calls_made.
      destruct (service _ _) as [t|e0];
        [destruct (true && negb (is_empty _))|];
        rewrite length_app; cbn [length]; lia. }
    destruct (success r) eqn:Hsuccess; cbn [negb].
    + pose proof (successful_run_has_document _ _ _ Hrun Hsuccess) as Hdoc.
      cbv zeta.
      destruct (pdf_compile _ tex_path_of_report) as [ok message].
      cbn [snd host_calls host_files host_compiled].
      split; [exact Hcalls|]. right. exists (latex_content r). now repeat split.
    + cbn [snd host_calls host_files host_compiled].
      split; [exact Hcalls|]. left. now split.
  - cbn [snd host_calls host_files host_compiled]. split; [|left; now split].
    rewrite patterns_run in Hrun.
    destruct load_figures as [figures|e0].
    + pose proof (generate_world
                    (patterns_request load_all_markdown_sections
                       load_csv_tables figures) true (host_calls h)) as Hw.
      rewrite Hrun in Hw. cbn [snd] in Hw. rewrite Hw. unfold calls_made.
      destruct (service _ _) as [t|e1];
        [destruct (true && negb (is_empty _))|];
        rewrite length_app; cbn [length]; lia.
    + injection Hrun as _ <-. unfold calls_made. lia.
Qed.

(** X19: when [load_figures] raises, the run ends with that exception
    before any service call: nothing is sent, written or compiled. *)
Theorem figures_failure_aborts_run (h : host) (e : exc) :
  load_figures = Raise e ->
  fst (generate_and_compile h) = Raise e
  /\ host_calls (snd (generate_and_compile h)) = host_calls h
  /\ host_files (snd (generate_and_compile h)) = host_files h
  /\ host_compiled (snd (generate_and_compile h)) = host_compiled h.
Proof.
  intros Hfigures. unfold generate_and_compile.
  rewrite patterns_run, Hfigures. now repeat split.
Qed.

Lemma compile_keeps_calls (h : host) :
  host_calls (snd (generate_and_compile h))
  = snd (generate_with_patterns (host_calls h)).
Proof.
  unfold generate_and_compile.
  destruct (generate_with_patterns (host_calls h)) as [[r|e] w']; [|reflexivity].
  destruct (negb (success r)); [reflexivity|]. cbv zeta.
  destruct (pdf_compile _ _); reflexivity.
Qed.

(** A file that exists and is not empty has its section loaded. *)
Lemma section_of_file (filename title content : pystr) :
  In (filename, title) markdown_files ->
  read_text (path_join content_dir filename) = Some content ->
  content <> [] ->
  In {| sec_title := title; sec_content := content; sec_type := lit "markdown" |}
     load_all_markdown_sections.
Proof.
  intros Hentry Hread Hne.
  unfold load_all_markdown_sections. rewrite fold_add_section. cbn [app].
  apply in_flat_map. exists (filename, title). split; [exact Hentry|].
  cbn [fst snd]. rewrite Hread.
  destruct content as [|c content]; [now contradiction Hne | now left].
Qed.

End Program.

(** ** The operations at concrete inputs *)

Example find_examples :
  find (lit "ab```cd```") (lit "```") 0 = 2 /\
  find (lit "ab```cd```") (lit "```") 5 = 7 /\
  find (lit "ab```cd```") (lit "```") 8 = -1 /\
  find (lit "abc}") (lit "}") (-1) = 3 /\
  find (lit "abc") (lit "") 3 = 3 /\
  find (lit "abc") (lit "") 4 = -1.
Proof. repeat split; reflexivity. Qed.

Example slice_examples :
  slice (lit "abcdef") 2 (-1) = lit "cde" /\
  slice (lit "abcdef") 6 (-1) = [] /\
  slice (lit "abcdef") (-1) 0 = [] /\
  slice (lit "abcdef") 1 100 = lit "bcdef" /\
  take 3 [1; 2; 3; 4; 5] = [1; 2; 3] /\
  take 3 [1; 2] = [1; 2].
Proof. repeat split; reflexivity. Qed.

Example count_examples :
  count (lit "aaaa") (lit "aa") = 2 /\
  count (lit "\begin{a}\begin{b}\end{b}") (lit "\begin{") = 2 /\
  str_of_int 0 = lit "0" /\ str_of_int 12 = lit "12" /\
  strip (10%N :: lit "  a b " ++ [9%N]) = lit "a b" /\
  join (lit ", ") [lit "a"; lit "b"; lit "c"] = lit "a, b, c".
Proof. repeat split; reflexivity. Qed.

Example extract_examples :
  _extract_latex_from_response
    (lit "Here:" ++ nl ++ lit "```latex" ++ nl ++ lit "\title{T}" ++ nl ++ lit "```" ++ nl)
  = lit "\title{T}" /\
  _extract_latex_from_response (lit "```" ++ nl ++ lit "\title{T}" ++ nl ++ lit "``` bye")
  = lit "\title{T}" /\
  _extract_latex_from_response (lit "```tex" ++ nl ++ lit "\title{T}" ++ nl ++ lit "```")
  = lit "tex" ++ nl ++ lit "\title{T}" /\
  _extract_latex_from_response (lit "  \title{T} " ++ nl) = lit "\title{T}" /\
  _extract_latex_from_response (lit "```latex" ++ nl ++ lit "\title{T}") = lit "\title{T".
Proof. repeat split; vm_compute; reflexivity. Qed.

(** C1, at a reply with a preamble, a fenced block and a closing remark,
    and at a reply without fences. *)
Lemma extract_latex_fenced_or_plain_witness :
  let pre := lit "Here is the document:" ++ nl in
  let body := nl ++ lit "\documentclass{article}" ++ nl in
  let post := nl ++ lit "Done." in
  let plain := lit "  \documentclass{article} " ++ nl in
  (contains FENCE_LATEX (pre ++ removelast FENCE_LATEX) = false
   /\ contains FENCE (body ++ removelast FENCE) = false
   /\ _extract_latex_from_response (pre ++ FENCE_LATEX ++ body ++ FENCE ++ post)
      = strip body)
  /\ (contains FENCE plain = false
      /\ _extract_latex_from_response plain = strip plain).
Proof.
  intros pre body post plain.
  assert (H1 : contains FENCE_LATEX (pre ++ removelast FENCE_LATEX) = false)
    by (vm_compute; reflexivity).
  assert (H2 : contains FENCE (body ++ removelast FENCE) = false)
    by (vm_compute; reflexivity).
  assert (H3 : contains FENCE plain = false) by (vm_compute; reflexivity).
  split.
  - split; [exact H1|]. split; [exact H2|].
    exact (proj1 extract_latex_fenced_or_plain pre body post H1 H2).
  - split; [exact H3|].
    exact (proj2 extract_latex_fenced_or_plain plain H3).
Defined.

(** C1 as the specification words it fails: the block between the fences
    is returned trimmed, not verbatim. *)
Lemma extract_latex_not_verbatim :
  ~ (forall pre body post : pystr,
       contains FENCE_LATEX (pre ++ removelast FENCE_LATEX) = false ->
       contains FENCE (body ++ removelast FENCE) = false ->
       _extract_latex_from_response (pre ++ FENCE_LATEX ++ body ++ FENCE ++ post)
       = body).
Proof.
  intros Hclaim.
  assert (H1 : contains FENCE_LATEX ([] ++ removelast FENCE_LATEX) = false)
    by (vm_compute; reflexivity).
  assert (H2 : contains FENCE ((nl ++ lit "\documentclass{article}" ++ nl)
                               ++ removelast FENCE) = false)
    by (vm_compute; reflexivity).
  specialize (Hclaim [] (nl ++ lit "\documentclass{article}" ++ nl) [] H1 H2).
  vm_compute in Hclaim. discriminate Hclaim.
Qed.

(** C10, at a reply whose fenced block is never closed. *)
Lemma extract_latex_unclosed_fence_witness :
  let pre := lit "Sure: " in
  let rest := nl ++ lit "\documentclass{article}" in
  contains FENCE_LATEX (pre ++ removelast FENCE_LATEX) = false
  /\ contains FENCE rest = false
  /\ (find (pre ++ FENCE_LATEX ++ rest) FENCE
           (find (pre ++ FENCE_LATEX ++ rest) FENCE_LATEX 0 + 8) = -1
      /\ _extract_latex_from_response (pre ++ FENCE_LATEX ++ rest)
         = strip (removelast rest)).
Proof.
  intros pre rest.
  assert (H1 : contains FENCE_LATEX (pre ++ removelast FENCE_LATEX) = false)
    by (vm_compute; reflexivity).
  assert (H2 : contains FENCE rest = false) by (vm_compute; reflexivity).
  split; [exact H1|]. split; [exact H2|].
  exact (extract_latex_unclosed_fence pre rest H1 H2).
Defined.

(** C6, at a reply that announces its issues in prose before a fenced
    document, with a [json.loads] that rejects the span. *)
Lemma issues_span_and_parse_failure_witness :
  let document := lit "\documentclass{article}\begin{document}Hi\end{document}" in
  let reply :=
    lit "Found " ++ ISSUES_MARKER ++ lit " {none worth listing} " ++ nl
    ++ FENCE_LATEX ++ nl ++ document ++ nl ++ FENCE in
  let service := Double.scripted [Ok reply] in
  let json_loads := Double.json_table [] in
  (contains (lit "{") (lit "Found " ++ ISSUES_MARKER ++ lit " ") = false
   /\ contains (lit "}") (lit "none worth listing") = false
   /\ issues_span reply = lit "{none worth listing}")
  /\ (service [] (validation_call Double.texts document) = Ok reply
      /\ contains ISSUES_MARKER reply = true
      /\ json_loads (issues_span reply) = None
      /\ _validate_and_fix_latex service json_loads Double.texts document
           Double.empty_request []
         = (Ok (document, UNABLE_TO_PARSE, [lit "Fixed 1 LaTeX issues"]),
            [validation_call Double.texts document])).
Proof.
  intros document reply service json_loads.
  assert (H1 : contains (lit "{") (lit "Found " ++ ISSUES_MARKER ++ lit " ") = false)
    by (vm_compute; reflexivity).
  assert (H2 : contains (lit "}") (lit "none worth listing") = false)
    by (vm_compute; reflexivity).
  assert (H3 : service [] (validation_call Double.texts document) = Ok reply)
    by reflexivity.
  assert (H4 : contains ISSUES_MARKER reply = true) by (vm_compute; reflexivity).
  assert (H5 : json_loads (issues_span reply) = None) by (vm_compute; reflexivity).
  split.
  - split; [exact H1|]. split; [exact H2|].
    exact (proj1 (issues_span_and_parse_failure service json_loads Double.texts)
             (lit "Found " ++ ISSUES_MARKER ++ lit " ")
             (lit "none worth listing")
             (lit " " ++ nl ++ FENCE_LATEX ++ nl ++ document ++ nl ++ FENCE)
             H1 H2).
  - split; [exact H3|]. split; [exact H4|]. split; [exact H5|].
    exact (proj2 (proj2 (issues_span_and_parse_failure service json_loads Double.texts)
                    document Double.empty_request [] reply H3 H4 H5)).
Defined.

(** C6 as the specification words it fails.  On the reply the prompt asks
    for, the span the code parses starts at the first [{], before the marker
    text, where the reading of the specification finds no brace after the
    marker; and on a nested object the span ends at the first [}], not at
    the matching one. *)
Lemma issues_span_not_after_marker :
  let asked := lit "{" ++ ISSUES_MARKER ++ lit " [" ++ dq ++ lit "a" ++ dq ++ lit "]}" in
  let nested := ISSUES_MARKER ++ lit " {" ++ dq ++ lit "a" ++ dq ++ lit ": {}}" in
  (contains ISSUES_MARKER asked = true
   /\ find asked ISSUES_MARKER 0 = 1
   /\ find asked (lit "{") 0 = 0
   /\ issues_span asked = asked
   /\ spec_issues_span asked = []
   /\ issues_span asked <> spec_issues_span asked)
  /\ (contains ISSUES_MARKER nested = true
      /\ issues_span nested = lit "{" ++ dq ++ lit "a" ++ dq ++ lit ": {}"
      /\ spec_issues_span nested = lit "{" ++ dq ++ lit "a" ++ dq ++ lit ": {}}"
      /\ issues_span nested <> spec_issues_span nested).
Proof.
  intros asked nested.
  repeat split; try (vm_compute; reflexivity);
    intros H; vm_compute in H; discriminate H.
Qed.

(** C9, at a run whose first reply is a document and whose validation
    call is refused by the service. *)
Lemma generate_success_reflects_initial_step_witness :
  let document := lit "\documentclass{article}\begin{document}Hi\end{document}" in
  let service := Double.scripted [Ok document; Raise (Exception (lit "overloaded"))] in
  let json_loads := Double.json_table [] in
  let first_call := generation_call Double.prompt_of_title Double.empty_request in
  service [] first_call = Ok document
  /\ _extract_latex_from_response document <> []
  /\ generate_document service json_loads Double.prompt_of_title Double.texts
       Double.empty_request true []
     = (Ok {| success := true;
              latex_content := _extract_latex_from_response document;
              warnings := [VStr (lit "Validation failed: "
                                 ++ str_of_exc (Exception (lit "overloaded")))];
              improvements_made := [];
              error_message := None |},
        [validation_call Double.texts (_extract_latex_from_response document);
         first_call]).
Proof.
  intros document service json_loads first_call.
  assert (H1 : service [] first_call = Ok document) by reflexivity.
  assert (H2 : _extract_latex_from_response document <> [])
    by (vm_compute; discriminate).
  split; [exact H1|]. split; [exact H2|].
  exact (proj2 (proj2 (generate_success_reflects_initial_step
                         service json_loads Double.prompt_of_title Double.texts
                         Double.empty_request [] document H1 H2))
           (Exception (lit "overloaded")) eq_refl).
Defined.

(** C2 at its failing input: the validation reply is the JSON object
    the prompt asks for and nothing else, with [null] where the list of
    issues should be.  The candidate is shorter than half the document, so
    [_validate_and_fix_latex] returns the original document with [None] as
    its warnings, and [warnings.extend(None)] raises out of
    [generate_document]. *)
Lemma generate_document_raises_on_null_issues :
  let document := lit "\documentclass{article}\begin{document}Hi\end{document}" in
  let second := lit "{" ++ ISSUES_MARKER ++ lit " null}" in
  let service := Double.scripted [Ok document; Ok second] in
  let json_loads := Double.json_table [(second, VDict [(lit "issues", VNone)])] in
  let first_call := generation_call Double.prompt_of_title Double.empty_request in
  issues_span second = second
  /\ _validate_and_fix_latex service json_loads Double.texts document
       Double.empty_request [first_call]
     = (Ok (document, VNone, []),
        [validation_call Double.texts document; first_call])
  /\ generate_document service json_loads Double.prompt_of_title Double.texts
       Double.empty_request true []
     = (Raise (Exception (lit "'NoneType' object is not iterable")),
        [validation_call Double.texts document; first_call]).
Proof.
  intros document second service json_loads first_call.
  repeat split; vm_compute; reflexivity.
Qed.

(** C7, on a file of a header and seven epochs. *)
Lemma training_metrics_table_limited_witness :
  let text :=
    lit "epoch,loss" ++ nl ++ lit "1,0.9" ++ nl ++ lit "2,0.8" ++ nl
    ++ lit "3,0.7" ++ nl ++ lit "4,0.6" ++ nl ++ lit "5,0.5" ++ nl
    ++ lit "6,0.4" ++ nl ++ lit "7,0.3" in
  let read_text :=
    Double.files [(path_join data_dir (lit "training_metrics.csv"), text)] in
  read_text (path_join data_dir (lit "training_metrics.csv")) = Some text
  /\ 6 < Z.of_nat (length (Double.csv_plain text))
  /\ load_csv_tables read_text Double.csv_plain
     = [{| tbl_caption := lit "Training Progression (First 5 Epochs)";
           tbl_data := [[lit "epoch"; lit "loss"];
                        [lit "1"; lit "0.9"]; [lit "2"; lit "0.8"];
                        [lit "3"; lit "0.7"]; [lit "4"; lit "0.6"];
                        [lit "5"; lit "0.5"]];
           tbl_format := lit "booktabs" |}]
  /\ exists header r1 r2 r3 r4 r5 more first_table,
       Double.csv_plain text = header :: r1 :: r2 :: r3 :: r4 :: r5 :: more
       /\ (length first_table <= 1)%nat
       /\ load_csv_tables read_text Double.csv_plain
          = first_table
            ++ [{| tbl_caption := lit "Training Progression (First 5 Epochs)";
                   tbl_data := [header; r1; r2; r3; r4; r5];
                   tbl_format := lit "booktabs" |}].
Proof.
  intros text read_text.
  assert (H1 : read_text (path_join data_dir (lit "training_metrics.csv")) = Some text)
    by (vm_compute; reflexivity).
  assert (H2 : 6 < Z.of_nat (length (Double.csv_plain text)))
    by (vm_compute; reflexivity).
  split; [exact H1|]. split; [exact H2|].
  split; [vm_compute; reflexivity|].
  exact (training_metrics_table_limited read_text Double.csv_plain text H1 H2).
Defined.

(** C8, on a directory that holds [introduction.md] and nothing else. *)
Lemma loader_sections_in_declared_order_witness :
  let read_text :=
    Double.files [(path_join content_dir (lit "introduction.md"), lit "Hello")] in
  let path_exists := fun _ : pystr => false in
  let path_glob := fun _ _ : pystr => @nil pystr in
  let same := fun p : pystr => p in
  let path_relative_to := fun p _ : pystr => Ok p in
  read_text (path_join content_dir (lit "introduction.md")) = Some (lit "Hello")
  /\ load_all_markdown_sections read_text = sections_of_nonempty_files read_text
  /\ load_components read_text Double.csv_plain path_exists path_glob same same
       path_relative_to same (lit "artifacts/output")
     = Ok ([{| sec_title := lit "Introduction";
               sec_content := lit "Hello";
               sec_type := lit "markdown" |}],
           [], []).
Proof.
  intros read_text path_exists path_glob same path_relative_to.
  pose proof (loader_sections_in_declared_order read_text Double.csv_plain
                path_exists path_glob same same path_relative_to same
                (lit "artifacts/output")) as [Hsections Hscenario].
  assert (H1 : read_text (path_join content_dir (lit "introduction.md"))
               = Some (lit "Hello")) by (vm_compute; reflexivity).
  split; [exact H1|]. split; [exact Hsections|].
  apply Hscenario.
  - exact H1.
  - intros filename Hin. cbn [In] in Hin.
    repeat (destruct Hin as [<- | Hin]; [vm_compute; reflexivity|]).
    destruct Hin.
  - vm_compute; reflexivity.
  - vm_compute; reflexivity.
  - intros ext. reflexivity.
Defined.

(** C8 as the specification words it fails: a file that exists and is
    empty gives no section. *)
Lemma loader_skips_empty_file :
  let read_text :=
    Double.files [(path_join content_dir (lit "introduction.md"), [])] in
  read_text (path_join content_dir (lit "introduction.md")) = Some []
  /\ load_all_markdown_sections read_text = []
  /\ sections_of_existing_files read_text
     = [{| sec_title := lit "Introduction";
           sec_content := [];
           sec_type := lit "markdown" |}]
  /\ load_all_markdown_sections read_text <> sections_of_existing_files read_text.
Proof.
  intros read_text.
  repeat split; try (vm_compute; reflexivity).
  intros H. vm_compute in H. discriminate H.
Qed.

(** [self_correct_compilation_errors] on a service that fails, then sends
    a fragment, then a document: three calls, the third accepted; and on a
    service whose first reply is a document: one call. *)
Example self_correct_examples :
  let original := lit "\documentclass{article}\begin{document}Hi\end{document" in
  let fixed := lit "\documentclass{article}\begin{document}Hi\end{document}" in
  let run script :=
    self_correct_compilation_errors (Double.scripted script) Double.texts
      original (lit "! Missing } inserted.") 3 [] in
  let call := correction_call Double.texts original (lit "! Missing } inserted.") in
  run [Raise (Exception (lit "timeout")); Ok (lit "\end{document}"); Ok fixed]
  = (Ok (fixed, true, [lit "Attempt 3: Fixed compilation error"]), [call; call; call])
  /\ run [Ok (lit "```latex" ++ nl ++ fixed ++ nl ++ lit "```"); Ok original]
     = (Ok (fixed, true, [lit "Attempt 1: Fixed compilation error"]), [call])
  /\ run [Ok original; Ok []; Raise (Exception (lit "timeout")); Ok fixed]
     = (Ok (original, false, []), [call; call; call]).
Proof. repeat split; vm_compute; reflexivity. Qed.

(** [apply_visual_qa_fixes] on a reply without [\end{document}], on an
    unbalanced reply and on a sound one. *)
Example visual_qa_examples :
  let original := lit "\documentclass{article}\begin{document}Hi\end{document}" in
  let run reply issues :=
    fst (apply_visual_qa_fixes (Double.scripted [Ok reply]) Double.texts
           original issues []) in
  run (lit "\documentclass{article}\begin{document}Hi there") [lit "No page numbers"]
  = Ok (original, false, [])
  /\ run (lit "\documentclass{article}\begin{document}\begin{center}Hi\end{document}") []
     = Ok (original, false, [])
  /\ run original [lit "a"; lit "b"; lit "c"; lit "d"]
     = Ok (original, true, [lit "Applied fixes for: a, b, c"]).
Proof. repeat split; vm_compute; reflexivity. Qed.

(** [_validate_and_fix_latex] on a reply cut short, and on the reply the
    prompt asks for. *)
Example validate_examples :
  let original := lit "\documentclass{article}\begin{document}Hi\end{document}" in
  let issues := lit "{" ++ ISSUES_MARKER ++ lit " [" ++ dq ++ lit "a" ++ dq ++ lit "]}" in
  let json_loads :=
    Double.json_table [(issues, VDict [(lit "issues", VList [VStr (lit "a")])])] in
  let run reply :=
    fst (_validate_and_fix_latex (Double.scripted [Ok reply]) json_loads
           Double.texts original Double.empty_request []) in
  run (lit "\documentclass{art") = Ok (original, VList [], [])
  /\ run (issues ++ nl ++ lit "```latex" ++ nl ++ original ++ nl ++ lit "```")
     = Ok (original, VList [VStr (lit "a")], [lit "Fixed 1 LaTeX issues"]).
Proof. repeat split; vm_compute; reflexivity. Qed.

(** ** The prompts *)

(** The texts above have the length and the checksum of the strings of
    the source. *)
Example prompt_texts_checksums :
  Prompt.checksum Prompt.GENERATION_HEAD = (647, 601681%N)
  /\ Prompt.checksum Prompt.OUTPUT_INSTRUCTIONS = (885, 786149%N)
  /\ Prompt.checksum Prompt.VALIDATION_HEAD = (134, 786776%N)
  /\ Prompt.checksum Prompt.VALIDATION_TAIL = (663, 274760%N)
  /\ Prompt.checksum Prompt.FIX_HEAD = (155, 69004%N)
  /\ Prompt.checksum Prompt.FIX_MID = (25, 23262%N)
  /\ Prompt.checksum Prompt.FIX_TAIL = (1211, 552802%N)
  /\ Prompt.checksum Prompt.CORRECTION_HEAD = (143, 821560%N)
  /\ Prompt.checksum Prompt.CORRECTION_MID = (33, 44030%N)
  /\ Prompt.checksum Prompt.CORRECTION_TAIL = (1130, 123514%N).
Proof. repeat split; vm_compute; reflexivity. Qed.

Section PromptFacts.

Variable json_dumps : list (list pystr) -> pystr.

Lemma add_section_details_extends (sections : list section_dict) :
  forall prompt i,
    exists rest, Prompt.add_section_details prompt i sections = prompt ++ rest.
Proof.
  induction sections as [|section sections IH]; intros prompt i;
    cbn [Prompt.add_section_details].
  - exists []. now rewrite app_nil_r.
  - cbv zeta. destruct (IH ((prompt ++ Prompt.section_header i section)
                            ++ sec_content section) (i + 1)) as [rest ->].
    exists (Prompt.section_header i section ++ sec_content section ++ rest).
    now rewrite <- !app_assoc.
Qed.

Lemma add_section_details_holds (sections : list section_dict) :
  forall prompt i k section,
    nth_error sections k = Some section ->
    exists before after,
      Prompt.add_section_details prompt i sections
      = before
        ++ (Prompt.section_header (i + Z.of_nat k) section ++ sec_content section)
        ++ after.
Proof.
  induction sections as [|first sections IH]; intros prompt i k section Hk.
  - destruct k; discriminate.
  - cbn [Prompt.add_section_details]. cbv zeta. destruct k as [|k].
    + injection Hk as ->.
      destruct (add_section_details_extends sections
                  ((prompt ++ Prompt.section_header i section)
                   ++ sec_content section) (i + 1)) as [rest ->].
      exists prompt, rest. rewrite Z.add_0_r.
      repeat rewrite <- app_assoc. reflexivity.
    + destruct (IH ((prompt ++ Prompt.section_header i first)
                    ++ sec_content first) (i + 1) k section Hk)
        as (before & after & ->).
      exists before, after.
      now replace (i + 1 + Z.of_nat k) with (i + Z.of_nat (S k)) by lia.
Qed.

Lemma fold_left_extends {A} (f : pystr -> A -> pystr) :
  (forall p x, exists r, f p x = p ++ r) ->
  forall l p, exists r, fold_left f l p = p ++ r.
Proof.
  intros Hf. induction l as [|x l IH]; intros p; cbn [fold_left].
  - exists []. now rewrite app_nil_r.
  - destruct (Hf p x) as [r1 ->]. destruct (IH (p ++ r1)) as [r2 ->].
    exists (r1 ++ r2). now rewrite app_assoc.
Qed.

(** The generation prompt is the section details, what the tables and
    figures add, and the output instructions. *)
Lemma build_extends_details (request : LaTeXGenerationRequest) :
  exists rest,
    Prompt._build_generation_prompt json_dumps request
    = Prompt.add_section_details (Prompt.opening request) 1
        (content_sections request)
      ++ rest ++ Prompt.OUTPUT_INSTRUCTIONS.
Proof.
  assert (Htable : forall p x, exists r,
            Prompt.add_table_data json_dumps p x = p ++ r).
  { intros p x. unfold Prompt.add_table_data. cbv zeta.
    exists ((nl ++ lit "Table: " ++ tbl_caption x ++ nl)
            ++ (lit "Data: " ++ json_dumps (tbl_data x) ++ nl)).
    now rewrite <- app_assoc. }
  assert (Hfigure : forall p x, exists r,
            Prompt.add_figure_information p x = p ++ r).
  { intros p x. unfold Prompt.add_figure_information. cbv zeta.
    exists ((nl ++ lit "Figure: " ++ fig_caption x ++ nl)
            ++ (lit "Path: " ++ fig_path x ++ nl)
            ++ (lit "Width: " ++ fig_width x ++ nl)).
    now rewrite <- !app_assoc. }
  unfold Prompt._build_generation_prompt. cbv zeta.
  set (details := Prompt.add_section_details _ _ _).
  set (table_title := nl ++ nl ++ lit "**Table Data:**" ++ nl).
  set (figure_title := nl ++ nl ++ lit "**Figure Information:**" ++ nl).
  destruct (tables request) as [|t ts]; destruct (figures request) as [|f fs].
  - now exists [].
  - destruct (fold_left_extends _ Hfigure (f :: fs) (details ++ figure_title))
      as [r ->].
    exists (figure_title ++ r). now rewrite <- !app_assoc.
  - destruct (fold_left_extends _ Htable (t :: ts) (details ++ table_title))
      as [r ->].
    exists (table_title ++ r). now rewrite <- !app_assoc.
  - destruct (fold_left_extends _ Htable (t :: ts) (details ++ table_title))
      as [r1 ->].
    destruct (fold_left_extends _ Hfigure (f :: fs)
                (((details ++ table_title) ++ r1) ++ figure_title))
      as [r2 ->].
    exists (table_title ++ r1 ++ figure_title ++ r2). now rewrite <- !app_assoc.
Qed.

Lemma generation_prompt_holds_section (request : LaTeXGenerationRequest)
    (k : nat) (section : section_dict) :
  nth_error (content_sections request) k = Some section ->
  exists before after,
    Prompt._build_generation_prompt json_dumps request
    = before
      ++ (Prompt.section_header (Z.of_nat k + 1) section ++ sec_content section)
      ++ after.
Proof.
  intros Hk.
  destruct (build_extends_details request) as [rest ->].
  destruct (add_section_details_holds (content_sections request)
              (Prompt.opening request) 1 k section Hk)
    as (before & after & ->).
  exists before, (after ++ rest ++ Prompt.OUTPUT_INSTRUCTIONS).
  replace (1 + Z.of_nat k) with (Z.of_nat k + 1) by lia.
  repeat rewrite <- app_assoc. reflexivity.
Qed.

(** X20: the generation prompt opens with the fixed instructions and the
    title, closes with the output instructions, and in between holds every
    section of the request in full: for the section at position [k]
    (counted from 0) the header line [--- Section k+1: title ---] followed
    at once by the content of the section, verbatim. *)
Theorem generation_prompt_holds_every_section (request : LaTeXGenerationRequest) :
  (exists body,
     Prompt._build_generation_prompt json_dumps request
     = Prompt.GENERATION_HEAD ++ title request ++ body ++ Prompt.OUTPUT_INSTRUCTIONS)
  /\ forall k section,
       nth_error (content_sections request) k = Some section ->
       exists before after,
         Prompt._build_generation_prompt json_dumps request
         = before
           ++ (nl ++ nl ++ lit "--- Section " ++ str_of_int (Z.of_nat k + 1)
               ++ lit ": " ++ sec_title section ++ lit " ---" ++ nl)
           ++ sec_content section ++ after.
Proof.
  split.
  - destruct (build_extends_details request) as [rest ->].
    destruct (add_section_details_extends (content_sections request)
                (Prompt.opening request) 1) as [details ->].
    unfold Prompt.opening.
    exists (Prompt.after_title request ++ details ++ rest).
    now rewrite <- !app_assoc.
  - intros k section Hk.
    destruct (generation_prompt_holds_section request k section Hk)
      as (before & after & Hprompt).
    exists before, after. rewrite Hprompt. unfold Prompt.section_header.
    repeat rewrite <- app_assoc. reflexivity.
Qed.

End PromptFacts.

(** ** A prompt read back by the extraction *)

Lemma startswith_stops_at (sub u b : pystr) (c : N) :
  ~ In c sub ->
  startswith sub (u ++ c :: b) = true -> startswith sub u = true.
Proof.
  revert u. induction sub as [|s sub IH]; intros u Hc H; [reflexivity|].
  destruct u as [|d u]; cbn [app startswith] in *.
  - apply andb_prop in H. destruct H as [Hs _]. apply N.eqb_eq in Hs.
    exfalso. apply Hc. now left.
  - apply andb_prop in H. destruct H as [Hs Hrest]. rewrite Hs. cbn [andb].
    apply IH; [|exact Hrest]. intros Hin. apply Hc. now right.
Qed.

(** An occurrence of [sub] cannot run over a character [sub] does not
    hold. *)
Lemma contains_split_at (sub a b : pystr) (c : N) :
  ~ In c sub ->
  contains sub a = false -> contains sub b = false ->
  contains sub (a ++ c :: b) = false.
Proof.
  intros Hc Ha Hb. induction a as [|d a IH]; cbn [app].
  - rewrite contains_unfold, Hb, orb_false_r.
    destruct (startswith sub (c :: b)) eqn:E; [|reflexivity].
    apply (startswith_stops_at sub [] b c Hc) in E.
    rewrite contains_unfold, E in Ha. discriminate.
  - rewrite contains_unfold in Ha. apply orb_false_elim in Ha.
    destruct Ha as [Hhere Hlater].
    rewrite contains_unfold, (IH Hlater), orb_false_r.
    destruct (startswith sub (d :: a ++ c :: b)) eqn:E; [|reflexivity].
    apply (startswith_stops_at sub (d :: a) b c Hc) in E. congruence.
Qed.

Lemma strip_between_newlines (doc : pystr) : strip (nl ++ doc ++ nl) = strip doc.
Proof.
  unfold strip. change (lstrip (nl ++ doc ++ nl)) with (lstrip (doc ++ [10%N])).
  rewrite lstrip_snoc. destruct (lstrip doc) as [|d l]; [reflexivity|].
  unfold rstrip. rewrite rev_app_distr. reflexivity.
Qed.

(** A document without fence marker, set between [```latex] and [```] on
    lines of their own, is what extraction returns, trimmed. *)
Lemma extract_reads_back (head tail doc : pystr) :
  (exists pre, head = pre ++ FENCE_LATEX ++ nl
               /\ contains FENCE_LATEX (pre ++ removelast FENCE_LATEX) = false) ->
  (exists post, tail = nl ++ FENCE ++ post) ->
  contains FENCE doc = false ->
  _extract_latex_from_response (head ++ doc ++ tail) = strip doc.
Proof.
  intros (pre & -> & Hpre) (post & ->) Hdoc.
  replace ((pre ++ FENCE_LATEX ++ nl) ++ doc ++ nl ++ FENCE ++ post)
    with (pre ++ FENCE_LATEX ++ (nl ++ doc ++ nl) ++ FENCE ++ post)
    by (repeat rewrite <- app_assoc; reflexivity).
  unfold _extract_latex_from_response. rewrite contains_intro.
  change 8 with (len FENCE_LATEX).
  rewrite fenced_block; try (assumption || discriminate).
  - apply strip_between_newlines.
  - replace ((nl ++ doc ++ nl) ++ removelast FENCE)
      with ([] ++ 10%N :: (doc ++ 10%N :: lit "``"))
      by (change nl with [10%N]; cbn [app]; rewrite <- app_assoc; reflexivity).
    assert (Hnl : ~ In 10%N FENCE).
    { cbn. intros [H|[H|[H|[]]]]; discriminate. }
    apply contains_split_at; [exact Hnl | reflexivity |].
    apply contains_split_at; [exact Hnl | exact Hdoc | reflexivity].
Qed.

(** X21: each of the three correction prompts of the source sets the
    document in a fenced block that the extraction reads back: on the prompt
    itself, extraction returns the document trimmed, provided the document
    holds no fence marker. *)
Theorem prompts_read_back (latex_content compilation_error : pystr)
    (issues : list pystr) :
  contains FENCE latex_content = false ->
  _extract_latex_from_response
    (prompt (validation_call Prompt.source_texts latex_content))
  = strip latex_content
  /\ _extract_latex_from_response
       (prompt (fix_call Prompt.source_texts latex_content issues))
     = strip latex_content
  /\ _extract_latex_from_response
       (prompt (correction_call Prompt.source_texts latex_content compilation_error))
     = strip latex_content.
Proof.
  intros Hdoc.
  unfold validation_call, fix_call, correction_call, make_call.
  cbn [prompt Prompt.source_texts validation_head validation_tail fix_head
       fix_mid fix_tail correction_head correction_mid correction_tail].
  split; [|split].
  - apply extract_reads_back; [| |exact Hdoc].
    + exists (firstn 125 Prompt.VALIDATION_HEAD). split; vm_compute; reflexivity.
    + exists (skipn 4 Prompt.VALIDATION_TAIL). vm_compute; reflexivity.
  - apply extract_reads_back; [| |exact Hdoc].
    + exists (firstn 146 Prompt.FIX_HEAD). split; vm_compute; reflexivity.
    + exists (skipn 4 Prompt.FIX_MID
              ++ join nl (map (fun issue => lit "- " ++ issue) issues)
              ++ Prompt.FIX_TAIL).
      assert (Hmid : Prompt.FIX_MID = nl ++ FENCE ++ skipn 4 Prompt.FIX_MID)
        by (vm_compute; reflexivity).
      rewrite Hmid at 1. repeat rewrite <- app_assoc. reflexivity.
  - apply extract_reads_back; [| |exact Hdoc].
    + exists (firstn 134 Prompt.CORRECTION_HEAD). split; vm_compute; reflexivity.
    + exists (skipn 4 Prompt.CORRECTION_MID
              ++ compilation_error ++ Prompt.CORRECTION_TAIL).
      assert (Hmid : Prompt.CORRECTION_MID
                     = nl ++ FENCE ++ skipn 4 Prompt.CORRECTION_MID)
        by (vm_compute; reflexivity).
      rewrite Hmid at 1. repeat rewrite <- app_assoc. reflexivity.
Qed.

(** ** From the files to the service *)

Section EndToEnd.

Variable service : world -> api_request -> result pystr.
Variable json_loads : pystr -> option pyval.
Variable json_dumps : list (list pystr) -> pystr.
Variable read_text : pystr -> option pystr.
Variable csv_reader : pystr -> list (list pystr).
Variable path_exists : pystr -> bool.
Variable path_glob : pystr -> pystr -> list pystr.
Variable path_stem : pystr -> pystr.
Variable path_parent : pystr -> pystr.
Variable path_relative_to : pystr -> pystr -> result pystr.
Variable str_title : pystr -> pystr.
Variable output_dir : pystr.
Variable get_context_for_author : pystr.
Variable pdf_compile : list (pystr * pystr) -> pystr -> bool * pystr.

(** The orchestrator with the prompts of the source. *)
Local Abbreviation run :=
  (generate_and_compile service json_loads
     (Prompt._build_generation_prompt json_dumps) Prompt.source_texts
     read_text csv_reader path_exists path_glob path_stem path_parent
     path_relative_to str_title output_dir get_context_for_author pdf_compile).

Local Abbreviation figures_loaded :=
  (load_figures path_exists path_glob path_stem path_parent path_relative_to
     str_title output_dir).

(** X22: when the figures load, a run of [generate_and_compile] sends
    the generation call, first and followed by one more call at most, and
    the prompt of that call holds in full the text of every markdown file of
    the fixed list that exists and is not empty, right after the header
    line that ends with the title declared for the file. *)
Theorem markdown_text_reaches_the_service (h : host)
    (figures : list figure_dict) (filename title content : pystr) :
  figures_loaded = Ok figures ->
  In (filename, title) markdown_files ->
  read_text (path_join content_dir filename) = Some content ->
  content <> [] ->
  exists later call,
    host_calls (snd (run h)) = later ++ call :: host_calls h
    /\ (length later <= 1)%nat
    /\ model call = MODEL_ID
    /\ contains (lit ": " ++ title ++ lit " ---" ++ nl ++ content) (prompt call)
       = true
    /\ contains content (prompt call) = true.
Proof.
  intros Hfigures Hentry Hread Hne.
  set (request :=
         patterns_request get_context_for_author
           (load_all_markdown_sections read_text)
           (load_csv_tables read_text csv_reader) figures).
  set (call := generation_call (Prompt._build_generation_prompt json_dumps) request).
  assert (Hcalls : exists later,
            host_calls (snd (run h)) = later ++ call :: host_calls h
            /\ (length later <= 1)%nat).
  { rewrite compile_keeps_calls, patterns_run, Hfigures. fold request.
    rewrite generate_world. fold call.
    destruct (service (host_calls h) call) as [t|e];
      [destruct (true && negb (is_empty (_extract_latex_from_response t)))|].
    - eexists [_]. split; [reflexivity | cbn; lia].
    - exists []. split; [reflexivity | cbn; lia].
    - exists []. split; [reflexivity | cbn; lia]. }
  destruct Hcalls as (later & Hlater & Hlen).
  exists later, call. split; [exact Hlater|]. split; [exact Hlen|].
  split; [reflexivity|].
  pose proof (section_of_file read_text filename title content Hentry Hread Hne)
    as Hin.
  apply In_nth_error in Hin. destruct Hin as [k Hk].
  destruct (generation_prompt_holds_section json_dumps request k _ Hk)
    as (before & after & Hprompt).
  unfold call, generation_call, make_call. cbn [prompt]. rewrite Hprompt.
  unfold Prompt.section_header. cbn [sec_title sec_content].
  split.
  - replace (before
             ++ ((nl ++ nl ++ lit "--- Section " ++ str_of_int (Z.of_nat k + 1)
                  ++ lit ": " ++ title ++ lit " ---" ++ nl) ++ content)
             ++ after)
      with ((before ++ nl ++ nl ++ lit "--- Section "
             ++ str_of_int (Z.of_nat k + 1))
            ++ (lit ": " ++ title ++ lit " ---" ++ nl ++ content) ++ after)
      by (repeat rewrite <- app_assoc; reflexivity).
    apply contains_intro.
  - replace (before
             ++ ((nl ++ nl ++ lit "--- Section " ++ str_of_int (Z.of_nat k + 1)
                  ++ lit ": " ++ title ++ lit " ---" ++ nl) ++ content)
             ++ after)
      with ((before ++ nl ++ nl ++ lit "--- Section "
             ++ str_of_int (Z.of_nat k + 1) ++ lit ": " ++ title
             ++ lit " ---" ++ nl)
            ++ content ++ after)
      by (repeat rewrite <- app_assoc; reflexivity).
    apply contains_intro.
Qed.

End EndToEnd.

(** ** The further properties at concrete inputs *)

(** X1, at a reply whose block carries the tag [tex]. *)
Lemma extract_plain_fence_witness :
  let pre := lit "Result:" ++ nl in
  let body := lit "tex" ++ nl ++ lit "\title{T}" ++ nl in
  let post := lit " done" in
  contains FENCE_LATEX (pre ++ FENCE ++ body ++ FENCE ++ post) = false
  /\ contains FENCE (pre ++ removelast FENCE) = false
  /\ contains FENCE (body ++ removelast FENCE) = false
  /\ _extract_latex_from_response (pre ++ FENCE ++ body ++ FENCE ++ post)
     = strip body.
Proof.
  intros pre body post.
  assert (H1 : contains FENCE_LATEX (pre ++ FENCE ++ body ++ FENCE ++ post) = false)
    by (vm_compute; reflexivity).
  assert (H2 : contains FENCE (pre ++ removelast FENCE) = false)
    by (vm_compute; reflexivity).
  assert (H3 : contains FENCE (body ++ removelast FENCE) = false)
    by (vm_compute; reflexivity).
  split; [exact H1|]. split; [exact H2|]. split; [exact H3|].
  exact (extract_plain_fence pre body post H1 H2 H3).
Defined.

(** X4, at a reply that is a fenced document and nothing else. *)
Lemma validate_without_marker_witness :
  let document := lit "\documentclass{article}\begin{document}Hi\end{document}" in
  let reply := FENCE_LATEX ++ nl ++ document ++ nl ++ FENCE in
  let service := Double.scripted [Ok reply] in
  service [] (validation_call Double.texts document) = Ok reply
  /\ contains ISSUES_MARKER reply = false
  /\ _validate_and_fix_latex service (Double.json_table []) Double.texts document
       Double.empty_request []
     = (Ok (document, VList [], []), [validation_call Double.texts document]).
Proof.
  intros document reply service.
  assert (H1 : service [] (validation_call Double.texts document) = Ok reply)
    by reflexivity.
  assert (H2 : contains ISSUES_MARKER reply = false) by (vm_compute; reflexivity).
  split; [exact H1|]. split; [exact H2|].
  exact (validate_without_marker service (Double.json_table []) Double.texts
           document Double.empty_request [] reply H1 H2).
Defined.


(** X6, at a reply with [null] for the issues and a sound document. *)
Lemma validate_drops_candidate_on_unsized_issues_witness :
  let document := lit "\documentclass{article}\begin{document}Hi\end{document}" in
  let issues_json := lit "{" ++ ISSUES_MARKER ++ lit " null}" in
  let reply := issues_json ++ nl ++ FENCE_LATEX ++ nl ++ document ++ nl ++ FENCE in
  let d := [(lit "issues", VNone)] in
  let service := Double.scripted [Ok reply] in
  let json_loads := Double.json_table [(issues_json, VDict d)] in
  service [] (validation_call Double.texts document) = Ok reply
  /\ contains ISSUES_MARKER reply = true
  /\ json_loads (issues_span reply) = Some (VDict d)
  /\ assoc_get d (lit "issues") (VList []) = VNone
  /\ _extract_latex_from_response reply = document
  /\ _validate_and_fix_latex service json_loads Double.texts document
       Double.empty_request []
     = (Ok (document,
            VList [VStr (lit "Validation failed: object of type '"
                         ++ type_name VNone ++ lit "' has no len()")],
            []),
        [validation_call Double.texts document]).
Proof.
  intros document issues_json reply d service json_loads.
  assert (H1 : service [] (validation_call Double.texts document) = Ok reply)
    by reflexivity.
  assert (H2 : contains ISSUES_MARKER reply = true) by (vm_compute; reflexivity).
  assert (H3 : json_loads (issues_span reply) = Some (VDict d))
    by (vm_compute; reflexivity).
  assert (H4 : assoc_get d (lit "issues") (VList []) = VNone)
    by (vm_compute; reflexivity).
  assert (H5 : _extract_latex_from_response reply = document)
    by (vm_compute; reflexivity).
  assert (H6 : _extract_latex_from_response reply <> [])
    by (rewrite H5; discriminate).
  assert (H7 : len document <= 2 * len (_extract_latex_from_response reply))
    by (vm_compute; discriminate).
  split; [exact H1|]. split; [exact H2|]. split; [exact H3|].
  split; [exact H4|]. split; [exact H5|].
  exact (validate_drops_candidate_on_unsized_issues service json_loads
           Double.texts document Double.empty_request [] reply d VNone
           H1 H2 H3 H4
           (fun s H => eq_ind VNone (fun v => match v with VNone => True | _ => False end) I _ H)
           (fun l H => eq_ind VNone (fun v => match v with VNone => True | _ => False end) I _ H)
           (fun d' H => eq_ind VNone (fun v => match v with VNone => True | _ => False end) I _ H)
           H6 H7).
Defined.

(** X7, at a service that refuses the first call. *)
Lemma generate_initial_failure_skips_validation_witness :
  let service := Double.scripted [Raise (Exception (lit "overloaded"))] in
  let first_call := generation_call Double.prompt_of_title Double.empty_request in
  (exists e, service [] first_call = Raise e)
  /\ generate_document service (Double.json_table []) Double.prompt_of_title
       Double.texts Double.empty_request true []
     = (Ok {| success := false;
              latex_content := [];
              warnings := [];
              improvements_made := [];
              error_message := Some (lit "Failed to generate initial LaTeX") |},
        [first_call]).
Proof.
  intros service first_call.
  assert (H1 : exists e, service [] first_call = Raise e)
    by (exists (Exception (lit "overloaded")); reflexivity).
  split; [exact H1|].
  exact (proj1 (generate_initial_failure_skips_validation service
                  (Double.json_table []) Double.prompt_of_title Double.texts
                  Double.empty_request true [] (or_introl H1))).
Defined.

(** X8, at a run without validation that yields a document. *)
Lemma generate_result_shapes_witness :
  let document := lit "\documentclass{article}\begin{document}Hi\end{document}" in
  let service := Double.scripted [Ok document] in
  let r := {| success := true;
              latex_content := document;
              warnings := [];
              improvements_made := [];
              error_message := None |} in
  let w' := [generation_call Double.prompt_of_title Double.empty_request] in
  generate_document service (Double.json_table []) Double.prompt_of_title
    Double.texts Double.empty_request false [] = (Ok r, w')
  /\ (success r = true <-> latex_content r <> [])
  /\ (success r = true <-> error_message r = None).
Proof.
  intros document service r w'.
  assert (H1 : generate_document service (Double.json_table [])
                 Double.prompt_of_title Double.texts Double.empty_request false []
               = (Ok r, w')) by (vm_compute; reflexivity).
  split; [exact H1|].
  destruct (generate_result_shapes service (Double.json_table [])
              Double.prompt_of_title Double.texts Double.empty_request false []
              r w' H1) as (Hdoc & Herr & _).
  split; [exact Hdoc | exact Herr].
Defined.

(** X11, at four issues. *)
Lemma visual_qa_fixes_name_three_issues_witness :
  let document := lit "\documentclass{article}\begin{document}Hi\end{document}" in
  let issues := [lit "a"; lit "b"; lit "c"; lit "d"] in
  let service := Double.scripted [Ok document] in
  service [] (fix_call Double.texts document issues) = Ok document
  /\ balanced_and_valid (_extract_latex_from_response document) document
  /\ apply_visual_qa_fixes service Double.texts document issues []
     = (Ok (document, true, [lit "Applied fixes for: a, b, c"]),
        [fix_call Double.texts document issues]).
Proof.
  intros document issues service.
  assert (H1 : service [] (fix_call Double.texts document issues) = Ok document)
    by reflexivity.
  assert (H2 : balanced_and_valid (_extract_latex_from_response document) document)
    by (apply visual_qa_accepts_iff; vm_compute; reflexivity).
  split; [exact H1|]. split; [exact H2|].
  exact (visual_qa_fixes_name_three_issues service Double.texts document issues
           [] document H1 H2).
Defined.

(** X14, on a directory with one PNG and one PDF image. *)
Lemma load_figures_one_per_match_witness :
  let png := lit "artifacts/sample_content/images/loss_curve.png" in
  let pdf := lit "artifacts/sample_content/images/model_layout.pdf" in
  let path_exists := fun _ : pystr => true in
  let path_glob := Double.glob_table [(lit "*.png", [png]); (lit "*.pdf", [pdf])] in
  let path_parent := fun _ : pystr => lit "artifacts" in
  let keep := fun s : pystr => s in
  path_exists images_dir = true
  /\ image_matches path_glob = [png; pdf]
  /\ load_figures path_exists path_glob Double.stem_of path_parent
       Double.relative_under keep (lit "artifacts/output")
     = Ok [{| fig_path := lit "sample_content/images/loss_curve.png";
              fig_caption := lit "loss curve";
              fig_width := lit "0.8\textwidth" |};
           {| fig_path := lit "sample_content/images/model_layout.pdf";
              fig_caption := lit "model layout";
              fig_width := lit "0.8\textwidth" |}]
  /\ exists figures,
       load_figures path_exists path_glob Double.stem_of path_parent
         Double.relative_under keep (lit "artifacts/output") = Ok figures
       /\ length figures = 2%nat.
Proof.
  intros png pdf path_exists path_glob path_parent keep.
  assert (H1 : path_exists images_dir = true) by reflexivity.
  assert (H2 : forall p, In p (image_matches path_glob) ->
                 exists rel,
                   Double.relative_under p (path_parent (lit "artifacts/output"))
                   = Ok rel).
  { intros p Hin.
    change (In p [png; pdf]) in Hin.
    destruct Hin as [<- | [<- | []]]; eexists; vm_compute; reflexivity. }
  split; [exact H1|]. split; [vm_compute; reflexivity|].
  split; [vm_compute; reflexivity|].
  destruct (load_figures_one_per_match path_exists path_glob Double.stem_of
              path_parent Double.relative_under keep (lit "artifacts/output")
              H1 H2) as (figures & Hrun & Hlength & _).
  exists figures. split; [exact Hrun | exact Hlength].
Defined.

(** X15, on a listing whose second image lies outside [artifacts/]. *)
Lemma load_figures_fails_as_a_whole_witness :
  let inside := lit "artifacts/sample_content/images/loss_curve.png" in
  let outside := lit "/tmp/elsewhere.png" in
  let e := Exception (lit "path is not in the subpath of the parent") in
  let path_exists := fun _ : pystr => true in
  let path_glob := Double.glob_table [(lit "*.png", [inside; outside])] in
  let path_parent := fun _ : pystr => lit "artifacts" in
  let keep := fun s : pystr => s in
  path_exists images_dir = true
  /\ image_matches path_glob = [inside] ++ outside :: []
  /\ Double.relative_under outside (path_parent (lit "artifacts/output")) = Raise e
  /\ load_figures path_exists path_glob Double.stem_of path_parent
       Double.relative_under keep (lit "artifacts/output") = Raise e
  /\ load_components (Double.files []) Double.csv_plain path_exists path_glob
       Double.stem_of path_parent Double.relative_under keep
       (lit "artifacts/output") = Raise e.
Proof.
  intros inside outside e path_exists path_glob path_parent keep.
  assert (H1 : path_exists images_dir = true) by reflexivity.
  assert (H2 : image_matches path_glob = [inside] ++ outside :: [])
    by (vm_compute; reflexivity).
  assert (H3 : forall q, In q [inside] ->
                 exists rel,
                   Double.relative_under q (path_parent (lit "artifacts/output"))
                   = Ok rel).
  { intros q [<- | []]. eexists; vm_compute; reflexivity. }
  assert (H4 : Double.relative_under outside (path_parent (lit "artifacts/output"))
               = Raise e) by (vm_compute; reflexivity).
  split; [exact H1|]. split; [exact H2|]. split; [exact H4|].
  exact (load_figures_fails_as_a_whole (Double.files []) Double.csv_plain
           path_exists path_glob Double.stem_of path_parent Double.relative_under
           keep (lit "artifacts/output") [inside] [] outside e H1 H2 H3 H4).
Defined.

(** X16, on a directory with one markdown file and a service that
    refuses the call. *)
Lemma compile_skipped_on_generation_failure_witness :
  let read_text :=
    Double.files [(path_join content_dir (lit "introduction.md"), lit "Hello")] in
  let service := Double.scripted [Raise (Exception (lit "overloaded"))] in
  let path_exists := fun _ : pystr => false in
  let path_glob := fun _ _ : pystr => @nil pystr in
  let keep := fun s : pystr => s in
  let h := {| host_calls := []; host_files := []; host_compiled := [] |} in
  let request :=
    patterns_request [] (load_all_markdown_sections read_text)
      (load_csv_tables read_text Double.csv_plain) [] in
  load_figures path_exists path_glob keep keep Double.relative_under keep
    (lit "artifacts/output") = Ok []
  /\ (exists e, service (host_calls h)
                  (generation_call Double.prompt_of_title request) = Raise e)
  /\ generate_and_compile service (Double.json_table []) Double.prompt_of_title
       Double.texts read_text Double.csv_plain path_exists path_glob keep keep
       Double.relative_under keep (lit "artifacts/output") []
       Double.compile_if_written h
     = (Ok (GenerationFailed (Some (lit "Failed to generate initial LaTeX"))),
        {| host_calls := [generation_call Double.prompt_of_title request];
           host_files := [];
           host_compiled := [] |}).
Proof.
  intros read_text service path_exists path_glob keep h request.
  assert (H1 : load_figures path_exists path_glob keep keep Double.relative_under
                 keep (lit "artifacts/output") = Ok []) by reflexivity.
  assert (H2 : exists e, service (host_calls h)
                           (generation_call Double.prompt_of_title request)
                         = Raise e)
    by (exists (Exception (lit "overloaded")); reflexivity).
  split; [exact H1|]. split; [exact H2|].
  exact (compile_skipped_on_generation_failure service (Double.json_table [])
           Double.prompt_of_title Double.texts read_text Double.csv_plain
           path_exists path_glob keep keep Double.relative_under keep
           (lit "artifacts/output") [] Double.compile_if_written h [] H1
           (or_introl H2)).
Defined.

(** X17, on a run whose two replies are the same sound document. *)
Lemma compile_follows_write_witness :
  let document := lit "\documentclass{article}\begin{document}Hi\end{document}" in
  let read_text :=
    Double.files [(path_join content_dir (lit "introduction.md"), lit "Hello")] in
  let service := Double.scripted [Ok document; Ok document] in
  let path_exists := fun _ : pystr => false in
  let path_glob := fun _ _ : pystr => @nil pystr in
  let keep := fun s : pystr => s in
  let h := {| host_calls := []; host_files := []; host_compiled := [] |} in
  let request :=
    patterns_request [] (load_all_markdown_sections read_text)
      (load_csv_tables read_text Double.csv_plain) [] in
  let r := {| success := true;
              latex_content := document;
              warnings := [];
              improvements_made := [];
              error_message := None |} in
  let w' := [validation_call Double.texts document;
             generation_call Double.prompt_of_title request] in
  let tex := lit "artifacts/output/research_report.tex" in
  generate_with_patterns service (Double.json_table []) Double.prompt_of_title
    Double.texts read_text Double.csv_plain path_exists path_glob keep keep
    Double.relative_under keep (lit "artifacts/output") [] (host_calls h)
  = (Ok r, w')
  /\ success r = true
  /\ latex_content r <> []
  /\ snd (generate_and_compile service (Double.json_table [])
            Double.prompt_of_title Double.texts read_text Double.csv_plain
            path_exists path_glob keep keep Double.relative_under keep
            (lit "artifacts/output") [] Double.compile_if_written h)
     = {| host_calls := w';
          host_files := [(tex, document)];
          host_compiled := [tex] |}.
Proof.
  intros document read_text service path_exists path_glob keep h request r w' tex.
  assert (H1 : generate_with_patterns service (Double.json_table [])
                 Double.prompt_of_title Double.texts read_text Double.csv_plain
                 path_exists path_glob keep keep Double.relative_under keep
                 (lit "artifacts/output") [] (host_calls h) = (Ok r, w'))
    by (vm_compute; reflexivity).
  assert (H2 : success r = true) by reflexivity.
  split; [exact H1|]. split; [exact H2|].
  destruct (compile_follows_write service (Double.json_table [])
              Double.prompt_of_title Double.texts read_text Double.csv_plain
              path_exists path_glob keep keep Double.relative_under keep
              (lit "artifacts/output") [] Double.compile_if_written h r w' H1 H2)
    as (Hdoc & ok & message & _ & Hrun).
  split; [exact Hdoc|]. rewrite Hrun. vm_compute. reflexivity.
Defined.

(** X19, on a listing whose only image lies outside [artifacts/]. *)
Lemma figures_failure_aborts_run_witness :
  let e := Exception (lit "path is not in the subpath of the parent") in
  let service := Double.scripted [Ok (lit "\documentclass{article}")] in
  let path_exists := fun _ : pystr => true in
  let path_glob := Double.glob_table [(lit "*.png", [lit "/tmp/elsewhere.png"])] in
  let path_parent := fun _ : pystr => lit "artifacts" in
  let keep := fun s : pystr => s in
  let h := {| host_calls := []; host_files := []; host_compiled := [] |} in
  let run :=
    generate_and_compile service (Double.json_table []) Double.prompt_of_title
      Double.texts (Double.files []) Double.csv_plain path_exists path_glob
      Double.stem_of path_parent Double.relative_under keep
      (lit "artifacts/output") [] Double.compile_if_written h in
  load_figures path_exists path_glob Double.stem_of path_parent
    Double.relative_under keep (lit "artifacts/output") = Raise e
  /\ fst run = Raise e
  /\ host_calls (snd run) = []
  /\ host_files (snd run) = []
  /\ host_compiled (snd run) = [].
Proof.
  intros e service path_exists path_glob path_parent keep h run.
  assert (H1 : load_figures path_exists path_glob Double.stem_of path_parent
                 Double.relative_under keep (lit "artifacts/output") = Raise e)
    by (vm_compute; reflexivity).
  split; [exact H1|].
  exact (figures_failure_aborts_run service (Double.json_table [])
           Double.prompt_of_title Double.texts (Double.files []) Double.csv_plain
           path_exists path_glob Double.stem_of path_parent Double.relative_under
           keep (lit "artifacts/output") [] Double.compile_if_written h e H1).
Defined.

(** X21, at a small document. *)
Lemma prompts_read_back_witness :
  let document := lit "\documentclass{article}\begin{document}Hi\end{document}" in
  contains FENCE document = false
  /\ _extract_latex_from_response
       (prompt (validation_call Prompt.source_texts document))
     = strip document
  /\ _extract_latex_from_response
       (prompt (fix_call Prompt.source_texts document [lit "No page numbers"]))
     = strip document
  /\ _extract_latex_from_response
       (prompt (correction_call Prompt.source_texts document
                  (lit "! Missing } inserted.")))
     = strip document.
Proof.
  intros document.
  assert (H1 : contains FENCE document = false) by (vm_compute; reflexivity).
  split; [exact H1|].
  exact (prompts_read_back document (lit "! Missing } inserted.")
           [lit "No page numbers"] H1).
Defined.

(** X22, on a directory with one markdown file. *)
Lemma markdown_text_reaches_the_service_witness :
  let read_text :=
    Double.files [(path_join content_dir (lit "introduction.md"), lit "Hello")] in
  let service := Double.scripted [Raise (Exception (lit "overloaded"))] in
  let json_dumps := fun _ : list (list pystr) => lit "[]" in
  let path_exists := fun _ : pystr => false in
  let path_glob := fun _ _ : pystr => @nil pystr in
  let keep := fun s : pystr => s in
  let h := {| host_calls := []; host_files := []; host_compiled := [] |} in
  load_figures path_exists path_glob keep keep Double.relative_under keep
    (lit "artifacts/output") = Ok []
  /\ In (lit "introduction.md", lit "Introduction") markdown_files
  /\ read_text (path_join content_dir (lit "introduction.md")) = Some (lit "Hello")
  /\ lit "Hello" <> []
  /\ exists later call,
       host_calls
         (snd (generate_and_compile service (Double.json_table [])
                 (Prompt._build_generation_prompt json_dumps) Prompt.source_texts
                 read_text Double.csv_plain path_exists path_glob keep keep
                 Double.relative_under keep (lit "artifacts/output") []
                 Double.compile_if_written h))
       = later ++ call :: host_calls h
       /\ contains (lit "Hello") (prompt call) = true.
Proof.
  intros read_text service json_dumps path_exists path_glob keep h.
  assert (H1 : load_figures path_exists path_glob keep keep Double.relative_under
                 keep (lit "artifacts/output") = Ok []) by reflexivity.
  assert (H2 : In (lit "introduction.md", lit "Introduction") markdown_files)
    by (left; reflexivity).
  assert (H3 : read_text (path_join content_dir (lit "introduction.md"))
               = Some (lit "Hello")) by (vm_compute; reflexivity).
  assert (H4 : lit "Hello" <> []) by discriminate.
  split; [exact H1|]. split; [exact H2|]. split; [exact H3|]. split; [exact H4|].
  destruct (markdown_text_reaches_the_service service (Double.json_table [])
              json_dumps read_text Double.csv_plain path_exists path_glob keep
              keep Double.relative_under keep (lit "artifacts/output") []
              Double.compile_if_written h [] (lit "introduction.md")
              (lit "Introduction") (lit "Hello") H1 H2 H3 H4)
    as (later & call & Hcalls & _ & _ & _ & Hcontent).
  exists later, call. split; [exact Hcalls | exact Hcontent].
Defined.
